(** * Authentication and session core of the user/product API

    A shallow embedding of [UserService] (services/UserService.ts), of the
    middlewares [authProtect] (middleware/authProtect.ts) and [restrictTo]
    (middleware/roleHandler.ts), of the token helpers (utils/token.ts), of
    the handlers of controllers/userController.ts with their routes, of
    two handlers of controllers/authController.ts, of [parseQuery]
    (utils/queryHelper.ts) and of [generateSku] (utils/generateSku.ts),
    with the properties of the accounts and of the session lifecycle
    proved over it.

    Modelling choices, all read off the source:

    - the [User] collection is a finite map from [_id] to the fields that
      [userSchema] declares; [findById] is a lookup, [findOne] returns the
      first document, in the order of the collection, that satisfies the
      filter, and [doc.save()] writes the document back under its [_id].
      The setters of the schema ([trim], [lowercase]) run on the values
      that a document is given and on the values of a query filter, and
      its validators run before a document is written. An [_id] is the
      hexadecimal string of the [ObjectId]; an id that arrives in the path
      of a request is cast to it, one that comes out of a verified token
      is the [_id] that was signed. The bookkeeping
      that the store adds on its own ([createdAt], [updatedAt]) is not
      modelled, and a value has the type of its path;
    - a service method is a computation over the world (collection and
      outgoing mail) that either returns or throws; whatever was saved
      before a throw stays saved, as in the source;
    - [jsonwebtoken], [bcrypt], [crypto] and the driver's [ObjectId] are
      interfaces ([Jwt], [Hashing], [Bson]), and so are the string methods
      of the runtime ([JsString]); the clock ([Date.now()]), the
      random token ([crypto.randomBytes]), the bcrypt salt and the [_id]
      of a new document are explicit arguments. *)

From Stdlib Require Import ZArith Ascii String.
From stdpp Require Import base option strings list gmap fin_maps.

Local Open Scope Z_scope.
Local Open Scope string_scope.

(** ** Data model (types/IUser.ts, models/UserModel.ts) *)

Abbreviation ObjectId := string (only parsing).
Abbreviation Time := Z (only parsing).

Inductive Role : Type := RoleUser | RoleAdmin.

#[global] Instance Role_eq_dec : EqDecision Role.
Proof. solve_decision. Defined.

Record User : Type := mkUser {
  username : string;
  email : string;
  password : string;
  role : Role;
  isVerified : bool;
  isActive : bool;
  refreshToken : option string;
  emailVerificationToken : option string;
  emailVerificationExpires : option Time;
  passwordResetToken : option string;
  passwordResetExpires : option Time
}.

#[global] Instance User_eq_dec : EqDecision User.
Proof. solve_decision. Defined.

(** Assignments to one path of a loaded document. *)
Definition set_username (v : string) (u : User) : User :=
  mkUser v (email u) (password u) (role u) (isVerified u) (isActive u)
    (refreshToken u) (emailVerificationToken u) (emailVerificationExpires u)
    (passwordResetToken u) (passwordResetExpires u).

Definition set_password (v : string) (u : User) : User :=
  mkUser (username u) (email u) v (role u) (isVerified u) (isActive u)
    (refreshToken u) (emailVerificationToken u) (emailVerificationExpires u)
    (passwordResetToken u) (passwordResetExpires u).

Definition set_role (v : Role) (u : User) : User :=
  mkUser (username u) (email u) (password u) v (isVerified u) (isActive u)
    (refreshToken u) (emailVerificationToken u) (emailVerificationExpires u)
    (passwordResetToken u) (passwordResetExpires u).

Definition set_isVerified (v : bool) (u : User) : User :=
  mkUser (username u) (email u) (password u) (role u) v (isActive u)
    (refreshToken u) (emailVerificationToken u) (emailVerificationExpires u)
    (passwordResetToken u) (passwordResetExpires u).

Definition set_isActive (v : bool) (u : User) : User :=
  mkUser (username u) (email u) (password u) (role u) (isVerified u) v
    (refreshToken u) (emailVerificationToken u) (emailVerificationExpires u)
    (passwordResetToken u) (passwordResetExpires u).

Definition set_refreshToken (v : option string) (u : User) : User :=
  mkUser (username u) (email u) (password u) (role u) (isVerified u) (isActive u)
    v (emailVerificationToken u) (emailVerificationExpires u)
    (passwordResetToken u) (passwordResetExpires u).

Definition set_emailVerificationToken (v : option string) (u : User) : User :=
  mkUser (username u) (email u) (password u) (role u) (isVerified u) (isActive u)
    (refreshToken u) v (emailVerificationExpires u)
    (passwordResetToken u) (passwordResetExpires u).

Definition set_emailVerificationExpires (v : option Time) (u : User) : User :=
  mkUser (username u) (email u) (password u) (role u) (isVerified u) (isActive u)
    (refreshToken u) (emailVerificationToken u) v
    (passwordResetToken u) (passwordResetExpires u).

Definition set_passwordResetToken (v : option string) (u : User) : User :=
  mkUser (username u) (email u) (password u) (role u) (isVerified u) (isActive u)
    (refreshToken u) (emailVerificationToken u) (emailVerificationExpires u)
    v (passwordResetExpires u).

Definition set_passwordResetExpires (v : option Time) (u : User) : User :=
  mkUser (username u) (email u) (password u) (role u) (isVerified u) (isActive u)
    (refreshToken u) (emailVerificationToken u) (emailVerificationExpires u)
    (passwordResetToken u) v.

(** ** Errors (middleware/errorHandler.ts) *)

Record ApiError : Type := mkApiError {
  message : string;
  statusCode : Z
}.

#[global] Instance ApiError_eq_dec : EqDecision ApiError.
Proof. solve_decision. Defined.

(** What a handler can throw: an [ApiError] of the application, the
    duplicate-key error of the driver (code 11000), the [ValidationError]
    of mongoose (its [errors]: the failing paths, each with its message),
    or another error object of a library (named by its [name]). *)
Inductive Exn : Type :=
| ApiErr (e : ApiError)
| DuplicateKey (field : string)
| ValidationError (errors : list (string * string))
| LibErr (name : string).

Inductive Result (A : Type) : Type :=
| Ok (a : A)
| Throw (e : Exn).
Arguments Ok {A} a.
Arguments Throw {A} e.

(** The JSON envelope of a response: status, [success], [message]. *)
Record Response : Type := mkResponse {
  status : Z;
  success : bool;
  res_message : string
}.

(** [errorHandler] *)
Definition errorHandler (err : Exn) : Response :=
  match err with
  | ApiErr e => mkResponse (statusCode e) false (message e)
  | DuplicateKey field => mkResponse 409 false (field ++ " already exists")
  | ValidationError errors =>
    mkResponse 400 false (String.concat ", " (errors.*2))
  | LibErr _ => mkResponse 500 false "Internal Server Error"
  end.

(** ** The world a request runs in *)

Inductive MailKind : Type := VerificationEmail | PasswordResetEmail.

Record Mail : Type := mkMail {
  mailKind : MailKind;
  mailTo : string;
  mailToken : string
}.

Record World : Type := mkWorld {
  users : gmap ObjectId User;
  outbox : list Mail
}.

(** ** Service computations: state and exceptions *)

Definition Svc (A : Type) : Type := World → Result A * World.

Definition ret {A} (a : A) : Svc A := λ w, (Ok a, w).

Definition throw {A} (e : ApiError) : Svc A := λ w, (Throw (ApiErr e), w).

Definition throw_lib {A} (name : string) : Svc A := λ w, (Throw (LibErr name), w).

Definition bind {A B} (c : Svc A) (k : A → Svc B) : Svc B :=
  λ w, match c w with
       | (Ok a, w') => k a w'
       | (Throw e, w') => (Throw e, w')
       end.

(** [try { c } catch (error) { throw e }]: whatever [c] throws is replaced. *)
Definition try_catch_throw {A} (c : Svc A) (e : ApiError) : Svc A :=
  λ w, match c w with
       | (Ok a, w') => (Ok a, w')
       | (Throw _, w') => (Throw (ApiErr e), w')
       end.

Declare Scope svc_scope.
Delimit Scope svc_scope with svc.
Notation "'let*' x ':=' c 'in' k" := (bind c (λ x, k))
  (at level 10, x pattern, c at level 100, k at level 200) : svc_scope.
Notation "c ';;' k" := (bind c (λ _, k))
  (at level 100, k at level 200, right associativity) : svc_scope.
Local Open Scope svc_scope.

(** ** The collection (mongoose model [User]) *)

Definition findById (id : ObjectId) : Svc (option User) :=
  λ w, (Ok (users w !! id), w).

(** First document, in the collection's order, that the filter accepts. *)
Definition first_match (q : ObjectId → User → bool) (m : gmap ObjectId User)
  : option (ObjectId * User) :=
  List.find (λ kv, q kv.1 kv.2) (map_to_list m).

Definition findOne (q : ObjectId → User → bool) : Svc (option (ObjectId * User)) :=
  λ w, (Ok (first_match q (users w)), w).

(** [doc.save()], the write: the document goes back under its [_id]. The
    validators that can fail on a document of the service run before it,
    in [validate_modified]. *)
Definition save (id : ObjectId) (doc : User) : Svc unit :=
  λ w, (Ok tt, mkWorld (<[id := doc]> (users w)) (outbox w)).

(** ** External services *)

(** utils/token.ts reads the two secrets from the environment. *)
Inductive Secret : Type := ACCESS_TOKEN_SECRET | REFRESH_TOKEN_SECRET.

Record DecodedToken : Type := mkDecoded {
  userId : ObjectId;
  iat : Time;
  exp : Time
}.

(** [jsonwebtoken]: [jwt_sign payload secret expiresIn clock] and
    [jwt_verify token secret clock], which is [None] where the library
    throws (bad signature, malformed token, expired token). *)
Class Jwt : Type := {
  jwt_sign : ObjectId → Secret → Z → Time → string;
  jwt_verify : string → Secret → Time → option DecodedToken
}.

(** [crypto.createHash("sha256")], [bcrypt.hash] (with its salt) and
    [bcrypt.compare]. *)
Class Hashing : Type := {
  sha256 : string → string;
  bcrypt_hash : string → string → string;
  bcrypt_compare : string → string → bool
}.

(** [Types.ObjectId.isValid] of the driver, and the hexadecimal form
    ([toHexString]) of the [ObjectId] that a string denotes when it is
    valid: two spellings of one id have the same form. *)
Class Bson : Type := {
  ObjectId_isValid : string → bool;
  ObjectId_hex : string → ObjectId
}.

(** services/EmailService.ts: the mail is handed to the provider. *)
Definition sendVerificationEmail (to token : string) : Svc unit :=
  λ w, (Ok tt, mkWorld (users w) (outbox w ++ [mkMail VerificationEmail to token])).

Definition sendPasswordResetEmail (to token : string) : Svc unit :=
  λ w, (Ok tt, mkWorld (users w) (outbox w ++ [mkMail PasswordResetEmail to token])).

(** JavaScript truthiness of an optional string: [undefined] and the empty
    string are falsy. *)
Definition truthy (s : option string) : bool :=
  match s with
  | None => false
  | Some s => negb (String.eqb s "")
  end.

(** [s.split(sep)]: the pieces of [s] between occurrences of [sep]. *)
Fixpoint split (sep : ascii) (s : string) : list string :=
  match s with
  | EmptyString => [EmptyString]
  | String c rest =>
    if Ascii.eqb c sep then EmptyString :: split sep rest
    else
      match split sep rest with
      | piece :: pieces => String c piece :: pieces
      | [] => [String c EmptyString]
      end
  end.

(** ** Request bodies and results *)

(** [Partial<IUser>] as it arrives in a JSON body: a key is present
    ([Some]) or not ([None]). *)
Record PartialUser : Type := mkPartialUser {
  p_username : option string;
  p_email : option string;
  p_password : option string;
  p_role : option Role;
  p_isVerified : option bool;
  p_isActive : option bool;
  p_refreshToken : option string;
  p_emailVerificationToken : option string;
  p_emailVerificationExpires : option Time;
  p_passwordResetToken : option string;
  p_passwordResetExpires : option Time
}.

(** ["k" in input] *)
Definition has_key {A} (field : option A) : bool :=
  match field with Some _ => true | None => false end.

Record SafeUser : Type := mkSafeUser {
  su_id : ObjectId;
  su_username : string;
  su_role : Role
}.

Record LoginResult : Type := mkLoginResult {
  lr_user : SafeUser;
  accessTkn : string;
  refreshTkn : string
}.

Record RefreshResult : Type := mkRefreshResult { accessToken : string }.

(** middleware/authProtect.ts: the headers it reads and the two fields it
    adds to the request. *)
Record AuthRequest : Type := mkAuthRequest {
  hdr_authorization : option string;
  hdr_Authorization : option string;
  req_userId : option ObjectId;
  req_userRole : option Role
}.

Record RegisterResult : Type := mkRegisterResult {
  rr_username : string;
  rr_email : string
}.

(** A document as a query returns it by default: the paths that the schema
    marks [select: false] are left out. *)
Record PublicUser : Type := mkPublicUser {
  pu_id : ObjectId;
  pu_username : string;
  pu_email : string;
  pu_role : Role;
  pu_isVerified : bool;
  pu_isActive : bool
}.

Definition public (id : ObjectId) (u : User) : PublicUser :=
  mkPublicUser id (username u) (email u) (role u) (isVerified u) (isActive u).

(** [.select("username role isActive createdAt")] *)
Record UserView : Type := mkUserView {
  uv_id : ObjectId;
  uv_username : string;
  uv_role : Role;
  uv_isActive : bool
}.

Definition view (id : ObjectId) (u : User) : UserView :=
  mkUserView id (username u) (role u) (isActive u).

(** ** The schema (models/UserModel.ts) *)

(** [String.prototype.toLowerCase], [String.prototype.trim] and the
    [length] of a string, as the runtime has them. *)
Class JsString : Type := {
  toLowerCase : string → string;
  trim : string → string;
  js_length : string → nat
}.

Section Schema.
Context {js_lib : JsString}.

(** The setters that [userSchema] declares: [trim: true] on [username],
    [lowercase: true] and [trim: true] on [email]. mongoose runs the
    setters of a path on a value assigned to that path of a document and
    on the value that a query filter gives for it. Lower-casing leaves
    white space as it is and trimming removes white space only, so the
    order of the two setters of [email] is immaterial. *)
Definition cast_username (v : string) : string := trim v.

Definition cast_email (v : string) : string := toLowerCase (trim v).

(** The validators of [username] ([required], [minlength: 2],
    [maxlength: 15]) and of [email] ([required]): the first validator of a
    path that fails gives the error of that path, with mongoose's
    message. *)
Definition validate_username (v : string) : list (string * string) :=
  if String.eqb v "" then [("username", "Path `username` is required.")]
  else if (js_length v <? 2)%nat
  then [("username",
         "Path `username` (`" ++ v
         ++ "`) is shorter than the minimum allowed length (2).")]
  else if (15 <? js_length v)%nat
  then [("username",
         "Path `username` (`" ++ v
         ++ "`) is longer than the maximum allowed length (15).")]
  else [].

Definition validate_email (v : string) : list (string * string) :=
  if String.eqb v "" then [("email", "Path `email` is required.")] else [].

(** [new User(doc)]: the document that the setters make of the values. *)
Definition new_User (doc : User) : User :=
  mkUser (cast_username (username doc)) (cast_email (email doc))
    (password doc) (role doc) (isVerified doc) (isActive doc)
    (refreshToken doc) (emailVerificationToken doc)
    (emailVerificationExpires doc) (passwordResetToken doc)
    (passwordResetExpires doc).

(** [User.create(doc)]: the setters run, then the validators, then the
    document is inserted, and the document as stored is returned. The
    validators of [password] and [role] are left out: the password that
    the service stores is a bcrypt digest (60 characters, above
    [minlength: 8]) and a [Role] is a value of the enum. The driver refuses
    a second document with the same [_id]; the unique indexes on
    [username] and [email] cannot refuse a document that [register]
    creates, which has looked for both values just before. *)
Definition create (id : ObjectId) (doc : User) : Svc User :=
  let doc := new_User doc in
  match (validate_username (username doc) ++ validate_email (email doc))%list with
  | [] =>
    λ w, match users w !! id with
         | Some _ => (Throw (DuplicateKey "_id"), w)
         | None => (Ok doc, mkWorld (<[id := doc]> (users w)) (outbox w))
         end
  | errors => λ w, (Throw (ValidationError errors), w)
  end.

(** [doc.save()] runs the validators of the modified paths before it
    writes. Of the paths that the service assigns to a loaded document,
    [username] alone has a validator that can fail. *)
Definition validate_modified (old new : User) : Svc unit :=
  match (if String.eqb (username new) (username old) then []
         else validate_username (username new)) with
  | [] => ret tt
  | errors => λ w, (Throw (ValidationError errors), w)
  end.

End Schema.

(** ** The collection: documents updated and deleted in one call *)

(** A query casts to [ObjectId] the id that it gets as a string of the
    request: it throws a [CastError] for a string that [ObjectId] does not
    accept, and otherwise addresses the document by the hexadecimal form
    of the id. The ids that the service takes from a verified token are
    the [_id] that it signed, in that form already. *)
Definition cast_id {bson_lib : Bson} {A} (id : string)
  (query : ObjectId → Svc A) : Svc A :=
  if ObjectId_isValid id then query (ObjectId_hex id)
  else throw_lib "CastError".

(** [User.findByIdAndDelete(id)] *)
Definition findByIdAndDelete (id : ObjectId) : Svc (option User) :=
  λ w, (Ok (users w !! id), mkWorld (delete id (users w)) (outbox w)).

(** [User.findByIdAndUpdate(id, input, { new: true })] with an [input]
    that carries [role] and [isActive] at most. *)
Definition apply_role_isActive (input : PartialUser) (u : User) : User :=
  let u := match p_role input with Some r => set_role r u | None => u end in
  match p_isActive input with Some b => set_isActive b u | None => u end.

Definition findByIdAndUpdate (id : ObjectId) (input : PartialUser)
  : Svc (option User) :=
  λ w, match users w !! id with
       | Some u =>
         let u := apply_role_isActive input u in
         (Ok (Some u), mkWorld (<[id := u]> (users w)) (outbox w))
       | None => (Ok None, w)
       end.

(** The keys of [input] other than ["role"] and ["isActive"]. The record
    does not keep the order of the keys in the body; they are listed in
    the order of [IUser]. *)
Definition keys_not_allowed (input : PartialUser) : list string :=
  (if has_key (p_username input) then ["username"] else []) ++
  (if has_key (p_email input) then ["email"] else []) ++
  (if has_key (p_password input) then ["password"] else []) ++
  (if has_key (p_isVerified input) then ["isVerified"] else []) ++
  (if has_key (p_refreshToken input) then ["refreshToken"] else []) ++
  (if has_key (p_emailVerificationToken input)
   then ["emailVerificationToken"] else []) ++
  (if has_key (p_emailVerificationExpires input)
   then ["emailVerificationExpires"] else []) ++
  (if has_key (p_passwordResetToken input)
   then ["passwordResetToken"] else []) ++
  (if has_key (p_passwordResetExpires input)
   then ["passwordResetExpires"] else []).

(** ** Query filters

    The filter objects that the service passes to [User.findOne]. A value
    given for [email] or [username] goes through the setters of the path
    before it is compared. *)
Section Filters.
Context {js_lib : JsString}.

(** [{ email }] *)
Definition by_email (addr : string) : ObjectId → User → bool :=
  λ _ u, String.eqb (email u) (cast_email addr).

(** [{ $or: [{ email: identifier }, { username: identifier }] }] *)
Definition by_identifier (identifier : string) : ObjectId → User → bool :=
  λ _ u, String.eqb (email u) (cast_email identifier)
         || String.eqb (username u) (cast_username identifier).

(** [{ emailVerificationToken: hashedToken,
      emailVerificationExpires: { $gt: new Date() } }] *)
Definition by_verification (hashedToken : string) (now : Time)
  : ObjectId → User → bool :=
  λ _ u, bool_decide (emailVerificationToken u = Some hashedToken) &&
         match emailVerificationExpires u with
         | Some e => (now <? e)%Z
         | None => false
         end.

(** [{ passwordResetToken: hashedToken,
      passwordResetExpires: { $gt: new Date() } }] *)
Definition by_reset (hashedToken : string) (now : Time)
  : ObjectId → User → bool :=
  λ _ u, bool_decide (passwordResetToken u = Some hashedToken) &&
         match passwordResetExpires u with
         | Some e => (now <? e)%Z
         | None => false
         end.

(** [{ $or: [{ email }, { username }] }] *)
Definition by_email_or_username (addr name : string)
  : ObjectId → User → bool :=
  λ _ u, String.eqb (email u) (cast_email addr)
         || String.eqb (username u) (cast_username name).

(** [{ refreshToken: cookieRefreshToken }] *)
Definition by_refreshToken (cookieRefreshToken : option string)
  : ObjectId → User → bool :=
  λ _ u, bool_decide (refreshToken u = cookieRefreshToken).

(** [{ username: name, _id: { $ne: id } }] *)
Definition by_username_except (name : string) (id : ObjectId)
  : ObjectId → User → bool :=
  λ k u, String.eqb (username u) (cast_username name)
         && negb (String.eqb k id).

End Filters.

Section Service.
Context {jwt_lib : Jwt} {hash_lib : Hashing} {bson_lib : Bson}
  {js_lib : JsString}.

(** ** utils/token.ts *)

Definition minutes (n : Z) : Z := n * 60 * 1000.
Definition hours (n : Z) : Z := n * 60 * 60 * 1000.

Definition signAccessToken (id : ObjectId) (now : Time) : string :=
  jwt_sign id ACCESS_TOKEN_SECRET (minutes 15) now.

Definition signRefreshToken (id : ObjectId) (now : Time) : string :=
  jwt_sign id REFRESH_TOKEN_SECRET (hours 24) now.

(** [jwt.verify(token, secret)], which throws where the library rejects. *)
Definition verify_or_throw (token : string) (s : Secret) (now : Time)
  : Svc DecodedToken :=
  match jwt_verify token s now with
  | Some decoded => ret decoded
  | None => throw_lib "JsonWebTokenError"
  end.

(** ** UserService *)

Definition resendVerificationEmail (addr : string) (rawToken : string)
  (now : Time) : Svc unit :=
  let* user := findOne (by_email addr) in
  match user with
  | None => ret tt
  | Some (id, u) =>
    if isVerified u then ret tt
    else
      let verificationToken := sha256 rawToken in
      let u := set_emailVerificationToken (Some verificationToken) u in
      let u := set_emailVerificationExpires (Some (now + hours 24)) u in
      save id u ;;
      sendVerificationEmail addr rawToken
  end.

Definition verifyEmail (token : string) (now : Time) : Svc string :=
  let hashedToken := sha256 token in
  let* user := findOne (by_verification hashedToken now) in
  match user with
  | None => throw (mkApiError "Invalid or expired token" 400)
  | Some (id, u) =>
    let u := set_isVerified true u in
    let u := set_emailVerificationToken None u in
    let u := set_emailVerificationExpires None u in
    save id u ;;
    ret "Email verified successfully"
  end.

Definition login (identifier pwd : string) (now : Time) : Svc LoginResult :=
  let* user := findOne (by_identifier identifier) in
  match user with
  | None => throw (mkApiError "Invalid credentials" 401)
  | Some (id, u) =>
    if negb (bcrypt_compare pwd (password u))
    then throw (mkApiError "Invalid credentials" 401)
    else if negb (isVerified u)
    then throw (mkApiError "Please verify your email" 403)
    else if negb (isActive u)
    then throw (mkApiError "Account is disabled" 403)
    else
      let accessTkn := signAccessToken id now in
      let refreshTkn := signRefreshToken id now in
      let u := set_refreshToken (Some refreshTkn) u in
      save id u ;;
      let safeUser := mkSafeUser id (username u) (role u) in
      ret (mkLoginResult safeUser accessTkn refreshTkn)
  end.

Definition forgotPassword (addr : string) (rawToken : string) (now : Time)
  : Svc unit :=
  let* user := findOne (by_email addr) in
  match user with
  | None => ret tt
  | Some (id, u) =>
    let resetToken := sha256 rawToken in
    let u := set_passwordResetToken (Some resetToken) u in
    let u := set_passwordResetExpires (Some (now + hours 1)) u in
    save id u ;;
    sendPasswordResetEmail addr rawToken
  end.

Definition resetPassword (token newPassword : string) (salt : string)
  (now : Time) : Svc unit :=
  let hashedToken := sha256 token in
  let* user := findOne (by_reset hashedToken now) in
  match user with
  | None => throw (mkApiError "Invalid or expired token" 400)
  | Some (id, u) =>
    let u := set_password (bcrypt_hash salt newPassword) u in
    let u := set_passwordResetToken None u in
    let u := set_passwordResetExpires None u in
    save id u
  end.

Definition refresh (cookieRefreshToken : option string) (now : Time)
  : Svc RefreshResult :=
  if negb (truthy cookieRefreshToken)
  then throw (mkApiError "Unauthorized" 401)
  else
    let* decoded :=
      try_catch_throw
        (verify_or_throw (default "" cookieRefreshToken)
           REFRESH_TOKEN_SECRET now)
        (mkApiError "Forbidden: Expired or Invalid Refresh Token" 403) in
    let* user := findById (userId decoded) in
    match user with
    | None => throw (mkApiError "Unauthorized" 401)
    | Some u =>
      if negb (isActive u) then throw (mkApiError "Unauthorized" 401)
      else if bool_decide (refreshToken u ≠ cookieRefreshToken)
      then throw (mkApiError "Forbidden: Invalid Token" 403)
      else
        let newAccessToken := signAccessToken (userId decoded) now in
        ret (mkRefreshResult newAccessToken)
    end.

Definition logout (cookieRefreshToken : option string) : Svc unit :=
  if negb (truthy cookieRefreshToken) then ret tt
  else
    let* user := findOne (by_refreshToken cookieRefreshToken) in
    match user with
    | None => ret tt
    | Some (id, u) =>
      let u := set_refreshToken None u in
      save id u
    end.

Definition updateProfile (id : ObjectId) (input : PartialUser) (salt : string)
  : Svc (ObjectId * User) :=
  if negb (ObjectId_isValid id) then throw (mkApiError "Invalid user ID" 400)
  else
    let* user := findById id in
    match user with
    | None => throw (mkApiError "User not found" 404)
    | Some user =>
      if has_key (p_email input)
      then throw (mkApiError "Email cannot be changed" 400)
      else if has_key (p_role input) || has_key (p_isActive input)
      then throw (mkApiError "Forbidden" 403)
      else
        let* u :=
          if truthy (p_username input) then
            let name := default "" (p_username input) in
            let* exists_ := findOne (by_username_except name id) in
            match exists_ with
            | Some _ => throw (mkApiError "Username already taken" 409)
            | None => ret (set_username (cast_username name) user)
            end
          else ret user in
        let u :=
          if truthy (p_password input)
          then set_password (bcrypt_hash salt (default "" (p_password input))) u
          else u in
        validate_modified user u ;;
        save id u ;;
        ret (id, u)
    end.

Definition register (input : PartialUser) (rawToken salt : string)
  (newId : ObjectId) (now : Time) : Svc RegisterResult :=
  if negb (truthy (p_email input)) || negb (truthy (p_username input))
     || negb (truthy (p_password input))
  then throw (mkApiError "Required fields missing" 400)
  else
    let addr := default "" (p_email input) in
    let name := default "" (p_username input) in
    let pwd := default "" (p_password input) in
    let* exists_ := findOne (by_email_or_username addr name) in
    match exists_ with
    | Some _ => throw (mkApiError "User already exists" 409)
    | None =>
      let hashedPwd := bcrypt_hash salt pwd in
      let verificationToken := sha256 rawToken in
      let newUser :=
        mkUser name addr hashedPwd (default RoleUser (p_role input))
          false true (p_refreshToken input)
          (Some verificationToken) (Some (now + hours 24))
          (p_passwordResetToken input) (p_passwordResetExpires input) in
      let* newUser := create newId newUser in
      sendVerificationEmail addr rawToken ;;
      ret (mkRegisterResult (username newUser) (email newUser))
    end.

Definition adminUpdateUser (targetUserId : string) (input : PartialUser)
  (adminId : ObjectId) : Svc PublicUser :=
  match keys_not_allowed input with
  | key :: _ =>
    throw (mkApiError ("Field '" ++ key ++ "' cannot be updated by admin") 400)
  | [] =>
    let* admin := findById adminId in
    if match admin with
       | None => true
       | Some a => bool_decide (role a ≠ RoleAdmin)
       end
    then throw (mkApiError "Admin privileges required" 403)
    else if String.eqb targetUserId adminId
            && bool_decide (p_role input = Some RoleUser)
    then throw (mkApiError "Admin cannot demote themselves" 400)
    else
      let* updatedUser :=
        cast_id targetUserId (λ _id, findByIdAndUpdate _id input) in
      match updatedUser with
      | None => throw (mkApiError "User not found" 404)
      | Some u => ret (public (ObjectId_hex targetUserId) u)
      end
  end.

Definition getUserById (id : string) (requesterId : ObjectId)
  (requesterRole : Role) : Svc UserView :=
  if negb (ObjectId_isValid id) then throw (mkApiError "Invalid user ID" 400)
  else
    let* user := cast_id id findById in
    match user with
    | None => throw (mkApiError "User not found" 404)
    | Some u =>
      let isAdmin := bool_decide (requesterRole = RoleAdmin) in
      let isSelf := String.eqb requesterId id in
      if negb isAdmin && negb isSelf
      then throw (mkApiError "You do not have permission to view this user" 403)
      else ret (view (ObjectId_hex id) u)
    end.

Definition deleteUser (id : string) (requesterId : ObjectId)
  (requesterRole : Role) : Svc UserView :=
  if negb (ObjectId_isValid id) then throw (mkApiError "Invalid user ID" 400)
  else
    let isOwner := String.eqb requesterId id in
    let isAdmin := bool_decide (requesterRole = RoleAdmin) in
    if negb isOwner && negb isAdmin
    then throw (mkApiError "You do not have permission to delete this account" 403)
    else
      let* deleted := cast_id id findByIdAndDelete in
      match deleted with
      | None => throw (mkApiError "User not found" 404)
      | Some u => ret (view (ObjectId_hex id) u)
      end.

(** ** middleware/authProtect.ts *)

(** [req.headers.authorization || req.headers.Authorization] *)
Definition authHeader (req : AuthRequest) : option string :=
  if truthy (hdr_authorization req) then hdr_authorization req
  else hdr_Authorization req.

(** The body of the [try] block. *)
Definition authProtect_try (token : string) (req : AuthRequest) (now : Time)
  : Svc AuthRequest :=
  let* decoded := verify_or_throw token ACCESS_TOKEN_SECRET now in
  let* user := findById (userId decoded) in
  match user with
  | None => throw (mkApiError "User no longer exists" 404)
  | Some u =>
    if negb (isActive u) then throw (mkApiError "Account is disabled" 403)
    else
      ret (mkAuthRequest (hdr_authorization req) (hdr_Authorization req)
             (Some (userId decoded)) (Some (role u)))
  end.

Definition authProtect (req : AuthRequest) (now : Time) : Svc AuthRequest :=
  match authHeader req with
  | None => throw (mkApiError "Unauthorized: No token provided" 401)
  | Some header =>
    if negb (String.prefix "Bearer " header)
    then throw (mkApiError "Unauthorized: No token provided" 401)
    else
      let token := nth 1 (split " " header) "" in
      try_catch_throw (authProtect_try token req now)
        (mkApiError "Forbidden: Invalid or expired token" 403)
  end.

(** ** middleware/roleHandler.ts *)

Definition restrictTo (roles : list Role) (req : AuthRequest)
  : Svc AuthRequest :=
  if match req_userRole req with
     | None => true
     | Some r => negb (bool_decide (r ∈ roles))
     end
  then throw (mkApiError "You do not have permission to perform this action" 403)
  else ret req.

(** ** The requests that write to the collection

    One constructor per service method; the clock, the random token, the
    salt and the [_id] of a new document come with the request. *)
Inductive Request : Type :=
| Register (input : PartialUser) (rawToken salt : string) (newId : ObjectId)
| ResendVerification (addr rawToken : string)
| VerifyEmail (token : string)
| Login (identifier pwd : string)
| ForgotPassword (addr rawToken : string)
| ResetPassword (token newPassword salt : string)
| Refresh (cookie : option string)
| Logout (cookie : option string)
| UpdateProfile (id : ObjectId) (input : PartialUser) (salt : string)
| AdminUpdateUser (targetUserId : string) (input : PartialUser)
    (adminId : ObjectId)
| DeleteUser (id : string) (requesterId : ObjectId) (requesterRole : Role).

(** The world after a request is served at time [now]. *)
Definition serve (r : Request) (now : Time) (w : World) : World :=
  match r with
  | Register input rawToken salt newId =>
    (register input rawToken salt newId now w).2
  | ResendVerification addr rawToken =>
    (resendVerificationEmail addr rawToken now w).2
  | VerifyEmail token => (verifyEmail token now w).2
  | Login identifier pwd => (login identifier pwd now w).2
  | ForgotPassword addr rawToken => (forgotPassword addr rawToken now w).2
  | ResetPassword token newPassword salt =>
    (resetPassword token newPassword salt now w).2
  | Refresh cookie => (refresh cookie now w).2
  | Logout cookie => (logout cookie w).2
  | UpdateProfile id input salt => (updateProfile id input salt w).2
  | AdminUpdateUser targetUserId input adminId =>
    (adminUpdateUser targetUserId input adminId w).2
  | DeleteUser id requesterId requesterRole =>
    (deleteUser id requesterId requesterRole w).2
  end.

(** The digest of the random token of a request is not in use: what
    [crypto.randomBytes(32)] gives with overwhelming probability. *)
Definition fresh_digest (r : Request) (w : World) : Prop :=
  match r with
  | Register _ rawToken _ _ | ResendVerification _ rawToken =>
    ∀ id u, users w !! id = Some u →
            emailVerificationToken u ≠ Some (sha256 rawToken)
  | _ => True
  end.

(** Worlds that the service reaches from the empty collection. *)
Inductive reachable : World → Prop :=
| reachable_empty : reachable (mkWorld ∅ [])
| reachable_serve w r now :
    reachable w → fresh_digest r w → reachable (serve r now w).

(** No two users store the same verification digest. *)
Definition verification_digests_distinct (w : World) : Prop :=
  ∀ id1 id2 u1 u2 h,
    users w !! id1 = Some u1 → users w !! id2 = Some u2 →
    emailVerificationToken u1 = Some h → emailVerificationToken u2 = Some h →
    id1 = id2.

End Service.

(** ** Relations between documents and between worlds *)

(** Two documents that differ at most in [username] and [password]. *)
Definition same_but_username_password (u u' : User) : Prop :=
  email u' = email u ∧ role u' = role u ∧ isVerified u' = isVerified u ∧
  isActive u' = isActive u ∧ refreshToken u' = refreshToken u ∧
  emailVerificationToken u' = emailVerificationToken u ∧
  emailVerificationExpires u' = emailVerificationExpires u ∧
  passwordResetToken u' = passwordResetToken u ∧
  passwordResetExpires u' = passwordResetExpires u.

(** Every document of [w'] has its verification digest cleared or as the
    document of the same [_id] had it in [w]. *)
Definition digests_kept (w w' : World) : Prop :=
  ∀ id u', users w' !! id = Some u' →
    emailVerificationToken u' = None ∨
    ∃ u, users w !! id = Some u ∧
         emailVerificationToken u' = emailVerificationToken u.

(** A document within the bounds of the schema: its [username] and its
    [email] pass their validators. *)
Definition within_schema {js_lib : JsString} (u : User) : Prop :=
  validate_username (username u) = [] ∧ validate_email (email u) = [].

(** The requests that can start or end a session, or create or remove an
    account. *)
Definition touches_sessions (r : Request) : bool :=
  match r with
  | Register _ _ _ _ | Login _ _ | Logout _
  | AdminUpdateUser _ _ _ | DeleteUser _ _ _ => true
  | _ => false
  end.

(** ** controllers/authController.ts

    The two handlers whose answer must not tell whether an account exists.
    [asyncHandler] passes what is thrown to [errorHandler]. *)
Module AuthController.
Section Handlers.
Context {hash_lib : Hashing} {js_lib : JsString}.

Definition asyncHandler (c : Svc Response) (w : World) : Response * World :=
  match c w with
  | (Ok res, w') => (res, w')
  | (Throw err, w') => (errorHandler err, w')
  end.

Definition resendVerification (body_email : option string)
  (rawToken : string) (now : Time) : World → Response * World :=
  asyncHandler
    (if negb (truthy body_email)
     then throw (mkApiError "Email is required" 400)
     else
       resendVerificationEmail (default "" body_email) rawToken now ;;
       ret (mkResponse 200 true
              "Verification email sent if the account exists and is unverified")).

Definition forgotPassword (body_email : option string)
  (rawToken : string) (now : Time) : World → Response * World :=
  asyncHandler
    (if negb (truthy body_email)
     then throw (mkApiError "Email is required" 400)
     else
       forgotPassword (default "" body_email) rawToken now ;;
       ret (mkResponse 200 true "Password reset email sent if account exists")).

End Handlers.
End AuthController.

(** ** controllers/userController.ts and the routes that mount it

    A handler answers with the envelope [{ success: true, message, data }];
    [message] and [data] are kept. The path parameter [req.params.id] and
    the body come beside the request. *)
Record Reply (A : Type) : Type := mkReply {
  rp_message : string;
  rp_data : A
}.
Arguments mkReply {A} rp_message rp_data.
Arguments rp_message {A} r.
Arguments rp_data {A} r.

Module UserController.
Section Handlers.
Context {hash_lib : Hashing} {bson_lib : Bson} {js_lib : JsString}.

Definition getUserById (req : AuthRequest) (params_id : option string)
  : Svc (Reply UserView) :=
  if negb (truthy params_id) then throw (mkApiError "ID is required" 400)
  else
    match req_userId req, req_userRole req with
    | Some requesterId, Some requesterRole =>
      if negb (truthy (Some requesterId))
      then throw (mkApiError "Missing required fields" 400)
      else
        let* user := getUserById (default "" params_id) requesterId
                       requesterRole in
        ret (mkReply ("User " ++ uv_username user ++ " found successfully") user)
    | _, _ => throw (mkApiError "Missing required fields" 400)
    end.

Definition updateProfile (req : AuthRequest) (body : PartialUser)
  (salt : string) : Svc (Reply (ObjectId * User)) :=
  let id := req_userId req in
  if negb (truthy id) then throw (mkApiError "ID is required" 400)
  else
    let* updated := updateProfile (default "" id) body salt in
    ret (mkReply ("User " ++ username updated.2 ++ " updated successfully")
           updated).

Definition adminUpdateUser (req : AuthRequest) (params_id : option string)
  (body : PartialUser) : Svc (Reply PublicUser) :=
  if negb (truthy params_id) || negb (truthy (req_userId req))
  then throw (mkApiError "ID is required" 400)
  else
    let* adminUpdate := adminUpdateUser (default "" params_id) body
                          (default "" (req_userId req)) in
    ret (mkReply ("User " ++ pu_username adminUpdate
                  ++ " status/role updated successfully") adminUpdate).

Definition deleteUser (req : AuthRequest) (params_id : option string)
  : Svc (Reply UserView) :=
  if negb (truthy params_id) then throw (mkApiError "ID is required" 400)
  else
    match req_userId req, req_userRole req with
    | Some requesterId, Some requesterRole =>
      if negb (truthy (Some requesterId))
      then throw (mkApiError "Missing required fields" 400)
      else
        let* deleted := deleteUser (default "" params_id) requesterId
                          requesterRole in
        ret (mkReply ("User " ++ uv_username deleted ++ " deleted successfully")
               deleted)
    | _, _ => throw (mkApiError "Missing required fields" 400)
    end.

End Handlers.
End UserController.

(** routes/userRoutes.ts: the middlewares of a route run in order, each
    handing the request to the next. *)
Module UserRoutes.
Section Routes.
Context {jwt_lib : Jwt} {hash_lib : Hashing} {bson_lib : Bson}
  {js_lib : JsString}.

(** [router.get("/:id", authProtect, getUserById)] *)
Definition get_id (req : AuthRequest) (params_id : option string)
  (now : Time) : Svc (Reply UserView) :=
  let* req := authProtect req now in
  UserController.getUserById req params_id.

(** [router.patch("/me", authProtect, updateUserValidation,
    validateRequest, updateProfile)]. The two validation middlewares read
    and rewrite the body only; [validate] stands for them: the body they
    pass on, or the error they answer with. *)
Definition patch_me (validate : PartialUser → Result PartialUser)
  (req : AuthRequest) (body : PartialUser) (salt : string) (now : Time)
  : Svc (Reply (ObjectId * User)) :=
  let* req := authProtect req now in
  match validate body with
  | Throw err => λ w, (Throw err, w)
  | Ok body => UserController.updateProfile req body salt
  end.

(** [router.patch("/:id/admin", authProtect, restrictTo("admin"),
    adminUpdateUser)] *)
Definition patch_id_admin (req : AuthRequest) (params_id : option string)
  (body : PartialUser) (now : Time) : Svc (Reply PublicUser) :=
  let* req := authProtect req now in
  let* req := restrictTo [RoleAdmin] req in
  UserController.adminUpdateUser req params_id body.

(** [router.delete("/:id", authProtect, deleteUser)] *)
Definition delete_id (req : AuthRequest) (params_id : option string)
  (now : Time) : Svc (Reply UserView) :=
  let* req := authProtect req now in
  UserController.deleteUser req params_id.

End Routes.
End UserRoutes.

(** ** utils/queryHelper.ts *)
Module QueryHelper.

(** [parseInt(s, 10)], [None] standing for [NaN]. An integer is exact
    below 2^53; the cap on [limit] makes the rounding of larger values
    immaterial there. *)
Class JsRuntime : Type := {
  parseInt : string → option Z
}.

(** [req.query], with the parameters that [parseQuery] reads. *)
Record Query : Type := mkQuery {
  q_page : option string;
  q_limit : option string;
  q_category : option string;
  q_tags : option string;
  q_sort : option string
}.

Inductive Sort : Type := asc | desc | newest.

Record QueryOptions : Type := mkQueryOptions {
  page : option Z;
  limit : option Z;
  category : option string;
  tags : option (list string);
  sort : Sort
}.

(** [Math.max] and [Math.min], which are [NaN] as soon as an argument is. *)
Definition Math_max (a : option Z) (b : Z) : option Z := Z.max b <$> a.
Definition Math_min (a : option Z) (b : Z) : option Z := Z.min b <$> a.

Section ParseQuery.
Context {js_lib : JsString} {js : JsRuntime}.

Definition parseQuery (query : Query) : QueryOptions :=
  let page :=
    if truthy (q_page query) then parseInt (default "" (q_page query))
    else Some 1 in
  let rawLimit :=
    if truthy (q_limit query) then parseInt (default "" (q_limit query))
    else Some 10 in
  let limit := Math_min (Math_max rawLimit 1) 100 in
  let category := q_category query in
  let tags :=
    if truthy (q_tags query)
    then Some (trim <$> split "," (default "" (q_tags query)))
    else None in
  let sort :=
    if bool_decide (q_sort query = Some "asc") then asc
    else if bool_decide (q_sort query = Some "desc") then desc
    else newest in
  mkQueryOptions page limit category tags sort.

End ParseQuery.
End QueryHelper.

(** ** utils/generateSku.ts

    Strings are sequences of bytes (UTF-8): a character outside ASCII is a
    run of bytes above 127, none of them a letter or a digit, so [clean]
    drops it whole, as the regular expression does. *)
Module Sku.

Definition in_range (lo hi : nat) (c : ascii) : bool :=
  let n := nat_of_ascii c in ((lo <=? n) && (n <=? hi))%nat.

Definition is_digit (c : ascii) : bool := in_range 48 57 c.
Definition is_lower (c : ascii) : bool := in_range 97 122 c.
Definition is_upper (c : ascii) : bool := in_range 65 90 c.

(** [[a-zA-Z0-9]] *)
Definition is_alnum (c : ascii) : bool := is_lower c || is_upper c || is_digit c.

(** [str.replace(/[^a-zA-Z0-9]/g, "")] *)
Fixpoint keep (p : ascii → bool) (s : string) : string :=
  match s with
  | EmptyString => EmptyString
  | String c rest => if p c then String c (keep p rest) else keep p rest
  end.

Definition upper_char (c : ascii) : ascii :=
  if is_lower c then ascii_of_nat (nat_of_ascii c - 32) else c.

(** [toUpperCase] on a string of letters and digits of ASCII. *)
Fixpoint toUpperCase (s : string) : string :=
  match s with
  | EmptyString => EmptyString
  | String c rest => String (upper_char c) (toUpperCase rest)
  end.

Definition clean (str : string) : string :=
  toUpperCase (String.substring 0 4 (keep is_alnum str)).

Definition hex_digit (n : N) : ascii :=
  ascii_of_N (if (n <? 10)%N then 48 + n else 87 + n).

(** [buffer.toString("hex")] *)
Fixpoint toHex (bytes : list Byte.byte) : string :=
  match bytes with
  | [] => EmptyString
  | b :: rest =>
    let n := Byte.to_N b in
    String (hex_digit (n / 16)) (String (hex_digit (n mod 16)) (toHex rest))
  end.

(** [shortHash], on the three bytes that [crypto.randomBytes(3)] gives. *)
Definition shortHash (b1 b2 b3 : Byte.byte) : string :=
  toUpperCase (toHex [b1; b2; b3]).

(** An upper-case letter or a digit of ASCII. *)
Definition sku_char (c : ascii) : Prop := is_upper c || is_digit c = true.

Definition generateSku (category color size : string)
  (b1 b2 b3 : Byte.byte) : string :=
  let cat := clean category in
  let col := clean color in
  let sz := clean size in
  cat ++ "-" ++ col ++ "-" ++ sz ++ "-" ++ shortHash b1 b2 b3.

End Sku.

(** ** A concrete platform, used to run the model on examples

    Tokens are readable strings [tag.userId#iat#exp]; the digest and the
    password hash are injective renamings. *)
Module Demo.

Definition tag (s : Secret) : string :=
  match s with
  | ACCESS_TOKEN_SECRET => "acc."
  | REFRESH_TOKEN_SECRET => "ref."
  end.

Definition digit_of (c : ascii) : option Z :=
  let n := Z.of_nat (nat_of_ascii c) in
  if (48 <=? n)%Z && (n <=? 57)%Z then Some (n - 48)%Z else None.

Fixpoint parse_digits (acc : Z) (s : string) : option Z :=
  match s with
  | EmptyString => Some acc
  | String c rest =>
    match digit_of c with
    | Some d => parse_digits (10 * acc + d)%Z rest
    | None => None
    end
  end.

Definition parse_time (s : string) : option Z :=
  match s with
  | EmptyString => None
  | _ => parse_digits 0 s
  end.

Fixpoint show_digits (fuel : nat) (n : Z) (acc : string) : string :=
  match fuel with
  | O => acc
  | S fuel =>
    let acc := String (ascii_of_nat (Z.to_nat (48 + n mod 10))) acc in
    if (n <? 10)%Z then acc else show_digits fuel (n / 10)%Z acc
  end.

Definition show_time (n : Z) : string := show_digits 40 n EmptyString.

Definition sign (id : ObjectId) (s : Secret) (expiresIn : Z) (now : Time)
  : string :=
  tag s ++ id ++ "#" ++ show_time now ++ "#" ++ show_time (now + expiresIn).

Definition verify (tok : string) (s : Secret) (now : Time)
  : option DecodedToken :=
  if String.prefix (tag s) tok then
    match split "#" (String.substring 4 (String.length tok - 4) tok) with
    | [id; i; e] =>
      match parse_time i, parse_time e with
      | Some i, Some e => if (now <? e)%Z then Some (mkDecoded id i e) else None
      | _, _ => None
      end
    | _ => None
    end
  else None.

Definition jwt : Jwt := {| jwt_sign := sign; jwt_verify := verify |}.

Definition hashing : Hashing :=
  {| sha256 := λ s, "sha256:" ++ s;
     bcrypt_hash := λ salt pwd, "$2b$10$" ++ salt ++ "$" ++ pwd;
     bcrypt_compare := λ pwd h,
       match split "$" h with
       | [_; _; _; _; p] => String.eqb p pwd
       | _ => false
       end |}.

Definition is_hex (c : ascii) : bool :=
  let n := nat_of_ascii c in
  ((48 <=? n) && (n <=? 57) || (97 <=? n) && (n <=? 102)
   || (65 <=? n) && (n <=? 70))%nat.

Fixpoint all_hex (s : string) : bool :=
  match s with
  | EmptyString => true
  | String c rest => is_hex c && all_hex rest
  end.

Definition lower_char (c : ascii) : ascii :=
  if Sku.is_upper c then ascii_of_nat (nat_of_ascii c + 32) else c.

Fixpoint lower (s : string) : string :=
  match s with
  | EmptyString => EmptyString
  | String c rest => String (lower_char c) (lower rest)
  end.

(** The ids are the strings of 24 hexadecimal digits, upper or lower. *)
Definition bson : Bson :=
  {| ObjectId_isValid := λ s, (String.length s =? 24)%nat && all_hex s;
     ObjectId_hex := lower |}.

Definition alice_id : ObjectId := "65a000000000000000000001".
Definition bob_id : ObjectId := "65a000000000000000000002".

(** The refresh token of Alice's login at time 1000, and the one of an
    earlier login at time 500. *)
Definition alice_token : string :=
  sign alice_id REFRESH_TOKEN_SECRET 86400000 1000.
Definition stale_token : string :=
  sign alice_id REFRESH_TOKEN_SECRET 86400000 500.

(** Alice: verified, active, logged in at time 1000. *)
Definition alice : User :=
  mkUser "alice" "alice@x.com" "$2b$10$s1$Pw1!aaaa" RoleUser true true
    (Some alice_token) None None None None.

(** Alice after another login, at time 5000. *)
Definition alice_again : User :=
  mkUser "alice" "alice@x.com" "$2b$10$s1$Pw1!aaaa" RoleUser true true
    (Some (sign alice_id REFRESH_TOKEN_SECRET 86400000 5000)) None None None
    None.

(** Bob: registered at time 0, not verified yet, asked for a reset at 500. *)
Definition bob : User :=
  mkUser "bob" "bob@x.com" "$2b$10$s2$Pw2!bbbb" RoleAdmin false true
    None (Some "sha256:rawB") (Some 86400000)
    (Some "sha256:resetB") (Some 3600500).

Definition world : World :=
  mkWorld (<[alice_id := alice]> (<[bob_id := bob]> ∅)) [].

(** A runtime for strings of ASCII: letters A to Z are lowered, blanks
    (tab to carriage return, and space) are trimmed at both ends, the
    length is the number of bytes; and it reads decimal digits only. *)
Definition is_blank (c : ascii) : bool :=
  Sku.in_range 9 13 c || Sku.in_range 32 32 c.

Fixpoint trim_start (s : string) : string :=
  match s with
  | EmptyString => EmptyString
  | String c rest => if is_blank c then trim_start rest else s
  end.

Fixpoint trim_end (s : string) : string :=
  match s with
  | EmptyString => EmptyString
  | String c rest =>
    match trim_end rest with
    | EmptyString => if is_blank c then EmptyString else String c EmptyString
    | rest => String c rest
    end
  end.

Definition strings : JsString :=
  {| toLowerCase := lower;
     trim := λ s, trim_end (trim_start s);
     js_length := String.length |}.

Definition js : QueryHelper.JsRuntime :=
  {| QueryHelper.parseInt := parse_time |}.

(** Dave's registration: he asks for the admin role in the body. *)
Definition dave_id : ObjectId := "65a000000000000000000004".
Definition dave_body : PartialUser :=
  mkPartialUser (Some "dave") (Some "dave@x.com") (Some "Pw4!dddd")
    (Some RoleAdmin) (Some true) (Some false) None None None None None.

(** Dave's registration again, in his own spelling. *)
Definition dave_caps : PartialUser :=
  mkPartialUser (Some " dave ") (Some "Dave@X.com") (Some "Pw4!dddd")
    (Some RoleAdmin) None None None None None None None.

(** A registration with Alice's address, in another spelling. *)
Definition clash_body : PartialUser :=
  mkPartialUser (Some "al") (Some " Alice@X.COM") (Some "Pw9!zzzz")
    None None None None None None None None.

(** The world after an admin has disabled Alice's account. *)
Definition ban_body : PartialUser :=
  mkPartialUser None None None None None (Some false) None None None None None.
Definition banned : World :=
  mkWorld (<[alice_id := set_isActive false alice]> (users world)) [].

(** Requests that carry the access token of Alice, and of Bob the admin. *)
Definition alice_request : AuthRequest :=
  mkAuthRequest (Some "Bearer acc.65a000000000000000000001#2000#902000")
    None None None.
Definition bob_request : AuthRequest :=
  mkAuthRequest (Some "Bearer acc.65a000000000000000000002#2000#902000")
    None None None.

(** Carol registers on an empty collection at time 0. *)
Definition carol_id : ObjectId := "65a000000000000000000003".
Definition carol_body : PartialUser :=
  mkPartialUser (Some "carol") (Some "carol@x.com") (Some "Pw3!cccc")
    None None None None None None None None.
Definition after_register : World :=
  @serve jwt hashing bson strings (Register carol_body "rawC" "s3" carol_id) 0
    (mkWorld ∅ []).
Definition carol : User :=
  mkUser "carol" "carol@x.com" "$2b$10$s3$Pw3!cccc" RoleUser false true None
    (Some "sha256:rawC") (Some 86400000) None None.


End Demo.

(** * Properties *)

(** ** The collection *)

Lemma first_match_Some q (m : gmap ObjectId User) id u :
  first_match q m = Some (id, u) → m !! id = Some u ∧ q id u = true.
Proof.
  unfold first_match. intros Hf.
  apply find_some in Hf as [Hin Hq]. split; [|exact Hq].
  apply elem_of_map_to_list, list_elem_of_In, Hin.
Qed.

Lemma first_match_None q (m : gmap ObjectId User) :
  first_match q m = None ↔ ∀ id u, m !! id = Some u → q id u = false.
Proof.
  unfold first_match. split.
  - intros Hf id u Hl.
    apply (find_none _ _ Hf (id, u)).
    apply list_elem_of_In, elem_of_map_to_list, Hl.
  - intros Hall. destruct (find _ _) as [[id u]|] eqn:Hf; [|done].
    apply find_some in Hf as [Hin Hq]. simpl in Hq.
    apply list_elem_of_In, elem_of_map_to_list in Hin.
    rewrite (Hall _ _ Hin) in Hq. discriminate.
Qed.

Lemma first_match_is_Some q (m : gmap ObjectId User) id u :
  m !! id = Some u → q id u = true → is_Some (first_match q m).
Proof.
  intros Hl Hq. destruct (first_match q m) eqn:Hf; [eauto|].
  rewrite first_match_None in Hf. rewrite (Hf _ _ Hl) in Hq. discriminate.
Qed.


Lemma truthy_Some (c : option string) :
  truthy c = true → ∃ tok, c = Some tok ∧ tok ≠ "".
Proof.
  destruct c as [tok|]; simpl; [|discriminate].
  intros Ht. exists tok. split; [done|]. intros ->. discriminate.
Qed.

Lemma truthy_of_Some (tok : string) : tok ≠ "" → truthy (Some tok) = true.
Proof.
  intros Hne. simpl. destruct (String.eqb_spec tok ""); [contradiction|done].
Qed.

Ltac svc_unfold :=
  repeat (progress (unfold bind, ret, throw, throw_lib, try_catch_throw,
    verify_or_throw, findById, findOne, save, sendVerificationEmail,
    sendPasswordResetEmail)); cbn beta iota.

Section Properties.
Context {jwt_lib : Jwt} {hash_lib : Hashing} {bson_lib : Bson}
  {js_lib : JsString}.

(** ** refresh *)

Lemma refresh_absent cookie now w :
  truthy cookie = false →
  refresh cookie now w = (Throw (ApiErr (mkApiError "Unauthorized" 401)), w).
Proof. intros Ht. unfold refresh. rewrite Ht. reflexivity. Qed.

Lemma refresh_invalid tok now w :
  tok ≠ "" →
  jwt_verify tok REFRESH_TOKEN_SECRET now = None →
  refresh (Some tok) now w =
    (Throw (ApiErr (mkApiError "Forbidden: Expired or Invalid Refresh Token" 403)), w).
Proof.
  intros Hne Hv. unfold refresh. rewrite (truthy_of_Some _ Hne). simpl.
  unfold bind, try_catch_throw, verify_or_throw. rewrite Hv. reflexivity.
Qed.

Lemma refresh_decoded tok now w d :
  tok ≠ "" →
  jwt_verify tok REFRESH_TOKEN_SECRET now = Some d →
  refresh (Some tok) now w =
    match users w !! userId d with
    | None => (Throw (ApiErr (mkApiError "Unauthorized" 401)), w)
    | Some u =>
      if negb (isActive u)
      then (Throw (ApiErr (mkApiError "Unauthorized" 401)), w)
      else if bool_decide (refreshToken u ≠ Some tok)
      then (Throw (ApiErr (mkApiError "Forbidden: Invalid Token" 403)), w)
      else (Ok (mkRefreshResult (signAccessToken (userId d) now)), w)
    end.
Proof.
  intros Hne Hv. unfold refresh. rewrite (truthy_of_Some _ Hne). simpl.
  unfold bind at 1, try_catch_throw, verify_or_throw. rewrite Hv.
  svc_unfold.
  destruct (users w !! userId d) as [u|]; [|done].
  destruct (isActive u); simpl; [|done].
  case_bool_decide; done.
Qed.

(** C1. [refresh] answers, in this order: 401 when the token is absent;
    403 when it does not verify (signature or expiry); 401 when the user it
    names is missing or inactive; 403 when it is not the token stored on
    that user; and otherwise returns a freshly signed access token and
    nothing else, the collection (hence the stored refresh token) being
    left as it was. *)
Theorem refresh_outcomes (cookie : option string) (now : Time) (w : World) :
  (truthy cookie = false →
     refresh cookie now w = (Throw (ApiErr (mkApiError "Unauthorized" 401)), w))
  ∧ (∀ tok, cookie = Some tok → tok ≠ "" →
     (jwt_verify tok REFRESH_TOKEN_SECRET now = None →
        refresh cookie now w =
          (Throw (ApiErr (mkApiError
             "Forbidden: Expired or Invalid Refresh Token" 403)), w))
     ∧ (∀ d, jwt_verify tok REFRESH_TOKEN_SECRET now = Some d →
        (users w !! userId d = None →
           refresh cookie now w =
             (Throw (ApiErr (mkApiError "Unauthorized" 401)), w))
        ∧ (∀ u, users w !! userId d = Some u →
           (isActive u = false →
              refresh cookie now w =
                (Throw (ApiErr (mkApiError "Unauthorized" 401)), w))
           ∧ (isActive u = true → refreshToken u ≠ Some tok →
              refresh cookie now w =
                (Throw (ApiErr (mkApiError "Forbidden: Invalid Token" 403)), w))
           ∧ (isActive u = true → refreshToken u = Some tok →
              refresh cookie now w =
                (Ok (mkRefreshResult (signAccessToken (userId d) now)), w))))).
Proof.
  split; [apply refresh_absent|].
  intros tok -> Hne. split.
  - intros Hv. by apply refresh_invalid.
  - intros d Hv. rewrite (refresh_decoded _ _ _ _ Hne Hv). split.
    + by intros ->.
    + intros u ->. repeat split.
      * by intros ->.
      * intros -> Hdiff. simpl. by rewrite bool_decide_eq_true_2.
      * intros -> Hsame. simpl. rewrite bool_decide_eq_false_2; [done|].
        intros Hne'. by apply Hne'.
Qed.

Lemma refresh_world cookie now w : (refresh cookie now w).2 = w.
Proof.
  destruct (truthy cookie) eqn:Ht.
  - apply truthy_Some in Ht as (tok & -> & Hne).
    destruct (jwt_verify tok REFRESH_TOKEN_SECRET now) as [d|] eqn:Hv.
    + rewrite (refresh_decoded _ _ _ _ Hne Hv).
      destruct (users w !! userId d) as [u|]; [|done].
      destruct (isActive u); simpl; [|done].
      by case_bool_decide.
    + by rewrite refresh_invalid.
  - by rewrite refresh_absent.
Qed.

(** C2, as the code has it. [refresh] never writes: on every path (success,
    reuse detected, or any other rejection) the world after the call is
    the world before it. In particular, when an active user is presented
    with a token other than the stored one, the request is rejected with
    403 "Forbidden: Invalid Token" and the user's document, stored refresh
    token included, is as it was. *)
Theorem refresh_never_mutates (cookie : option string) (now : Time) (w : World) :
  (refresh cookie now w).2 = w
  ∧ (∀ tok d u,
     cookie = Some tok → tok ≠ "" →
     jwt_verify tok REFRESH_TOKEN_SECRET now = Some d →
     users w !! userId d = Some u → isActive u = true →
     refreshToken u ≠ Some tok →
     refresh cookie now w =
       (Throw (ApiErr (mkApiError "Forbidden: Invalid Token" 403)), w)
     ∧ users (refresh cookie now w).2 !! userId d = Some u).
Proof.
  split; [apply refresh_world|].
  intros tok d u -> Hne Hv Hl Hact Hdiff.
  rewrite refresh_world. split; [|done].
  rewrite (refresh_decoded _ _ _ _ Hne Hv), Hl, Hact. simpl.
  by rewrite bool_decide_eq_true_2.
Qed.

(** ** login *)

Lemma by_identifier_true identifier id u :
  by_identifier identifier id u = true ↔
  email u = cast_email identifier ∨ username u = cast_username identifier.
Proof.
  unfold by_identifier. rewrite orb_true_iff.
  by rewrite !String.eqb_eq.
Qed.

Lemma login_no_match identifier pwd now w :
  (∀ id u, users w !! id = Some u →
     email u ≠ cast_email identifier ∧ username u ≠ cast_username identifier) →
  login identifier pwd now w =
    (Throw (ApiErr (mkApiError "Invalid credentials" 401)), w).
Proof.
  intros Hnone. unfold login. svc_unfold.
  replace (first_match (by_identifier identifier) (users w)) with
    (@None (ObjectId * User)); [done|].
  symmetry. apply first_match_None. intros id u Hl.
  destruct (by_identifier identifier id u) eqn:Hq; [|done].
  apply by_identifier_true in Hq. destruct (Hnone _ _ Hl). tauto.
Qed.

Lemma login_found identifier pwd now w id u :
  first_match (by_identifier identifier) (users w) = Some (id, u) →
  login identifier pwd now w =
    if negb (bcrypt_compare pwd (password u))
    then (Throw (ApiErr (mkApiError "Invalid credentials" 401)), w)
    else if negb (isVerified u)
    then (Throw (ApiErr (mkApiError "Please verify your email" 403)), w)
    else if negb (isActive u)
    then (Throw (ApiErr (mkApiError "Account is disabled" 403)), w)
    else
      (Ok (mkLoginResult (mkSafeUser id (username u) (role u))
             (signAccessToken id now) (signRefreshToken id now)),
       mkWorld
         (<[id := set_refreshToken (Some (signRefreshToken id now)) u]> (users w))
         (outbox w)).
Proof.
  intros Hf. unfold login. svc_unfold. rewrite Hf.
  destruct (bcrypt_compare pwd (password u)); simpl; [|done].
  destruct (isVerified u); simpl; [|done].
  destruct (isActive u); simpl; done.
Qed.

(** C3. [login] throws the one error "Invalid credentials" (401), leaving
    the world as it was, both when no user matches the identifier and when
    the user found has another password; the two answers are equal. A user
    matches when the identifier, passed through the setters of the schema,
    is the user's email (lower-cased, trimmed) or username (trimmed). Past
    that check [login] throws 403 "Please verify your email" for an
    unverified user, and only for a verified one 403 "Account is disabled"
    when the account is inactive. *)
Theorem login_failures (identifier pwd : string) (now : Time) (w : World) :
  ((∀ id u, users w !! id = Some u →
      email u ≠ cast_email identifier ∧
      username u ≠ cast_username identifier) →
     login identifier pwd now w =
       (Throw (ApiErr (mkApiError "Invalid credentials" 401)), w))
  ∧ (∀ id u,
     first_match (by_identifier identifier) (users w) = Some (id, u) →
     (bcrypt_compare pwd (password u) = false →
        login identifier pwd now w =
          (Throw (ApiErr (mkApiError "Invalid credentials" 401)), w))
     ∧ (bcrypt_compare pwd (password u) = true → isVerified u = false →
        login identifier pwd now w =
          (Throw (ApiErr (mkApiError "Please verify your email" 403)), w))
     ∧ (bcrypt_compare pwd (password u) = true → isVerified u = true →
        isActive u = false →
        login identifier pwd now w =
          (Throw (ApiErr (mkApiError "Account is disabled" 403)), w)))
  ∧ (∀ unknown pwd' id u,
     (∀ id u, users w !! id = Some u →
        email u ≠ cast_email unknown ∧ username u ≠ cast_username unknown) →
     first_match (by_identifier identifier) (users w) = Some (id, u) →
     bcrypt_compare pwd (password u) = false →
     login unknown pwd' now w = login identifier pwd now w).
Proof.
  split; [apply login_no_match|]. split.
  - intros id u Hf. rewrite (login_found _ _ _ _ _ _ Hf).
    repeat split.
    + by intros ->.
    + by intros -> ->.
    + by intros -> -> ->.
  - intros unknown pwd' id u Hnone Hf Hpw.
    rewrite (login_no_match _ _ _ _ Hnone), (login_found _ _ _ _ _ _ Hf).
    by rewrite Hpw.
Qed.

(** C4. When the user found is verified and active and the password
    matches, [login] signs an access and a refresh token for that user's
    id, saves the user with [refreshToken] set to the new refresh token
    (whatever was stored before is gone, every other field and every other
    user is as before) and returns the projection (id, username, role)
    with the two tokens. Afterwards [refresh] rejects every cookie for
    this user other than the new token, so one session is live. *)
Theorem login_success (identifier pwd : string) (now : Time) (w : World)
    (id : ObjectId) (u : User) :
  first_match (by_identifier identifier) (users w) = Some (id, u) →
  bcrypt_compare pwd (password u) = true →
  isVerified u = true →
  isActive u = true →
  let fresh := signRefreshToken id now in
  let u' := mkUser (username u) (email u) (password u) (role u)
              (isVerified u) (isActive u) (Some fresh)
              (emailVerificationToken u) (emailVerificationExpires u)
              (passwordResetToken u) (passwordResetExpires u) in
  let w' := mkWorld (<[id := u']> (users w)) (outbox w) in
  login identifier pwd now w =
    (Ok (mkLoginResult (mkSafeUser id (username u) (role u))
           (signAccessToken id now) fresh), w')
  ∧ users w' !! id = Some u'
  ∧ (∀ id', id' ≠ id → users w' !! id' = users w !! id')
  ∧ (∀ cookie now' d,
     cookie ≠ Some fresh →
     jwt_verify (default "" cookie) REFRESH_TOKEN_SECRET now' = Some d →
     userId d = id →
     ∃ e, refresh cookie now' w' = (Throw (ApiErr e), w')).
Proof.
  intros Hf Hpw Hver Hact fresh u' w'.
  rewrite (login_found _ _ _ _ _ _ Hf), Hpw, Hver, Hact. simpl.
  split; [done|]. split; [apply lookup_insert_eq|]. split.
  - intros id' Hne. simpl. by rewrite lookup_insert_ne.
  - intros cookie now' d Hcookie Hv Hid.
    destruct (truthy cookie) eqn:Ht.
    + apply truthy_Some in Ht as (tok & -> & Hne). simpl in Hv.
      rewrite (refresh_decoded _ _ _ _ Hne Hv), Hid. simpl.
      rewrite lookup_insert_eq. simpl. rewrite Hact. simpl.
      rewrite bool_decide_eq_true_2; [eauto|]. congruence.
    + rewrite refresh_absent by done. eauto.
Qed.

(** ** verifyEmail *)

Lemma by_verification_true h now id u :
  by_verification h now id u = true ↔
  emailVerificationToken u = Some h ∧
  ∃ e, emailVerificationExpires u = Some e ∧ (now < e)%Z.
Proof.
  unfold by_verification. rewrite andb_true_iff, bool_decide_eq_true.
  destruct (emailVerificationExpires u) as [e|].
  - rewrite Z.ltb_lt. split.
    + intros [? ?]. eauto.
    + intros [? (e' & [= <-] & ?)]. done.
  - split; [intros [_ [=]] | intros [_ (e & [=] & _)]].
Qed.

Lemma verifyEmail_no_match token now w :
  (∀ id u, users w !! id = Some u →
     by_verification (sha256 token) now id u = false) →
  verifyEmail token now w =
    (Throw (ApiErr (mkApiError "Invalid or expired token" 400)), w).
Proof.
  intros Hnone. unfold verifyEmail. svc_unfold.
  apply first_match_None in Hnone. by rewrite Hnone.
Qed.

Lemma verifyEmail_found token now w id u :
  first_match (by_verification (sha256 token) now) (users w) = Some (id, u) →
  verifyEmail token now w =
    (Ok "Email verified successfully",
     mkWorld
       (<[id := mkUser (username u) (email u) (password u) (role u) true
                  (isActive u) (refreshToken u) None None
                  (passwordResetToken u) (passwordResetExpires u)]> (users w))
       (outbox w)).
Proof. intros Hf. unfold verifyEmail. svc_unfold. by rewrite Hf. Qed.

Lemma verifyEmail_again token now w id u :
  first_match (by_verification (sha256 token) now) (users w) = Some (id, u) →
  (∀ id' v, id' ≠ id → users w !! id' = Some v →
     emailVerificationToken v ≠ Some (sha256 token)) →
  ∀ now', verifyEmail token now' (verifyEmail token now w).2 =
    (Throw (ApiErr (mkApiError "Invalid or expired token" 400)),
     (verifyEmail token now w).2).
Proof.
  intros Hf Honly now'. rewrite (verifyEmail_found _ _ _ _ _ Hf). cbn [snd].
  apply verifyEmail_no_match. intros id' v Hl.
  destruct (by_verification _ _ _ _) eqn:Hq; [|done].
  apply by_verification_true in Hq as [Htok _]. exfalso.
  simpl in Hl. destruct (decide (id' = id)) as [->|Hne].
  - rewrite lookup_insert_eq in Hl. by injection Hl as <-.
  - rewrite lookup_insert_ne in Hl by done. by eapply Honly.
Qed.

(** C5. [verifyEmail] throws "Invalid or expired token" (400) and changes
    nothing when no user stores the digest of the presented token with an
    expiry still in the future. Otherwise it saves the user found with
    [isVerified] set and both [emailVerificationToken] and
    [emailVerificationExpires] cleared, every other field kept. After
    that, the token being the one user's own (no other user stores its
    digest), presenting it again, at whatever time, throws the same
    "Invalid or expired token". *)
Theorem verifyEmail_single_use (token : string) (now : Time) (w : World) :
  ((∀ id u, users w !! id = Some u →
      ¬ (emailVerificationToken u = Some (sha256 token) ∧
         ∃ e, emailVerificationExpires u = Some e ∧ (now < e)%Z)) →
     verifyEmail token now w =
       (Throw (ApiErr (mkApiError "Invalid or expired token" 400)), w))
  ∧ (∀ id u,
     first_match (by_verification (sha256 token) now) (users w) = Some (id, u) →
     let u' := mkUser (username u) (email u) (password u) (role u) true
                 (isActive u) (refreshToken u) None None
                 (passwordResetToken u) (passwordResetExpires u) in
     let w' := mkWorld (<[id := u']> (users w)) (outbox w) in
     verifyEmail token now w = (Ok "Email verified successfully", w')
     ∧ ((∀ id' v, id' ≠ id → users w !! id' = Some v →
           emailVerificationToken v ≠ Some (sha256 token)) →
        ∀ now', verifyEmail token now' w' =
          (Throw (ApiErr (mkApiError "Invalid or expired token" 400)), w'))).
Proof.
  split.
  - intros Hnone. apply verifyEmail_no_match. intros id u Hl.
    destruct (by_verification _ _ _ _) eqn:Hq; [|done].
    apply by_verification_true in Hq. by destruct (Hnone _ _ Hl).
  - intros id u Hf u' w'. split; [by apply verifyEmail_found|].
    intros Honly now'.
    pose proof (verifyEmail_again _ _ _ _ _ Hf Honly now') as Hagain.
    by rewrite (verifyEmail_found _ _ _ _ _ Hf) in Hagain.
Qed.

(** ** logout *)

Lemma logout_found cookie w id u :
  truthy cookie = true →
  first_match (by_refreshToken cookie) (users w) = Some (id, u) →
  logout cookie w =
    (Ok tt, mkWorld (<[id := set_refreshToken None u]> (users w)) (outbox w)).
Proof.
  intros Ht Hf. unfold logout. rewrite Ht. simpl. svc_unfold. by rewrite Hf.
Qed.


(** After a logout that cleared the token of user [id], [refresh] with
    the same cookie can only succeed through another user: one that the
    token names and that stores it too. *)
Lemma logout_then_refresh cookie w id u :
  truthy cookie = true →
  first_match (by_refreshToken cookie) (users w) = Some (id, u) →
  (∀ now' d v,
     jwt_verify (default "" cookie) REFRESH_TOKEN_SECRET now' = Some d →
     userId d ≠ id → users w !! userId d = Some v →
     refreshToken v ≠ cookie) →
  ∀ now', ∃ e,
    refresh cookie now' (logout cookie w).2 =
      (Throw (ApiErr e), (logout cookie w).2)
    ∧ (statusCode e = 401 ∨ statusCode e = 403).
Proof.
  intros Ht Hf Hother now'. rewrite (logout_found _ _ _ _ Ht Hf). cbn [snd].
  apply truthy_Some in Ht as (tok & -> & Hne).
  destruct (jwt_verify tok REFRESH_TOKEN_SECRET now') as [d|] eqn:Hv.
  - rewrite (refresh_decoded _ _ _ _ Hne Hv). simpl.
    destruct (decide (userId d = id)) as [->|Hneq].
    + rewrite lookup_insert_eq. simpl.
      destruct (isActive u); simpl; eauto.
    + rewrite lookup_insert_ne by done.
      destruct (users w !! userId d) as [v|] eqn:Hl; [|eauto].
      destruct (isActive v); simpl; [|eauto].
      rewrite bool_decide_eq_true_2; [eauto|]. by eapply (Hother now').
  - rewrite refresh_invalid by done. eauto.
Qed.

(** So it is rejected when the token names its holder, as a token signed
    by [login] does. *)
Lemma logout_then_refresh_owner cookie w id u :
  truthy cookie = true →
  first_match (by_refreshToken cookie) (users w) = Some (id, u) →
  (∀ now' d,
     jwt_verify (default "" cookie) REFRESH_TOKEN_SECRET now' = Some d →
     userId d = id) →
  ∀ now', ∃ e,
    refresh cookie now' (logout cookie w).2 =
      (Throw (ApiErr e), (logout cookie w).2)
    ∧ (statusCode e = 401 ∨ statusCode e = 403).
Proof.
  intros Ht Hf Hown. apply (logout_then_refresh _ _ _ _ Ht Hf).
  intros now' d v Hv Hneq. destruct Hneq. by eapply Hown.
Qed.


(** ** authProtect *)

Lemma authProtect_no_bearer req now w :
  (authHeader req = None ∨
   ∃ header, authHeader req = Some header ∧
             String.prefix "Bearer " header = false) →
  authProtect req now w =
    (Throw (ApiErr (mkApiError "Unauthorized: No token provided" 401)), w).
Proof.
  unfold authProtect. intros [-> | (header & -> & ->)]; done.
Qed.

Lemma authProtect_try_eq token req now w :
  authProtect_try token req now w =
    match jwt_verify token ACCESS_TOKEN_SECRET now with
    | None => (Throw (LibErr "JsonWebTokenError"), w)
    | Some d =>
      match users w !! userId d with
      | None => (Throw (ApiErr (mkApiError "User no longer exists" 404)), w)
      | Some u =>
        if negb (isActive u)
        then (Throw (ApiErr (mkApiError "Account is disabled" 403)), w)
        else (Ok (mkAuthRequest (hdr_authorization req) (hdr_Authorization req)
                    (Some (userId d)) (Some (role u))), w)
      end
    end.
Proof.
  unfold authProtect_try, bind at 1, verify_or_throw.
  destruct (jwt_verify token ACCESS_TOKEN_SECRET now) as [d|]; [|done].
  svc_unfold. destruct (users w !! userId d) as [u|]; [|done].
  by destruct (isActive u).
Qed.

Lemma authProtect_bearer req now w header :
  authHeader req = Some header →
  String.prefix "Bearer " header = true →
  authProtect req now w =
    match authProtect_try (nth 1 (split " " header) "") req now w with
    | (Ok r, w') => (Ok r, w')
    | (Throw _, w') =>
      (Throw (ApiErr (mkApiError "Forbidden: Invalid or expired token" 403)), w')
    end.
Proof. intros Hh Hp. unfold authProtect. by rewrite Hh, Hp. Qed.

Lemma prefix_String a s1 h :
  String.prefix (String a s1) h = true →
  ∃ h', h = String a h' ∧ String.prefix s1 h' = true.
Proof.
  destruct h as [|b h']; [discriminate|].
  change (String.prefix (String a s1) (String b h')) with
    (if ascii_dec a b then String.prefix s1 h' else false).
  destruct (ascii_dec a b) as [<-|]; [eauto|discriminate].
Qed.

(** The token is what follows ["Bearer "], up to the next space. *)
Lemma bearer_token header :
  String.prefix "Bearer " header = true →
  ∃ rest, header = "Bearer " ++ rest ∧
          nth 1 (split " " header) "" = hd "" (split " " rest).
Proof.
  intros Hp.
  do 7 (apply prefix_String in Hp as (? & -> & Hp)).
  eexists. split; [reflexivity|].
  simpl. by destruct (split " " _).
Qed.

(** C7. [authProtect] throws 401 when there is no authorization header or
    it does not start with ["Bearer "]. Otherwise every failure is a 403:
    a token that does not verify (signature or expiry), a user that no
    longer exists (the 404 thrown inside the [try] block is caught and
    replaced by the 403), a disabled account. When the token verifies and
    the user is active, the request goes on with the decoded [userId] and
    the user's [role] attached. The collection is never changed. *)
Theorem authProtect_outcomes (req : AuthRequest) (now : Time) (w : World) :
  let invalid_or_expired :=
    mkApiError "Forbidden: Invalid or expired token" 403 in
  (authHeader req = None →
     authProtect req now w =
       (Throw (ApiErr (mkApiError "Unauthorized: No token provided" 401)), w))
  ∧ (∀ header, authHeader req = Some header →
     (String.prefix "Bearer " header = false →
        authProtect req now w =
          (Throw (ApiErr (mkApiError "Unauthorized: No token provided" 401)), w))
     ∧ (String.prefix "Bearer " header = true →
        ∀ token, token = nth 1 (split " " header) "" →
        (jwt_verify token ACCESS_TOKEN_SECRET now = None →
           authProtect req now w = (Throw (ApiErr invalid_or_expired), w))
        ∧ (∀ d, jwt_verify token ACCESS_TOKEN_SECRET now = Some d →
           (users w !! userId d = None →
              authProtect_try token req now w =
                (Throw (ApiErr (mkApiError "User no longer exists" 404)), w)
              ∧ authProtect req now w = (Throw (ApiErr invalid_or_expired), w))
           ∧ (∀ u, users w !! userId d = Some u →
              (isActive u = false →
                 authProtect_try token req now w =
                   (Throw (ApiErr (mkApiError "Account is disabled" 403)), w)
                 ∧ authProtect req now w =
                     (Throw (ApiErr invalid_or_expired), w))
              ∧ (isActive u = true →
                 authProtect req now w =
                   (Ok (mkAuthRequest (hdr_authorization req)
                          (hdr_Authorization req)
                          (Some (userId d)) (Some (role u))), w)))))).
Proof.
  intros invalid_or_expired. split.
  - intros Hh. apply authProtect_no_bearer. by left.
  - intros header Hh. split.
    + intros Hp. apply authProtect_no_bearer. right. eauto.
    + intros Hp token ->. rewrite (authProtect_bearer _ _ _ _ Hh Hp).
      rewrite authProtect_try_eq. split.
      * by intros ->.
      * intros d ->. split.
        -- by intros ->.
        -- intros u ->. split; by intros ->.
Qed.

(** ** resetPassword *)

Lemma by_reset_true h now id u :
  by_reset h now id u = true ↔
  passwordResetToken u = Some h ∧
  ∃ e, passwordResetExpires u = Some e ∧ (now < e)%Z.
Proof.
  unfold by_reset. rewrite andb_true_iff, bool_decide_eq_true.
  destruct (passwordResetExpires u) as [e|].
  - rewrite Z.ltb_lt. split.
    + intros [? ?]. eauto.
    + intros [? (e' & [= <-] & ?)]. done.
  - split; [intros [_ [=]] | intros [_ (e & [=] & _)]].
Qed.

Lemma resetPassword_no_match token newPassword salt now w :
  (∀ id u, users w !! id = Some u →
     by_reset (sha256 token) now id u = false) →
  resetPassword token newPassword salt now w =
    (Throw (ApiErr (mkApiError "Invalid or expired token" 400)), w).
Proof.
  intros Hnone. unfold resetPassword. svc_unfold.
  apply first_match_None in Hnone. by rewrite Hnone.
Qed.

(** What [refresh] answers depends on the collection only through
    [isActive] and [refreshToken] of the user that the token names. *)
Lemma refresh_depends_on cookie now w1 w2 :
  (∀ id, (λ u, (isActive u, refreshToken u)) <$> users w1 !! id =
         (λ u, (isActive u, refreshToken u)) <$> users w2 !! id) →
  (refresh cookie now w1).1 = (refresh cookie now w2).1.
Proof.
  intros Hsame. destruct (truthy cookie) eqn:Ht.
  - apply truthy_Some in Ht as (tok & -> & Hne).
    destruct (jwt_verify tok REFRESH_TOKEN_SECRET now) as [d|] eqn:Hv.
    + rewrite !(refresh_decoded _ _ _ _ Hne Hv).
      specialize (Hsame (userId d)).
      destruct (users w1 !! userId d) as [u1|], (users w2 !! userId d) as [u2|];
        simpl in Hsame; try done.
      injection Hsame as -> ->.
      destruct (isActive u2); simpl; [|done]. by case_bool_decide.
    + by rewrite !refresh_invalid.
  - by rewrite !refresh_absent.
Qed.

(** C8. When some user stores the digest of the presented token with an
    expiry in the future, [resetPassword] saves the user found with
    [password] replaced by the bcrypt hash of the new password and with
    [passwordResetToken] and [passwordResetExpires] cleared. Every other
    field of that user, [refreshToken] among them, every other user and
    the outbox are as before, and [refresh] answers every cookie as it did
    before the reset. *)
Theorem resetPassword_success (token newPassword salt : string) (now : Time)
    (w : World) (id : ObjectId) (u : User) :
  first_match (by_reset (sha256 token) now) (users w) = Some (id, u) →
  let u' := mkUser (username u) (email u) (bcrypt_hash salt newPassword)
              (role u) (isVerified u) (isActive u) (refreshToken u)
              (emailVerificationToken u) (emailVerificationExpires u)
              None None in
  let w' := mkWorld (<[id := u']> (users w)) (outbox w) in
  resetPassword token newPassword salt now w = (Ok tt, w')
  ∧ users w' !! id = Some u'
  ∧ refreshToken u' = refreshToken u
  ∧ (∀ id', id' ≠ id → users w' !! id' = users w !! id')
  ∧ (∀ cookie now', (refresh cookie now' w').1 = (refresh cookie now' w).1).
Proof.
  intros Hf u' w'. split.
  { unfold resetPassword. svc_unfold. by rewrite Hf. }
  split; [apply lookup_insert_eq|]. split; [done|]. split.
  - intros id' Hne. simpl. by rewrite lookup_insert_ne.
  - intros cookie now'. apply refresh_depends_on. intros id'. simpl.
    apply first_match_Some in Hf as [Hl _].
    destruct (decide (id' = id)) as [->|Hne].
    + by rewrite lookup_insert_eq, Hl.
    + by rewrite lookup_insert_ne.
Qed.

(** ** resendVerificationEmail and forgotPassword *)

Lemma by_email_true addr id u :
  by_email addr id u = true ↔ email u = cast_email addr.
Proof. unfold by_email. apply String.eqb_eq. Qed.

Lemma first_match_by_email_None addr w :
  (∀ id u, users w !! id = Some u → email u ≠ cast_email addr) →
  first_match (by_email addr) (users w) = None.
Proof.
  intros Hnone. apply first_match_None. intros id u Hl.
  destruct (by_email addr id u) eqn:Hq; [|done].
  apply by_email_true in Hq. by destruct (Hnone _ _ Hl).
Qed.

Lemma resendVerificationEmail_returns addr rawToken now w :
  (resendVerificationEmail addr rawToken now w).1 = Ok tt.
Proof.
  unfold resendVerificationEmail. svc_unfold.
  destruct (first_match _ _) as [[id u]|]; [|done].
  by destruct (isVerified u).
Qed.

Lemma forgotPassword_returns addr rawToken now w :
  (forgotPassword addr rawToken now w).1 = Ok tt.
Proof.
  unfold forgotPassword. svc_unfold.
  by destruct (first_match _ _) as [[id u]|].
Qed.

(** C9. [resendVerificationEmail] and [forgotPassword] return normally
    for every email address, never throwing. When no user has the address
    (as the setters of the schema normalise it: lower-cased and trimmed),
    and for [resendVerificationEmail] also when the user found is already
    verified, the world (collection and outbox) is left as it was. The
    value handed back is the same in any two runs, whatever the address
    and the collection, and so is the response of the two handlers to a
    request that carries an email: the caller sees no difference. *)
Theorem anti_enumeration (addr rawToken : string) (now : Time) (w : World) :
  (resendVerificationEmail addr rawToken now w).1 = Ok tt
  ∧ (forgotPassword addr rawToken now w).1 = Ok tt
  ∧ ((∀ id u, users w !! id = Some u → email u ≠ cast_email addr) →
     resendVerificationEmail addr rawToken now w = (Ok tt, w)
     ∧ forgotPassword addr rawToken now w = (Ok tt, w))
  ∧ (∀ id u, first_match (by_email addr) (users w) = Some (id, u) →
     isVerified u = true →
     resendVerificationEmail addr rawToken now w = (Ok tt, w))
  ∧ (∀ addr' rawToken' now' w',
     (resendVerificationEmail addr rawToken now w).1 =
       (resendVerificationEmail addr' rawToken' now' w').1
     ∧ (forgotPassword addr rawToken now w).1 =
         (forgotPassword addr' rawToken' now' w').1)
  ∧ (addr ≠ "" →
     (AuthController.resendVerification (Some addr) rawToken now w).1 =
       mkResponse 200 true
         "Verification email sent if the account exists and is unverified"
     ∧ (AuthController.forgotPassword (Some addr) rawToken now w).1 =
         mkResponse 200 true "Password reset email sent if account exists").
Proof.
  split; [apply resendVerificationEmail_returns|].
  split; [apply forgotPassword_returns|].
  split; [|split; [|split]].
  - intros Hnone. apply first_match_by_email_None in Hnone.
    unfold resendVerificationEmail, forgotPassword. svc_unfold.
    by rewrite Hnone.
  - intros id u Hf Hver. unfold resendVerificationEmail. svc_unfold.
    by rewrite Hf, Hver.
  - intros addr' rawToken' now' w'.
    by rewrite !resendVerificationEmail_returns, !forgotPassword_returns.
  - intros Hne.
    unfold AuthController.resendVerification, AuthController.forgotPassword,
      AuthController.asyncHandler.
    rewrite (truthy_of_Some _ Hne).
    change (default "" (Some addr)) with addr. cbn [negb].
    pose proof (resendVerificationEmail_returns addr rawToken now w) as Hr.
    pose proof (forgotPassword_returns addr rawToken now w) as Hf.
    unfold bind, ret.
    destruct (resendVerificationEmail addr rawToken now w) as [r1 w1].
    destruct (forgotPassword addr rawToken now w) as [r2 w2].
    simpl in Hr, Hf. by subst r1 r2.
Qed.

(** ** updateProfile *)

Lemma updateProfile_email id input salt w u :
  ObjectId_isValid id = true →
  users w !! id = Some u →
  has_key (p_email input) = true →
  updateProfile id input salt w =
    (Throw (ApiErr (mkApiError "Email cannot be changed" 400)), w).
Proof.
  intros Hid Hl He. unfold updateProfile. rewrite Hid. simpl.
  unfold bind at 1, findById. by rewrite Hl, He.
Qed.

Lemma updateProfile_role id input salt w u :
  ObjectId_isValid id = true →
  users w !! id = Some u →
  has_key (p_email input) = false →
  has_key (p_role input) || has_key (p_isActive input) = true →
  updateProfile id input salt w =
    (Throw (ApiErr (mkApiError "Forbidden" 403)), w).
Proof.
  intros Hid Hl He Hr. unfold updateProfile. rewrite Hid. simpl.
  unfold bind at 1, findById. by rewrite Hl, He, Hr.
Qed.

Lemma validate_modified_cases old new w :
  validate_modified old new w = (Ok tt, w) ∨
  ∃ errors, validate_modified old new w = (Throw (ValidationError errors), w).
Proof.
  unfold validate_modified.
  destruct (if String.eqb _ _ then _ else _); [by left|right; eauto].
Qed.

Lemma create_cases id doc w :
  (∃ errors, create id doc w = (Throw (ValidationError errors), w))
  ∨ create id doc w = (Throw (DuplicateKey "_id"), w)
  ∨ (users w !! id = None
     ∧ validate_username (cast_username (username doc)) = []
     ∧ validate_email (cast_email (email doc)) = []
     ∧ create id doc w =
         (Ok (new_User doc),
          mkWorld (<[id := new_User doc]> (users w)) (outbox w))).
Proof.
  unfold create. cbn [new_User username email].
  destruct (validate_username _) as [|e1 l1]; [|left; eauto].
  destruct (validate_email _) as [|e2 l2]; [|left; eauto].
  cbn [app]. destruct (users w !! id); [by right; left|by right; right].
Qed.

Lemma updateProfile_allowed id input salt w u :
  ObjectId_isValid id = true →
  users w !! id = Some u →
  has_key (p_email input) = false →
  has_key (p_role input) || has_key (p_isActive input) = false →
  let with_password v :=
    if truthy (p_password input)
    then set_password (bcrypt_hash salt (default "" (p_password input))) v
    else v in
  let name := default "" (p_username input) in
  let saved v :=
    match validate_modified u (with_password v) w with
    | (Ok _, _) =>
      (Ok (id, with_password v),
       mkWorld (<[id := with_password v]> (users w)) (outbox w))
    | (Throw e, _) => (Throw e, w)
    end in
  updateProfile id input salt w =
    if truthy (p_username input) then
      match first_match (by_username_except name id) (users w) with
      | Some _ => (Throw (ApiErr (mkApiError "Username already taken" 409)), w)
      | None => saved (set_username (cast_username name) u)
      end
    else saved u.
Proof.
  intros Hid Hl He Hr with_password name saved.
  assert (Hsave : ∀ v,
    (validate_modified u (with_password v) ;;
     save id (with_password v) ;; ret (id, with_password v)) w = saved v).
  { intros v. unfold saved, bind at 1.
    by destruct (validate_modified_cases u (with_password v) w)
      as [-> | (errors & ->)]. }
  unfold updateProfile. rewrite Hid. simpl.
  unfold bind at 1, findById. rewrite Hl, He, Hr.
  destruct (truthy (p_username input)).
  - unfold bind at 1. unfold bind at 1, findOne.
    destruct (first_match _ _); [done|]. apply Hsave.
  - unfold bind at 1, ret at 1. apply Hsave.
Qed.

(** C10. For a valid id of an existing user, [updateProfile] throws 400
    "Email cannot be changed" when the input has an [email] key, and
    otherwise 403 "Forbidden" when it has a [role] or an [isActive] key;
    in both cases nothing is saved. Whatever the input, no other user and
    no mail is touched, an error leaves the world as it was, and the
    user's document afterwards differs from the one before at most in
    [username] and [password]; a changed [username] is one that no other
    user had. *)
Theorem updateProfile_guards (id : ObjectId) (input : PartialUser)
    (salt : string) (w : World) (u : User) :
  ObjectId_isValid id = true →
  users w !! id = Some u →
  (has_key (p_email input) = true →
     updateProfile id input salt w =
       (Throw (ApiErr (mkApiError "Email cannot be changed" 400)), w))
  ∧ (has_key (p_email input) = false →
     has_key (p_role input) || has_key (p_isActive input) = true →
     updateProfile id input salt w =
       (Throw (ApiErr (mkApiError "Forbidden" 403)), w))
  ∧ (∀ r w', updateProfile id input salt w = (r, w') →
     (∀ e, r = Throw e → w' = w)
     ∧ outbox w' = outbox w
     ∧ (∀ id', id' ≠ id → users w' !! id' = users w !! id')
     ∧ ∃ u', users w' !! id = Some u'
             ∧ same_but_username_password u u'
             ∧ (username u' ≠ username u →
                ∀ id' v, id' ≠ id → users w !! id' = Some v →
                         username v ≠ username u')).
Proof.
  intros Hid Hl.
  split; [by apply (updateProfile_email _ _ _ _ u)|].
  split; [by apply (updateProfile_role _ _ _ _ u)|].
  intros r w' Hrun.
  assert (Hkeep : ∀ e, (r, w') = (Throw e, w) →
    (∀ e, r = Throw e → w' = w) ∧ outbox w' = outbox w
    ∧ (∀ id', id' ≠ id → users w' !! id' = users w !! id')
    ∧ ∃ u', users w' !! id = Some u' ∧ same_but_username_password u u'
            ∧ (username u' ≠ username u →
               ∀ id' v, id' ≠ id → users w !! id' = Some v →
                        username v ≠ username u')).
  { intros e [= -> ->]. repeat split; try done.
    exists u. repeat split; done. }
  destruct (has_key (p_email input)) eqn:He.
  { rewrite (updateProfile_email _ _ _ _ _ Hid Hl He) in Hrun.
    by eapply Hkeep. }
  destruct (has_key (p_role input) || has_key (p_isActive input)) eqn:Hr.
  { rewrite (updateProfile_role _ _ _ _ _ Hid Hl He Hr) in Hrun.
    by eapply Hkeep. }
  rewrite (updateProfile_allowed _ _ _ _ _ Hid Hl He Hr) in Hrun.
  destruct (truthy (p_username input)).
  - destruct (first_match _ _) as [taken|] eqn:Hf.
    { by eapply Hkeep. }
    destruct (validate_modified _ _ w) as [[[]|e] w0]; [|by eapply Hkeep].
    injection Hrun as <- <-. simpl.
    split; [done|]. split; [done|].
    split; [by intros; rewrite lookup_insert_ne|].
    eexists. split; [apply lookup_insert_eq|].
    split; [by destruct (truthy (p_password input))|].
    intros _ id' v Hne Hl' Hsame.
    rewrite first_match_None in Hf. specialize (Hf _ _ Hl').
    unfold by_username_except in Hf.
    assert (username v = cast_username (default "" (p_username input)))
      as Hname.
    { rewrite Hsame. by destruct (truthy (p_password input)). }
    apply String.eqb_eq in Hname. rewrite Hname in Hf.
    apply String.eqb_neq in Hne. by rewrite Hne in Hf.
  - destruct (validate_modified _ _ w) as [[[]|e] w0]; [|by eapply Hkeep].
    injection Hrun as <- <-. simpl.
    split; [done|]. split; [done|].
    split; [by intros; rewrite lookup_insert_ne|].
    eexists. split; [apply lookup_insert_eq|].
    split; [by destruct (truthy (p_password input))|].
    intros Hchanged. exfalso. apply Hchanged.
    by destruct (truthy (p_password input)).
Qed.

(** ** An invariant of the collection: verification digests *)

Lemma digests_kept_refl w : digests_kept w w.
Proof. intros id u Hl. right. eauto. Qed.

Lemma digests_kept_save w id u u' ob :
  users w !! id = Some u →
  emailVerificationToken u' = None ∨
    emailVerificationToken u' = emailVerificationToken u →
  digests_kept w (mkWorld (<[id := u']> (users w)) ob).
Proof.
  intros Hl Hfield id' v Hl'. simpl in Hl'.
  destruct (decide (id' = id)) as [->|Hne].
  - rewrite lookup_insert_eq in Hl'. injection Hl' as <-.
    destruct Hfield; [by left|right; eauto].
  - rewrite lookup_insert_ne in Hl' by done. right. eauto.
Qed.

Lemma digests_kept_delete w id ob :
  digests_kept w (mkWorld (delete id (users w)) ob).
Proof.
  intros id' v Hl'. simpl in Hl'.
  apply lookup_delete_Some in Hl' as [_ Hl']. right. eauto.
Qed.

Lemma digests_kept_outbox w ob :
  digests_kept w (mkWorld (users w) ob).
Proof. intros id u Hl. right. eauto. Qed.

Lemma digests_kept_trans w1 w2 w3 :
  digests_kept w1 w2 → digests_kept w2 w3 → digests_kept w1 w3.
Proof.
  intros H12 H23 id u3 Hl3.
  destruct (H23 _ _ Hl3) as [Hnone | (u2 & Hl2 & Heq)]; [by left|].
  destruct (H12 _ _ Hl2) as [Hnone | (u1 & Hl1 & Heq')].
  - left. congruence.
  - right. exists u1. split; [done|congruence].
Qed.

Lemma digests_kept_distinct w w' :
  digests_kept w w' →
  verification_digests_distinct w → verification_digests_distinct w'.
Proof.
  intros Hkept Hdist id1 id2 u1 u2 h Hl1 Hl2 Hh1 Hh2.
  destruct (Hkept _ _ Hl1) as [Hnone | (v1 & Hv1 & Heq1)]; [congruence|].
  destruct (Hkept _ _ Hl2) as [Hnone | (v2 & Hv2 & Heq2)]; [congruence|].
  eapply (Hdist id1 id2 v1 v2 h); congruence.
Qed.

(** A document saved with a digest that nobody stores. *)
Lemma distinct_save_fresh w id u' h ob :
  verification_digests_distinct w →
  (∀ id' v, users w !! id' = Some v → emailVerificationToken v ≠ Some h) →
  emailVerificationToken u' = Some h →
  verification_digests_distinct (mkWorld (<[id := u']> (users w)) ob).
Proof.
  intros Hdist Hfresh Hh id1 id2 u1 u2 h' Hl1 Hl2 Hh1 Hh2. simpl in *.
  destruct (decide (id1 = id)) as [->|Hne1], (decide (id2 = id)) as [->|Hne2];
    [done|..].
  - rewrite lookup_insert_eq in Hl1. rewrite lookup_insert_ne in Hl2 by done.
    injection Hl1 as <-. destruct (Hfresh _ _ Hl2). congruence.
  - rewrite lookup_insert_eq in Hl2. rewrite lookup_insert_ne in Hl1 by done.
    injection Hl2 as <-. destruct (Hfresh _ _ Hl1). congruence.
  - rewrite lookup_insert_ne in Hl1, Hl2 by done. by eapply Hdist.
Qed.

(** Case analysis on a service computation, down to its final world. *)
Ltac svc_cases :=
  svc_unfold;
  repeat match goal with
  | |- context [validate_modified ?old ?new ?w] =>
      destruct (validate_modified_cases old new w) as [-> | (? & ->)]
  | |- context [first_match ?q ?m] =>
      let Hf := fresh "Hf" in
      destruct (first_match q m) as [[? ?]|] eqn:Hf;
      [apply first_match_Some in Hf as [Hf _]|]
  | |- context [@lookup _ _ (gmap _ _) _ ?k ?m] =>
      let Hl := fresh "Hl" in destruct (m !! k) eqn:Hl
  | |- context [if ?b then _ else _] => destruct b
  | |- context [match ?x with _ => _ end] => destruct x
  end; cbn [snd].

Lemma verifyEmail_keeps token now w :
  digests_kept w (verifyEmail token now w).2.
Proof.
  unfold verifyEmail. svc_cases; [|apply digests_kept_refl].
  eapply digests_kept_save; [done|]. by left.
Qed.

Lemma login_keeps identifier pwd now w :
  digests_kept w (login identifier pwd now w).2.
Proof.
  unfold login. svc_cases; try apply digests_kept_refl.
  eapply digests_kept_save; [done|]. by right.
Qed.

Lemma forgotPassword_keeps addr rawToken now w :
  digests_kept w (forgotPassword addr rawToken now w).2.
Proof.
  unfold forgotPassword. svc_cases; [|apply digests_kept_refl].
  eapply digests_kept_trans; [|apply digests_kept_outbox].
  eapply digests_kept_save; [done|]. by right.
Qed.

Lemma resetPassword_keeps token newPassword salt now w :
  digests_kept w (resetPassword token newPassword salt now w).2.
Proof.
  unfold resetPassword. svc_cases; [|apply digests_kept_refl].
  eapply digests_kept_save; [done|]. by right.
Qed.

Lemma logout_keeps cookie w : digests_kept w (logout cookie w).2.
Proof.
  unfold logout. svc_cases; try apply digests_kept_refl.
  eapply digests_kept_save; [done|]. by right.
Qed.

Lemma updateProfile_keeps id input salt w :
  digests_kept w (updateProfile id input salt w).2.
Proof.
  unfold updateProfile. svc_cases; try apply digests_kept_refl;
    (eapply digests_kept_save; [done|]; by right).
Qed.

Lemma adminUpdateUser_keeps targetUserId input adminId w :
  digests_kept w (adminUpdateUser targetUserId input adminId w).2.
Proof.
  unfold adminUpdateUser, cast_id, findByIdAndUpdate, apply_role_isActive.
  destruct (keys_not_allowed input); [|apply digests_kept_refl].
  svc_unfold. destruct (users w !! adminId) as [a|]; [|apply digests_kept_refl].
  case_bool_decide; [apply digests_kept_refl|].
  destruct (_ && _); [apply digests_kept_refl|].
  destruct (ObjectId_isValid targetUserId); [|apply digests_kept_refl].
  destruct (users w !! ObjectId_hex targetUserId) as [u|] eqn:Hl;
    [|apply digests_kept_refl].
  cbn [snd]. eapply digests_kept_save; [done|]. right.
  by destruct (p_role input), (p_isActive input).
Qed.

Lemma deleteUser_keeps id requesterId requesterRole w :
  digests_kept w (deleteUser id requesterId requesterRole w).2.
Proof.
  unfold deleteUser, cast_id, findByIdAndDelete.
  destruct (ObjectId_isValid id); [|apply digests_kept_refl]. cbn [negb].
  destruct (_ && _); [apply digests_kept_refl|].
  svc_unfold. destruct (users w !! ObjectId_hex id); cbn [snd];
    apply digests_kept_delete.
Qed.

(** Serving a request whose random token is fresh keeps the verification
    digests of distinct users distinct. *)
Theorem serve_keeps_digests_distinct (r : Request) (now : Time) (w : World) :
  verification_digests_distinct w →
  fresh_digest r w →
  verification_digests_distinct (serve r now w).
Proof.
  intros Hdist Hfresh.
  assert (Hkept : ∀ w', digests_kept w w' → verification_digests_distinct w')
    by (intros w' Hk; by eapply digests_kept_distinct).
  destruct r; simpl in *.
  - (* register *)
    unfold register.
    destruct (_ || _); [done|]. svc_unfold.
    destruct (first_match _ _); [done|].
    destruct (create_cases newId
      (mkUser (default "" (p_username input)) (default "" (p_email input))
         (bcrypt_hash salt (default "" (p_password input)))
         (default RoleUser (p_role input)) false true (p_refreshToken input)
         (Some (sha256 rawToken)) (Some (now + hours 24))
         (p_passwordResetToken input) (p_passwordResetExpires input)) w)
      as [(errors & ->) | [-> | (_ & _ & _ & ->)]]; [done..|].
    cbn [snd]. eapply digests_kept_distinct; [apply digests_kept_outbox|].
    by eapply distinct_save_fresh.
  - (* resendVerificationEmail *)
    unfold resendVerificationEmail. svc_unfold.
    destruct (first_match _ _) as [[id u]|]; [|done].
    destruct (isVerified u); [done|]. cbn [snd].
    eapply digests_kept_distinct; [apply digests_kept_outbox|].
    by eapply distinct_save_fresh.
  - apply Hkept, verifyEmail_keeps.
  - apply Hkept, login_keeps.
  - apply Hkept, forgotPassword_keeps.
  - apply Hkept, resetPassword_keeps.
  - by rewrite refresh_world.
  - apply Hkept, logout_keeps.
  - apply Hkept, updateProfile_keeps.
  - apply Hkept, adminUpdateUser_keeps.
  - apply Hkept, deleteUser_keeps.
Qed.

Theorem reachable_digests_distinct (w : World) :
  reachable w → verification_digests_distinct w.
Proof.
  induction 1 as [|w r now _ IH Hfresh].
  - intros id1 id2 u1 u2 h Hl1. simpl in Hl1. by rewrite lookup_empty in Hl1.
  - by apply serve_keeps_digests_distinct.
Qed.

(** In a reachable world a verification link works once, outright. *)
Theorem reachable_verifyEmail_once (w : World) (token : string) (now : Time)
    (id : ObjectId) (u : User) :
  reachable w →
  first_match (by_verification (sha256 token) now) (users w) = Some (id, u) →
  ∀ now', (verifyEmail token now' (verifyEmail token now w).2).1 =
          Throw (ApiErr (mkApiError "Invalid or expired token" 400)).
Proof.
  intros Hreach Hf now'.
  rewrite (verifyEmail_again _ _ _ _ _ Hf); [done|].
  intros id' v Hne Hl Hv.
  apply first_match_Some in Hf as [Hl0 Hq].
  apply by_verification_true in Hq as [Hu _].
  apply Hne. symmetry.
  by eapply (reachable_digests_distinct _ Hreach id id' u v).
Qed.

End Properties.

(** * The properties on the concrete platform *)

(** Alice's stored refresh token is exchanged for an access token. *)
Lemma refresh_outcomes_witness :
  @refresh Demo.jwt (Some Demo.alice_token) 2000 Demo.world =
    (Ok (mkRefreshResult "acc.65a000000000000000000001#2000#902000"),
     Demo.world).
Proof.
  destruct (@refresh_outcomes Demo.jwt (Some Demo.alice_token) 2000 Demo.world)
    as [_ Hpresent].
  destruct (Hpresent Demo.alice_token eq_refl ltac:(discriminate))
    as [_ Hdecoded].
  destruct (Hdecoded (mkDecoded Demo.alice_id 1000 86401000) eq_refl)
    as [_ Hfound].
  destruct (Hfound Demo.alice eq_refl) as (_ & _ & Hmatch).
  exact (Hmatch eq_refl eq_refl).
Defined.

(** The older token of Alice is refused and her document stays. *)
Lemma refresh_never_mutates_witness :
  @refresh Demo.jwt (Some Demo.stale_token) 2000 Demo.world =
    (Throw (ApiErr (mkApiError "Forbidden: Invalid Token" 403)), Demo.world)
  ∧ users (@refresh Demo.jwt (Some Demo.stale_token) 2000 Demo.world).2
      !! Demo.alice_id = Some Demo.alice.
Proof.
  exact (proj2 (@refresh_never_mutates Demo.jwt (Some Demo.stale_token) 2000
                  Demo.world)
           Demo.stale_token (mkDecoded Demo.alice_id 500 86400500) Demo.alice
           eq_refl ltac:(discriminate) eq_refl eq_refl eq_refl
           ltac:(discriminate)).
Defined.

(** C2 as stated fails: an older token of Alice is presented while a newer
    one is stored. The reuse is detected (403 "Forbidden: Invalid Token"),
    yet the stored refresh token is not cleared: it is still the newer
    one after the call. *)
Lemma refresh_reuse_keeps_token :
  (@refresh Demo.jwt (Some Demo.stale_token) 2000 Demo.world).1 =
    Throw (ApiErr (mkApiError "Forbidden: Invalid Token" 403))
  ∧ refreshToken <$> users Demo.world !! Demo.alice_id =
      Some (Some Demo.alice_token)
  ∧ ¬ (refreshToken <$>
         users (@refresh Demo.jwt (Some Demo.stale_token) 2000 Demo.world).2
           !! Demo.alice_id = Some None).
Proof. split; [reflexivity|]. split; [reflexivity|]. discriminate. Qed.

(** An unknown identifier and a wrong password get the same answer; Bob,
    not verified yet, is told so even with his password. *)
Lemma login_failures_witness :
  @login Demo.jwt Demo.hashing Demo.strings "nobody" "Pw1!aaaa" 5000 Demo.world =
    @login Demo.jwt Demo.hashing Demo.strings "alice" "wrong" 5000 Demo.world
  ∧ @login Demo.jwt Demo.hashing Demo.strings "bob" "Pw2!bbbb" 5000 Demo.world =
      (Throw (ApiErr (mkApiError "Please verify your email" 403)), Demo.world).
Proof.
  split.
  - destruct (@login_failures Demo.jwt Demo.hashing Demo.strings "alice" "wrong" 5000
                Demo.world) as (_ & _ & Hsame).
    apply (Hsame "nobody" "Pw1!aaaa" Demo.alice_id Demo.alice);
      [|reflexivity|reflexivity].
    intros id u Hl.
    assert (u = Demo.alice ∨ u = Demo.bob) as [-> | ->]; [|by split..].
    unfold Demo.world in Hl. simpl in Hl.
    destruct (decide (id = Demo.alice_id)) as [->|];
      [rewrite lookup_insert_eq in Hl; left; congruence|].
    rewrite lookup_insert_ne in Hl by done.
    destruct (decide (id = Demo.bob_id)) as [->|];
      [rewrite lookup_insert_eq in Hl; right; congruence|].
    rewrite lookup_insert_ne in Hl by done. by rewrite lookup_empty in Hl.
  - destruct (@login_failures Demo.jwt Demo.hashing Demo.strings "bob" "Pw2!bbbb" 5000
                Demo.world) as (_ & Hfound & _).
    destruct (Hfound Demo.bob_id Demo.bob eq_refl) as (_ & Hunverified & _).
    exact (Hunverified eq_refl eq_refl).
Defined.

(** Alice logs in at time 5000: the token of time 1000 is overwritten. *)
Lemma login_success_witness :
  @login Demo.jwt Demo.hashing Demo.strings "alice@x.com" "Pw1!aaaa" 5000 Demo.world =
    (Ok (mkLoginResult (mkSafeUser Demo.alice_id "alice" RoleUser)
           "acc.65a000000000000000000001#5000#905000"
           "ref.65a000000000000000000001#5000#86405000"),
     mkWorld
       (<[Demo.alice_id :=
            mkUser "alice" "alice@x.com" "$2b$10$s1$Pw1!aaaa" RoleUser true true
              (Some "ref.65a000000000000000000001#5000#86405000")
              None None None None]> (users Demo.world)) []).
Proof.
  exact (proj1 (@login_success Demo.jwt Demo.hashing Demo.strings "alice@x.com" "Pw1!aaaa"
                  5000 Demo.world Demo.alice_id Demo.alice
                  eq_refl eq_refl eq_refl eq_refl)).
Defined.

(** Bob verifies his address; the same link does not work twice. *)
Lemma verifyEmail_single_use_witness :
  (@verifyEmail Demo.hashing "rawB" 1000 Demo.world).1 =
    Ok "Email verified successfully"
  ∧ (@verifyEmail Demo.hashing "rawB" 2000
       (@verifyEmail Demo.hashing "rawB" 1000 Demo.world).2).1 =
      Throw (ApiErr (mkApiError "Invalid or expired token" 400)).
Proof.
  destruct (@verifyEmail_single_use Demo.hashing "rawB" 1000 Demo.world)
    as [_ Hfound].
  destruct (Hfound Demo.bob_id Demo.bob eq_refl) as [Hfirst Hsecond].
  rewrite Hfirst. split; [reflexivity|].
  cbn [snd]. rewrite (Hsecond ltac:(intros id' v Hne Hl;
    unfold Demo.world in Hl; simpl in Hl;
    destruct (decide (id' = Demo.alice_id)) as [->|];
      [rewrite lookup_insert_eq in Hl; injection Hl as <-; discriminate|];
    rewrite lookup_insert_ne in Hl by done;
    rewrite lookup_insert_ne in Hl by done;
    by rewrite lookup_empty in Hl) 2000).
  reflexivity.
Defined.



(** A request carrying Alice's access token passes the gate. *)
Lemma authProtect_outcomes_witness :
  @authProtect Demo.jwt
    (mkAuthRequest (Some "Bearer acc.65a000000000000000000001#2000#902000")
       None None None) 3000 Demo.world =
    (Ok (mkAuthRequest (Some "Bearer acc.65a000000000000000000001#2000#902000")
           None (Some Demo.alice_id) (Some RoleUser)), Demo.world).
Proof.
  destruct (@authProtect_outcomes Demo.jwt
              (mkAuthRequest
                 (Some "Bearer acc.65a000000000000000000001#2000#902000")
                 None None None) 3000 Demo.world) as [_ Hheader].
  destruct (Hheader _ eq_refl) as [_ Hbearer].
  destruct (Hbearer eq_refl _ eq_refl) as [_ Hdecoded].
  destruct (Hdecoded (mkDecoded Demo.alice_id 2000 902000) eq_refl)
    as [_ Hfound].
  destruct (Hfound Demo.alice eq_refl) as [_ Hactive].
  exact (Hactive eq_refl).
Defined.

(** Bob resets his password with the token mailed to him. *)
Lemma resetPassword_success_witness :
  @resetPassword Demo.hashing "resetB" "NewPw3!c" "s9" 1000 Demo.world =
    (Ok tt,
     mkWorld
       (<[Demo.bob_id :=
            mkUser "bob" "bob@x.com" "$2b$10$s9$NewPw3!c" RoleAdmin false true
              None (Some "sha256:rawB") (Some 86400000) None None]>
          (users Demo.world)) []).
Proof.
  exact (proj1 (@resetPassword_success Demo.jwt Demo.hashing "resetB" "NewPw3!c"
                  "s9" 1000 Demo.world Demo.bob_id Demo.bob eq_refl)).
Defined.

(** Alice, already verified, asks for the verification mail again:
    nothing happens, and nothing is reported. *)
Lemma anti_enumeration_witness :
  @resendVerificationEmail Demo.hashing Demo.strings "alice@x.com" "raw1" 1000 Demo.world =
    (Ok tt, Demo.world).
Proof.
  destruct (@anti_enumeration Demo.hashing Demo.strings "alice@x.com" "raw1" 1000 Demo.world)
    as (_ & _ & _ & Hverified & _).
  exact (Hverified Demo.alice_id Demo.alice eq_refl eq_refl).
Defined.

(** Alice tries to change her email address. *)
Lemma updateProfile_guards_witness :
  @updateProfile Demo.hashing Demo.bson Demo.strings Demo.alice_id
    (mkPartialUser None (Some "eve@x.com") None (Some RoleAdmin) None None
       None None None None None) "s3" Demo.world =
    (Throw (ApiErr (mkApiError "Email cannot be changed" 400)), Demo.world).
Proof.
  exact (proj1 (@updateProfile_guards Demo.hashing Demo.bson Demo.strings Demo.alice_id
                  (mkPartialUser None (Some "eve@x.com") None (Some RoleAdmin)
                     None None None None None None None)
                  "s3" Demo.world Demo.alice eq_refl eq_refl) eq_refl).
Defined.

(** Carol's world is reachable, and her verification link works once. *)
Lemma reachable_after_register :
  @reachable Demo.jwt Demo.hashing Demo.bson Demo.strings Demo.after_register.
Proof.
  apply reachable_serve; [apply reachable_empty|].
  intros id u Hl. simpl in Hl. by rewrite lookup_empty in Hl.
Qed.

Lemma reachable_verifyEmail_once_witness :
  (@verifyEmail Demo.hashing "rawC" 1000 Demo.after_register).1 =
    Ok "Email verified successfully"
  ∧ (@verifyEmail Demo.hashing "rawC" 2000
       (@verifyEmail Demo.hashing "rawC" 1000 Demo.after_register).2).1 =
      Throw (ApiErr (mkApiError "Invalid or expired token" 400)).
Proof.
  split; [reflexivity|].
  exact (@reachable_verifyEmail_once Demo.jwt Demo.hashing Demo.bson Demo.strings
           Demo.after_register "rawC" 1000 Demo.carol_id
           (mkUser "carol" "carol@x.com" "$2b$10$s3$Pw3!cccc" RoleUser
              false true None (Some "sha256:rawC") (Some 86400000) None None)
           reachable_after_register eq_refl 2000).
Defined.

(** The scenario of the specification, run on the model: register, verify,
    log in, refresh with the returned token, log out, refresh again. *)
Example end_to_end :
  let w1 := Demo.after_register in
  let w2 := (@verifyEmail Demo.hashing "rawC" 1000 w1).2 in
  let '(r3, w3) := @login Demo.jwt Demo.hashing Demo.strings "carol" "Pw3!cccc" 2000 w2 in
  let cookie := Some "ref.65a000000000000000000003#2000#86402000" in
  let r4 := (@refresh Demo.jwt cookie 3000 w3).1 in
  let w5 := (logout cookie w3).2 in
  let r6 := (@refresh Demo.jwt cookie 4000 w5).1 in
  (@login Demo.jwt Demo.hashing Demo.strings "carol" "Pw3!cccc" 500 w1).1 =
    Throw (ApiErr (mkApiError "Please verify your email" 403))
  ∧ r3 = Ok (mkLoginResult (mkSafeUser Demo.carol_id "carol" RoleUser)
               "acc.65a000000000000000000003#2000#902000"
               "ref.65a000000000000000000003#2000#86402000")
  ∧ r4 = Ok (mkRefreshResult "acc.65a000000000000000000003#3000#903000")
  ∧ r6 = Throw (ApiErr (mkApiError "Forbidden: Invalid Token" 403)).
Proof. vm_compute. repeat split. Qed.

(** The setters of the schema at work: Alice is found under her address
    written in capitals and between blanks, by [login] and by
    [forgotPassword], which mails the address as it was written. *)
Example any_spelling :
  (@login Demo.jwt Demo.hashing Demo.strings " ALICE@X.COM " "Pw1!aaaa" 5000
     Demo.world).1 =
    (@login Demo.jwt Demo.hashing Demo.strings "alice@x.com" "Pw1!aaaa" 5000
       Demo.world).1
  ∧ outbox (@forgotPassword Demo.hashing Demo.strings "Alice@X.com" "rawR"
              1000 Demo.world).2 =
      [mkMail PasswordResetEmail "Alice@X.com" "rawR"]
  ∧ (@login Demo.jwt Demo.hashing Demo.strings "Alice" "Pw1!aaaa" 5000
       Demo.world).1 =
      Throw (ApiErr (mkApiError "Invalid credentials" 401)).
Proof. by vm_compute. Qed.

(** * Further properties of the service *)

Lemma first_match_unique q (m : gmap ObjectId User) id u :
  m !! id = Some u → q id u = true →
  (∀ id' v, m !! id' = Some v → q id' v = true → id' = id) →
  first_match q m = Some (id, u).
Proof.
  intros Hl Hq Honly.
  destruct (first_match q m) as [[id' v]|] eqn:Hf.
  - apply first_match_Some in Hf as [Hl' Hq'].
    assert (id' = id) as -> by by eapply Honly.
    congruence.
  - rewrite first_match_None in Hf. rewrite (Hf _ _ Hl) in Hq. discriminate.
Qed.

Lemma world_eta w : mkWorld (users w) (outbox w) = w.
Proof. by destruct w. Qed.

Section Coverage.
Context {jwt_lib : Jwt} {hash_lib : Hashing} {bson_lib : Bson}
  {js_lib : JsString}.

(** ** register *)

Lemma validate_username_nil v :
  validate_username v = [] ↔ v ≠ "" ∧ (2 ≤ js_length v ≤ 15)%nat.
Proof.
  unfold validate_username.
  destruct (String.eqb_spec v "") as [->|Hne].
  { split; [discriminate|]. by intros [? _]. }
  destruct (Nat.ltb_spec (js_length v) 2).
  { split; [discriminate|]. intros [_ ?]. lia. }
  destruct (Nat.ltb_spec 15 (js_length v)).
  { split; [discriminate|]. intros [_ ?]. lia. }
  split; [|done]. intros _. split; [done|lia].
Qed.

Lemma validate_email_nil v : validate_email v = [] ↔ v ≠ "".
Proof.
  unfold validate_email. destruct (String.eqb_spec v "") as [->|Hne].
  - split; [discriminate|done].
  - done.
Qed.

Lemma first_match_by_email_or_username_None addr name w :
  (∀ id u, users w !! id = Some u →
     email u ≠ cast_email addr ∧ username u ≠ cast_username name) →
  first_match (by_email_or_username addr name) (users w) = None.
Proof.
  intros Hfree. apply first_match_None. intros id u Hl.
  unfold by_email_or_username. apply orb_false_iff.
  destruct (Hfree _ _ Hl). by rewrite !String.eqb_neq.
Qed.

Lemma register_created input rawToken salt newId now w addr name pwd :
  p_email input = Some addr → addr ≠ "" →
  p_username input = Some name → name ≠ "" →
  p_password input = Some pwd → pwd ≠ "" →
  (∀ id u, users w !! id = Some u →
     email u ≠ cast_email addr ∧ username u ≠ cast_username name) →
  cast_email addr ≠ "" →
  cast_username name ≠ "" →
  (2 ≤ js_length (cast_username name) ≤ 15)%nat →
  users w !! newId = None →
  register input rawToken salt newId now w =
    (Ok (mkRegisterResult (cast_username name) (cast_email addr)),
     mkWorld
       (<[newId := mkUser (cast_username name) (cast_email addr)
                     (bcrypt_hash salt pwd)
                     (default RoleUser (p_role input)) false true
                     (p_refreshToken input)
                     (Some (sha256 rawToken)) (Some (now + 86400000))
                     (p_passwordResetToken input)
                     (p_passwordResetExpires input)]> (users w))
       (outbox w ++ [mkMail VerificationEmail addr rawToken])).
Proof.
  intros He Hne Hn Hnn Hp Hpn Hfree Hemail Hname Hlen Hid. unfold register.
  rewrite He, Hn, Hp, !truthy_of_Some by done. cbn [negb orb default].
  unfold bind at 1, findOne.
  rewrite first_match_by_email_or_username_None by done.
  unfold bind at 1, create. cbn [new_User username email].
  rewrite (proj2 (validate_username_nil _)) by done.
  rewrite (proj2 (validate_email_nil _)) by done.
  cbn [app]. by rewrite Hid.
Qed.

(** [register] refuses a body that lacks a non-empty email, username or
    password (400), and an email or a username that a user already has
    (409), the two values being compared as the schema stores them (email
    lower-cased and trimmed, username trimmed). Past these checks, an
    email or a username that fails a validator of the schema (nothing left
    after trimming, or a username shorter than 2 or longer than 15) makes
    [User.create] throw a [ValidationError], which [errorHandler] answers
    with status 400. None of these runs saves a document or sends a
    mail. *)
Theorem register_rejects (input : PartialUser) (rawToken salt : string)
    (newId : ObjectId) (now : Time) (w : World) :
  (truthy (p_email input) && truthy (p_username input)
     && truthy (p_password input) = false →
     register input rawToken salt newId now w =
       (Throw (ApiErr (mkApiError "Required fields missing" 400)), w))
  ∧ (∀ addr name,
     p_email input = Some addr → p_username input = Some name →
     truthy (p_email input) && truthy (p_username input)
       && truthy (p_password input) = true →
     ((∃ id u, users w !! id = Some u ∧
         (email u = cast_email addr ∨ username u = cast_username name)) →
        register input rawToken salt newId now w =
          (Throw (ApiErr (mkApiError "User already exists" 409)), w))
     ∧ ((∀ id u, users w !! id = Some u →
           email u ≠ cast_email addr ∧ username u ≠ cast_username name) →
        cast_email addr = "" ∨ cast_username name = ""
        ∨ (js_length (cast_username name) < 2)%nat
        ∨ (15 < js_length (cast_username name))%nat →
        ∃ errors,
          register input rawToken salt newId now w =
            (Throw (ValidationError errors), w)
          ∧ status (errorHandler (ValidationError errors)) = 400)).
Proof.
  split.
  - intros Hmiss. unfold register.
    destruct (truthy (p_email input)), (truthy (p_username input)),
      (truthy (p_password input)); try discriminate; reflexivity.
  - intros addr name He Hn Hall.
    apply andb_true_iff in Hall as [Hall Hp].
    apply andb_true_iff in Hall as [Het Hnt].
    unfold register. rewrite Het, Hnt, Hp, He, Hn. cbn [negb orb].
    change (default "" (Some addr)) with addr.
    change (default "" (Some name)) with name.
    split.
    + intros (id & u & Hl & Hsame). unfold bind at 1, findOne.
      destruct (first_match_is_Some
        (by_email_or_username addr name) (users w) id u Hl) as [[id' v] ->];
        [|done].
      unfold by_email_or_username. apply orb_true_iff.
      destruct Hsame as [-> | ->]; [left|right]; apply String.eqb_refl.
    + intros Hfree Hbad. unfold bind at 1, findOne.
      rewrite first_match_by_email_or_username_None by done.
      unfold bind at 1.
      match goal with |- context [create newId ?doc w] =>
        destruct (create_cases newId doc w)
          as [(errors & ->) | [Hdup | (_ & Hvn & Hve & _)]]
      end.
      * by exists errors.
      * exfalso. revert Hdup. unfold create. cbn [new_User username email].
        destruct (validate_username _ ++ validate_email _)%list eqn:Hv;
          [|discriminate].
        apply app_eq_nil in Hv as [Hvn Hve].
        apply validate_username_nil in Hvn as [? ?].
        apply validate_email_nil in Hve.
        destruct Hbad as [?|[?|[?|?]]]; [done|done|lia|lia].
      * exfalso. cbn [username email] in Hvn, Hve.
        apply validate_username_nil in Hvn as [? ?].
        apply validate_email_nil in Hve.
        destruct Hbad as [?|[?|[?|?]]]; [done|done|lia|lia].
Qed.

(** The account that [register] creates is unverified and active whatever
    the body says for [isVerified] and [isActive]; it stores the email
    lower-cased and trimmed, the username trimmed, the bcrypt hash of the
    password and the digest of the random token, never the two in clear;
    its role is the one in the body, [user] when the body has none. The
    raw token goes out in one mail to the address as the body gives it,
    the caller gets back the stored username and email only, and no
    existing document is touched. *)
Theorem register_creates (input : PartialUser) (rawToken salt : string)
    (newId : ObjectId) (now : Time) (w : World) (addr name pwd : string) :
  p_email input = Some addr → addr ≠ "" →
  p_username input = Some name → name ≠ "" →
  p_password input = Some pwd → pwd ≠ "" →
  (∀ id u, users w !! id = Some u →
     email u ≠ cast_email addr ∧ username u ≠ cast_username name) →
  cast_email addr ≠ "" →
  cast_username name ≠ "" →
  (2 ≤ js_length (cast_username name) ≤ 15)%nat →
  users w !! newId = None →
  ∃ u' w',
    register input rawToken salt newId now w =
      (Ok (mkRegisterResult (cast_username name) (cast_email addr)), w')
    ∧ users w' !! newId = Some u'
    ∧ username u' = cast_username name ∧ email u' = cast_email addr
    ∧ isVerified u' = false ∧ isActive u' = true
    ∧ role u' = default RoleUser (p_role input)
    ∧ password u' = bcrypt_hash salt pwd
    ∧ emailVerificationToken u' = Some (sha256 rawToken)
    ∧ emailVerificationExpires u' = Some (now + 86400000)
    ∧ outbox w' = (outbox w ++ [mkMail VerificationEmail addr rawToken])%list
    ∧ (∀ id, id ≠ newId → users w' !! id = users w !! id).
Proof.
  intros He Hne Hn Hnn Hp Hpn Hfree Hemail Hname Hlen Hid.
  eexists _, _.
  split; [by apply (register_created _ _ _ _ _ _ addr name pwd)|].
  cbn [users outbox]. rewrite lookup_insert_eq.
  repeat split.
  intros id Hneq. by rewrite lookup_insert_ne.
Qed.

(** ** The life of a verification token *)

Lemma verifyEmail_only_holder token now w id u :
  users w !! id = Some u →
  emailVerificationToken u = Some (sha256 token) →
  (∀ id' v, id' ≠ id → users w !! id' = Some v →
     emailVerificationToken v ≠ Some (sha256 token)) →
  (∀ e, emailVerificationExpires u = Some e → (now < e)%Z →
     verifyEmail token now w =
       (Ok "Email verified successfully",
        mkWorld
          (<[id := mkUser (username u) (email u) (password u) (role u) true
                     (isActive u) (refreshToken u) None None
                     (passwordResetToken u) (passwordResetExpires u)]>
             (users w))
          (outbox w)))
  ∧ (∀ e, emailVerificationExpires u = Some e → (e ≤ now)%Z →
     verifyEmail token now w =
       (Throw (ApiErr (mkApiError "Invalid or expired token" 400)), w)).
Proof.
  intros Hl Htok Honly. split.
  - intros e He Hlt. apply verifyEmail_found.
    apply first_match_unique; [done| |].
    + apply by_verification_true. eauto.
    + intros id' v Hl' Hq. apply by_verification_true in Hq as [Hv _].
      destruct (decide (id' = id)); [done|]. by destruct (Honly id' v).
  - intros e He Hle. apply verifyEmail_no_match. intros id' v Hl'.
    destruct (by_verification _ _ _ _) eqn:Hq; [|done].
    apply by_verification_true in Hq as (Hv & e' & He' & Hlt).
    destruct (decide (id' = id)) as [->|Hne].
    + assert (v = u) as -> by congruence.
      assert (e' = e) as -> by congruence. lia.
    + by destruct (Honly id' v).
Qed.

(** The token that [register] mails verifies the new account during 24
    hours and no longer: [verifyEmail] with it succeeds and marks that
    account verified at any time before [now + 24h], and throws "Invalid
    or expired token" (400), changing nothing, from that time on. The
    registration is one that succeeds (values present, not in use, within
    the bounds of the schema), and the digest of the token is taken to be
    in use by no other account, as for 32 random bytes. *)
Theorem register_then_verifyEmail (input : PartialUser)
    (rawToken salt : string) (newId : ObjectId) (now : Time) (w : World)
    (addr name pwd : string) :
  p_email input = Some addr → addr ≠ "" →
  p_username input = Some name → name ≠ "" →
  p_password input = Some pwd → pwd ≠ "" →
  (∀ id u, users w !! id = Some u →
     email u ≠ cast_email addr ∧ username u ≠ cast_username name) →
  cast_email addr ≠ "" →
  cast_username name ≠ "" →
  (2 ≤ js_length (cast_username name) ≤ 15)%nat →
  users w !! newId = None →
  (∀ id u, users w !! id = Some u →
     emailVerificationToken u ≠ Some (sha256 rawToken)) →
  let w' := (register input rawToken salt newId now w).2 in
  (∀ now', (now' < now + 86400000)%Z →
     ∃ u'' w'',
       verifyEmail rawToken now' w' = (Ok "Email verified successfully", w'')
       ∧ users w'' !! newId = Some u''
       ∧ isVerified u'' = true
       ∧ emailVerificationToken u'' = None
       ∧ emailVerificationExpires u'' = None)
  ∧ (∀ now', (now + 86400000 ≤ now')%Z →
     verifyEmail rawToken now' w' =
       (Throw (ApiErr (mkApiError "Invalid or expired token" 400)), w')).
Proof.
  intros He Hne Hn Hnn Hp Hpn Hfree Hemail Hname Hlen Hid Hfresh w'. subst w'.
  rewrite (register_created _ _ _ _ _ _ addr name pwd) by done. cbn [snd].
  match goal with |- context [<[newId := ?doc]> _] => set (u' := doc) end.
  match goal with |- context [mkWorld ?m ?ob] => set (w' := mkWorld m ob) end.
  assert (Hl : users w' !! newId = Some u') by apply lookup_insert_eq.
  assert (Honly : ∀ id' v, id' ≠ newId → users w' !! id' = Some v →
            emailVerificationToken v ≠ Some (sha256 rawToken)).
  { intros id' v Hneq Hl'. simpl in Hl'.
    rewrite lookup_insert_ne in Hl' by done. by eapply Hfresh. }
  destruct (verifyEmail_only_holder rawToken now w' newId u' Hl eq_refl Honly)
    as [_ Hlate].
  split.
  - intros now' Hlt.
    destruct (verifyEmail_only_holder rawToken now' w' newId u' Hl eq_refl
                Honly) as [Hin _].
    eexists _, _. split; [by apply (Hin (now + 86400000)%Z)|].
    cbn [users]. rewrite lookup_insert_eq. by repeat split.
  - intros now' Hle.
    destruct (verifyEmail_only_holder rawToken now' w' newId u' Hl eq_refl
                Honly) as [_ Hout].
    by apply (Hout (now + 86400000)%Z).
Qed.

(** From registration to the first session. After a registration that
    succeeds, [login] with the address of the registration and the
    password is refused with 403 "Please verify your email" until the
    mailed token has been presented to [verifyEmail]; after that it
    succeeds, for the account just created, and returns that account's
    id, stored username and role with tokens signed for that id. This
    needs [bcrypt.compare] to accept the password against its own hash,
    and no older account to have the address as its username, since
    [login] looks the identifier up among emails and usernames alike. *)
Theorem register_verify_login (input : PartialUser) (rawToken salt : string)
    (newId : ObjectId) (now now1 now2 : Time) (w : World)
    (addr name pwd : string) :
  p_email input = Some addr → addr ≠ "" →
  p_username input = Some name → name ≠ "" →
  p_password input = Some pwd → pwd ≠ "" →
  (∀ id u, users w !! id = Some u →
     email u ≠ cast_email addr ∧ username u ≠ cast_username name) →
  cast_email addr ≠ "" →
  cast_username name ≠ "" →
  (2 ≤ js_length (cast_username name) ≤ 15)%nat →
  users w !! newId = None →
  (∀ id u, users w !! id = Some u →
     emailVerificationToken u ≠ Some (sha256 rawToken)) →
  (∀ id u, users w !! id = Some u → username u ≠ cast_username addr) →
  bcrypt_compare pwd (bcrypt_hash salt pwd) = true →
  (now1 < now + 86400000)%Z →
  let w1 := (register input rawToken salt newId now w).2 in
  let w2 := (verifyEmail rawToken now1 w1).2 in
  login addr pwd now2 w1 =
    (Throw (ApiErr (mkApiError "Please verify your email" 403)), w1)
  ∧ ∃ w3,
      login addr pwd now2 w2 =
        (Ok (mkLoginResult
               (mkSafeUser newId (cast_username name)
                  (default RoleUser (p_role input)))
               (signAccessToken newId now2) (signRefreshToken newId now2)),
         w3).
Proof.
  intros He Hne Hn Hnn Hp Hpn Hfree Hemail Hname Hlen Hid Hfresh Hident Hpw
    Hlt w1 w2.
  subst w2 w1.
  rewrite (register_created _ _ _ _ _ _ addr name pwd) by done. cbn [snd].
  match goal with |- context [<[newId := ?doc]> _] => set (u1 := doc) end.
  match goal with |- context [mkWorld ?m ?ob] => set (w1 := mkWorld m ob) end.
  assert (Hl1 : users w1 !! newId = Some u1) by apply lookup_insert_eq.
  assert (Hother : ∀ id' v, id' ≠ newId → users w1 !! id' = Some v →
            users w !! id' = Some v).
  { intros id' v Hneq Hl'. cbn [w1 users] in Hl'.
    by rewrite lookup_insert_ne in Hl'. }
  assert (Hmine : ∀ (m : gmap ObjectId User) u,
            m !! newId = Some u → email u = cast_email addr →
            (∀ id' v, id' ≠ newId → m !! id' = Some v →
               users w !! id' = Some v) →
            first_match (by_identifier addr) m = Some (newId, u)).
  { intros m u Hl Hmail Hrest. apply first_match_unique; [done| |].
    - apply by_identifier_true. by left.
    - intros id' v Hl' Hq. destruct (decide (id' = newId)); [done|].
      apply by_identifier_true in Hq.
      pose proof (Hrest _ _ n Hl') as Hold.
      destruct (Hfree _ _ Hold) as [Hm _].
      destruct Hq as [Hq | Hq]; [done|]. by destruct (Hident _ _ Hold). }
  split.
  - rewrite (login_found _ _ _ _ newId u1) by by apply Hmine.
    cbn [u1 password isVerified]. by rewrite Hpw.
  - assert (Honly : ∀ id' v, id' ≠ newId → users w1 !! id' = Some v →
              emailVerificationToken v ≠ Some (sha256 rawToken)).
    { intros id' v Hneq Hl'. eapply Hfresh. by eapply Hother. }
    destruct (verifyEmail_only_holder rawToken now1 w1 newId u1 Hl1 eq_refl
                Honly) as [Hin _].
    rewrite (Hin (now + 86400000)%Z) by done. cbn [snd].
    match goal with |- context [<[newId := ?doc]> (users w1)] =>
      set (u2 := doc) end.
    rewrite (login_found _ _ _ _ newId u2).
    + cbn [u2 u1 password isVerified isActive username role]. rewrite Hpw.
      cbn [negb]. eauto.
    + apply Hmine; [apply lookup_insert_eq|done|].
      intros id' v Hneq Hl'. cbn [users] in Hl'.
      rewrite lookup_insert_ne in Hl' by done. by apply Hother.
Qed.

(** [resendVerificationEmail], for an unverified account, replaces the
    verification token: afterwards the token mailed before is refused
    (400) at any time, and the new one verifies the account during 24
    hours. Both digests are taken to be in use by no other account. *)
Theorem resend_replaces_token (addr rawToken oldToken : string)
    (now : Time) (w : World) (id : ObjectId) (u : User) :
  first_match (by_email addr) (users w) = Some (id, u) →
  isVerified u = false →
  emailVerificationToken u = Some (sha256 oldToken) →
  (∀ id' v, users w !! id' = Some v →
     emailVerificationToken v ≠ Some (sha256 rawToken)) →
  (∀ id' v, id' ≠ id → users w !! id' = Some v →
     emailVerificationToken v ≠ Some (sha256 oldToken)) →
  let w' := (resendVerificationEmail addr rawToken now w).2 in
  outbox w' = (outbox w ++ [mkMail VerificationEmail addr rawToken])%list
  ∧ (∀ now', verifyEmail oldToken now' w' =
       (Throw (ApiErr (mkApiError "Invalid or expired token" 400)), w'))
  ∧ (∀ now', (now' < now + 86400000)%Z →
     ∃ u'' w'',
       verifyEmail rawToken now' w' = (Ok "Email verified successfully", w'')
       ∧ users w'' !! id = Some u'' ∧ isVerified u'' = true).
Proof.
  intros Hf Hunv Hold Hfresh Honly w'. subst w'.
  unfold resendVerificationEmail. svc_unfold. rewrite Hf, Hunv. cbn [snd].
  apply first_match_Some in Hf as [Hl _].
  match goal with |- context [<[id := ?doc]> _] => set (u' := doc) end.
  match goal with |- context [mkWorld ?m ?ob] => set (w' := mkWorld m ob) end.
  assert (Hl' : users w' !! id = Some u') by apply lookup_insert_eq.
  assert (Hdiff : sha256 oldToken ≠ sha256 rawToken).
  { intros Heq. apply (Hfresh _ _ Hl). by rewrite Hold, Heq. }
  split; [done|]. split.
  - intros now'. apply verifyEmail_no_match. intros id' v Hlv.
    destruct (by_verification _ _ _ _) eqn:Hq; [|done].
    apply by_verification_true in Hq as [Hv _]. exfalso.
    simpl in Hlv. destruct (decide (id' = id)) as [->|Hne].
    + rewrite lookup_insert_eq in Hlv. injection Hlv as <-.
      simpl in Hv. congruence.
    + rewrite lookup_insert_ne in Hlv by done. by eapply Honly.
  - intros now' Hlt.
    assert (Honly' : ∀ id' v, id' ≠ id → users w' !! id' = Some v →
              emailVerificationToken v ≠ Some (sha256 rawToken)).
    { intros id' v Hneq Hlv. simpl in Hlv.
      rewrite lookup_insert_ne in Hlv by done. by eapply Hfresh. }
    destruct (verifyEmail_only_holder rawToken now' w' id u' Hl' eq_refl
                Honly') as [Hin _].
    eexists _, _. split; [by apply (Hin (now + 86400000)%Z)|].
    cbn [users]. rewrite lookup_insert_eq. by split.
Qed.

(** ** The life of a reset token *)

Lemma resetPassword_found token newPassword salt now w id u :
  first_match (by_reset (sha256 token) now) (users w) = Some (id, u) →
  resetPassword token newPassword salt now w =
    (Ok tt,
     mkWorld
       (<[id := mkUser (username u) (email u) (bcrypt_hash salt newPassword)
                  (role u) (isVerified u) (isActive u) (refreshToken u)
                  (emailVerificationToken u) (emailVerificationExpires u)
                  None None]> (users w))
       (outbox w)).
Proof. intros Hf. unfold resetPassword. svc_unfold. by rewrite Hf. Qed.

(** [forgotPassword], for an address that a user has, stores the digest of
    the random token with an expiry one hour ahead and mails the raw
    token. With it [resetPassword] sets the new password hash at any time
    before [now + 1h], once: a second use is refused, and so is a first
    use from [now + 1h] on ("Invalid or expired token", 400, nothing
    changed). The digest is taken to be in use by no other account. *)
Theorem forgot_then_reset (addr rawToken newPassword salt : string)
    (now : Time) (w : World) (id : ObjectId) (u : User) :
  first_match (by_email addr) (users w) = Some (id, u) →
  (∀ id' v, users w !! id' = Some v →
     passwordResetToken v ≠ Some (sha256 rawToken)) →
  let w' := (forgotPassword addr rawToken now w).2 in
  outbox w' = (outbox w ++ [mkMail PasswordResetEmail addr rawToken])%list
  ∧ (∀ now', (now' < now + 3600000)%Z →
     ∃ u'' w'',
       resetPassword rawToken newPassword salt now' w' = (Ok tt, w'')
       ∧ users w'' !! id = Some u''
       ∧ password u'' = bcrypt_hash salt newPassword
       ∧ passwordResetToken u'' = None ∧ passwordResetExpires u'' = None
       ∧ ∀ again salt' now'',
           resetPassword rawToken again salt' now'' w'' =
             (Throw (ApiErr (mkApiError "Invalid or expired token" 400)), w''))
  ∧ (∀ now', (now + 3600000 ≤ now')%Z →
     resetPassword rawToken newPassword salt now' w' =
       (Throw (ApiErr (mkApiError "Invalid or expired token" 400)), w')).
Proof.
  intros Hf Hfresh w'. subst w'.
  unfold forgotPassword. svc_unfold. rewrite Hf. cbn [snd].
  apply first_match_Some in Hf as [Hl _].
  match goal with |- context [<[id := ?doc]> _] => set (u' := doc) end.
  match goal with |- context [mkWorld ?m ?ob] => set (w' := mkWorld m ob) end.
  assert (Hl' : users w' !! id = Some u') by apply lookup_insert_eq.
  assert (Hothers : ∀ id' v, id' ≠ id → users w' !! id' = Some v →
            passwordResetToken v ≠ Some (sha256 rawToken)).
  { intros id' v Hneq Hlv. simpl in Hlv.
    rewrite lookup_insert_ne in Hlv by done. by eapply Hfresh. }
  split; [done|]. split.
  - intros now' Hlt.
    assert (Hfound : first_match (by_reset (sha256 rawToken) now') (users w')
                     = Some (id, u')).
    { apply first_match_unique; [done| |].
      - apply by_reset_true. split; [done|]. exists (now + 3600000)%Z. by split.
      - intros id' v Hlv Hq. apply by_reset_true in Hq as [Hv _].
        destruct (decide (id' = id)); [done|]. by destruct (Hothers id' v). }
    eexists _, _.
    split; [by apply resetPassword_found|].
    cbn [users]. rewrite lookup_insert_eq. repeat split.
    intros again salt' now''. apply resetPassword_no_match.
    intros id' v Hlv.
    destruct (by_reset _ _ _ _) eqn:Hq; [|done].
    apply by_reset_true in Hq as [Hv _]. exfalso.
    cbn [users] in Hlv. destruct (decide (id' = id)) as [->|Hne].
    + rewrite lookup_insert_eq in Hlv. by injection Hlv as <-.
    + rewrite lookup_insert_ne in Hlv by done. by destruct (Hothers id' v).
  - intros now' Hle. apply resetPassword_no_match. intros id' v Hlv.
    destruct (by_reset _ _ _ _) eqn:Hq; [|done].
    apply by_reset_true in Hq as (Hv & e & He & Hlt). exfalso.
    destruct (decide (id' = id)) as [->|Hne].
    + assert (v = u') as -> by congruence.
      simpl in He. injection He as <-. unfold hours in Hlt. lia.
    + by destruct (Hothers id' v).
Qed.

(** ** login, then refresh *)

(** The refresh token that [login] returns is accepted by [refresh] for as
    long as [jsonwebtoken] verifies it and decodes the user's id from it:
    [refresh] then returns an access token signed for the same user and
    leaves the world as [login] left it. *)
Theorem login_then_refresh (identifier pwd : string) (now now' : Time)
    (w : World) (id : ObjectId) (u : User) (d : DecodedToken) :
  first_match (by_identifier identifier) (users w) = Some (id, u) →
  bcrypt_compare pwd (password u) = true →
  isVerified u = true → isActive u = true →
  signRefreshToken id now ≠ "" →
  jwt_verify (signRefreshToken id now) REFRESH_TOKEN_SECRET now' = Some d →
  userId d = id →
  ∃ r w',
    login identifier pwd now w = (Ok r, w')
    ∧ refresh (Some (refreshTkn r)) now' w' =
        (Ok (mkRefreshResult (signAccessToken id now')), w').
Proof.
  intros Hf Hpw Hver Hact Hne Hv Hid.
  rewrite (login_found _ _ _ _ _ _ Hf), Hpw, Hver, Hact. cbn [negb].
  eexists _, _. split; [reflexivity|]. cbn [refreshTkn].
  rewrite (refresh_decoded _ _ _ _ Hne Hv), Hid. cbn [users].
  rewrite lookup_insert_eq. cbn [isActive set_refreshToken refreshToken].
  rewrite Hact. cbn [negb].
  by rewrite bool_decide_eq_false_2 by (intros Hx; by apply Hx).
Qed.

(** ** Disabled and deleted accounts *)

Lemma authProtect_world req now w : (authProtect req now w).2 = w.
Proof.
  unfold authProtect. destruct (authHeader req) as [header|]; [|done].
  destruct (String.prefix "Bearer " header); [|done]. cbn [negb].
  unfold try_catch_throw. rewrite authProtect_try_eq.
  destruct (jwt_verify _ _ _) as [d|]; [|done].
  destruct (users w !! userId d) as [u|]; [|done].
  by destruct (isActive u).
Qed.

Lemma authProtect_Ok req now w req' w' :
  authProtect req now w = (Ok req', w') →
  w' = w ∧
  ∃ header d u,
    authHeader req = Some header
    ∧ String.prefix "Bearer " header = true
    ∧ jwt_verify (nth 1 (split " " header) "") ACCESS_TOKEN_SECRET now = Some d
    ∧ users w !! userId d = Some u ∧ isActive u = true
    ∧ req' = mkAuthRequest (hdr_authorization req) (hdr_Authorization req)
               (Some (userId d)) (Some (role u)).
Proof.
  intros Hrun. split.
  { pose proof (authProtect_world req now w) as Hw. by rewrite Hrun in Hw. }
  unfold authProtect in Hrun.
  destruct (authHeader req) as [header|]; [|discriminate].
  destruct (String.prefix "Bearer " header) eqn:Hp; [|discriminate].
  cbn [negb] in Hrun. unfold try_catch_throw in Hrun.
  rewrite authProtect_try_eq in Hrun.
  destruct (jwt_verify _ _ _) as [d|] eqn:Hv; [|discriminate].
  destruct (users w !! userId d) as [u|] eqn:Hl; [|discriminate].
  destruct (isActive u) eqn:Hact; [|discriminate].
  cbn [negb] in Hrun. injection Hrun as <- _.
  exists header, d, u. by repeat split.
Qed.

Lemma authProtect_rejects_unless req now w :
  (∀ header d u,
     authHeader req = Some header →
     jwt_verify (nth 1 (split " " header) "") ACCESS_TOKEN_SECRET now = Some d →
     users w !! userId d = Some u → isActive u = false) →
  ∃ e, authProtect req now w = (Throw (ApiErr e), w)
       ∧ (statusCode e = 401 ∨ statusCode e = 403).
Proof.
  intros Hno. unfold authProtect.
  destruct (authHeader req) as [header|] eqn:Hh; [|eauto].
  destruct (String.prefix "Bearer " header); [|eauto]. cbn [negb].
  unfold try_catch_throw. rewrite authProtect_try_eq.
  destruct (jwt_verify _ _ _) as [d|] eqn:Hv; [|eauto].
  destruct (users w !! userId d) as [u|] eqn:Hl; [|eauto].
  rewrite (Hno _ _ _ eq_refl Hv Hl). eauto.
Qed.

(** A disabled account is locked out everywhere: with [isActive] false, no
    [login] that finds the user succeeds, [refresh] answers 401 to every
    cookie that names the user, and [authProtect] rejects every request
    whose access token names the user, however valid the tokens are.
    Nothing is written on the way. *)
Theorem disabled_account_locked_out (w : World) (id : ObjectId) (u : User) :
  users w !! id = Some u → isActive u = false →
  (∀ identifier pwd now,
     first_match (by_identifier identifier) (users w) = Some (id, u) →
     ∃ e, login identifier pwd now w = (Throw (ApiErr e), w)
          ∧ (statusCode e = 401 ∨ statusCode e = 403))
  ∧ (∀ cookie now d,
     jwt_verify (default "" cookie) REFRESH_TOKEN_SECRET now = Some d →
     userId d = id →
     refresh cookie now w =
       (Throw (ApiErr (mkApiError "Unauthorized" 401)), w))
  ∧ (∀ req now header d,
     authHeader req = Some header →
     jwt_verify (nth 1 (split " " header) "") ACCESS_TOKEN_SECRET now = Some d →
     userId d = id →
     ∃ e, authProtect req now w = (Throw (ApiErr e), w)
          ∧ (statusCode e = 401 ∨ statusCode e = 403)).
Proof.
  intros Hl Hoff. split; [|split].
  - intros identifier pwd now Hf. rewrite (login_found _ _ _ _ _ _ Hf), Hoff.
    destruct (bcrypt_compare pwd (password u)); cbn [negb]; [|eauto].
    destruct (isVerified u); cbn [negb]; eauto.
  - intros cookie now d Hv Hid.
    destruct (truthy cookie) eqn:Ht; [|by apply refresh_absent].
    apply truthy_Some in Ht as (tok & -> & Hne). simpl in Hv.
    by rewrite (refresh_decoded _ _ _ _ Hne Hv), Hid, Hl, Hoff.
  - intros req now header d Hh Hv Hid.
    apply authProtect_rejects_unless. intros header' d' u' Hh' Hv' Hl'.
    assert (header' = header) as -> by congruence.
    assert (d' = d) as -> by congruence.
    rewrite Hid, Hl in Hl'. by injection Hl' as <-.
Qed.

Lemma adminUpdateUser_cases targetUserId input adminId w r w' :
  adminUpdateUser targetUserId input adminId w = (r, w') →
  (w' = w ∧ ∃ e, r = Throw e)
  ∨ (keys_not_allowed input = []
     ∧ ∃ adm tgt,
         users w !! adminId = Some adm ∧ role adm = RoleAdmin
         ∧ ¬ (targetUserId = adminId ∧ p_role input = Some RoleUser)
         ∧ ObjectId_isValid targetUserId = true
         ∧ users w !! ObjectId_hex targetUserId = Some tgt
         ∧ r = Ok (public (ObjectId_hex targetUserId)
                     (apply_role_isActive input tgt))
         ∧ w' = mkWorld
                  (<[ObjectId_hex targetUserId :=
                       apply_role_isActive input tgt]> (users w))
                  (outbox w)).
Proof.
  unfold adminUpdateUser. intros Hrun.
  destruct (keys_not_allowed input) eqn:Hkeys.
  2: { injection Hrun as <- <-. left. eauto. }
  unfold bind at 1, findById in Hrun.
  destruct (users w !! adminId) as [adm|] eqn:Hadm.
  2: { injection Hrun as <- <-. left. eauto. }
  case_bool_decide as Hrole.
  { injection Hrun as <- <-. left. eauto. }
  destruct (String.eqb targetUserId adminId
            && bool_decide (p_role input = Some RoleUser)) eqn:Hself.
  { injection Hrun as <- <-. left. eauto. }
  unfold bind, cast_id, findByIdAndUpdate, ret, throw, throw_lib in Hrun.
  destruct (ObjectId_isValid targetUserId) eqn:Hvalid.
  2: { injection Hrun as <- <-. left. eauto. }
  destruct (users w !! ObjectId_hex targetUserId) as [tgt|] eqn:Htgt.
  2: { injection Hrun as <- <-. left. eauto. }
  injection Hrun as <- <-. right. split; [done|].
  exists adm, tgt.
  split; [done|]. split.
  { destruct (decide (role adm = RoleAdmin)); [done|by destruct Hrole]. }
  split; [|done].
  intros [Heq Hdemote]. apply andb_false_iff in Hself as [Hs|Hs].
  - by apply String.eqb_neq in Hs.
  - by apply bool_decide_eq_false in Hs.
Qed.

(** An admin update that carries [isActive: false] and succeeds is a ban:
    it was issued by a user with the admin role, the target's document
    now has [isActive] false, and from then on [refresh] answers 401 to
    every cookie that names the target and [authProtect] rejects every
    access token that names it. *)
Theorem admin_ban (targetUserId : string) (adminId : ObjectId)
    (input : PartialUser) (w w' : World) (r : PublicUser) :
  adminUpdateUser targetUserId input adminId w = (Ok r, w') →
  p_isActive input = Some false →
  let target := ObjectId_hex targetUserId in
  (∃ adm, users w !! adminId = Some adm ∧ role adm = RoleAdmin)
  ∧ pu_isActive r = false
  ∧ (∃ u', users w' !! target = Some u' ∧ isActive u' = false)
  ∧ (∀ cookie now d,
     jwt_verify (default "" cookie) REFRESH_TOKEN_SECRET now = Some d →
     userId d = target →
     refresh cookie now w' =
       (Throw (ApiErr (mkApiError "Unauthorized" 401)), w'))
  ∧ (∀ req now header d,
     authHeader req = Some header →
     jwt_verify (nth 1 (split " " header) "") ACCESS_TOKEN_SECRET now = Some d →
     userId d = target →
     ∃ e, authProtect req now w' = (Throw (ApiErr e), w')).
Proof.
  intros Hrun Hban target.
  apply adminUpdateUser_cases in Hrun
    as [[_ [e [=]]]
       | (_ & adm & tgt & Hadm & Hrole & _ & _ & Htgt & [= ->] & ->)].
  fold target.
  assert (Hoff : isActive (apply_role_isActive input tgt) = false).
  { unfold apply_role_isActive. by rewrite Hban. }
  split; [eauto|]. split; [done|].
  assert (Hl : users (mkWorld (<[target := apply_role_isActive input tgt]>
                 (users w)) (outbox w)) !! target
               = Some (apply_role_isActive input tgt))
    by apply lookup_insert_eq.
  split; [eauto|]. split.
  - intros cookie now d Hv Hid.
    destruct (truthy cookie) eqn:Ht; [|by apply refresh_absent].
    apply truthy_Some in Ht as (tok & -> & Hne). simpl in Hv.
    by rewrite (refresh_decoded _ _ _ _ Hne Hv), Hid, Hl, Hoff.
  - intros req now header d Hh Hv Hid.
    destruct (authProtect_rejects_unless req now
      (mkWorld (<[target := apply_role_isActive input tgt]> (users w))
         (outbox w))) as (e & He & _); [|eauto].
    intros header' d' u' Hh' Hv' Hl'.
    assert (header' = header) as -> by congruence.
    assert (d' = d) as -> by congruence.
    rewrite Hid, Hl in Hl'. by injection Hl' as <-.
Qed.

Lemma deleteUser_cases id requesterId requesterRole w r w' :
  deleteUser id requesterId requesterRole w = (r, w') →
  (w' = w ∧ ∃ e, r = Throw (ApiErr e))
  ∨ (ObjectId_isValid id = true
     ∧ (requesterId = id ∨ requesterRole = RoleAdmin)
     ∧ ∃ u, users w !! ObjectId_hex id = Some u
            ∧ r = Ok (view (ObjectId_hex id) u)
            ∧ w' = mkWorld (delete (ObjectId_hex id) (users w)) (outbox w)).
Proof.
  unfold deleteUser, cast_id. intros Hrun.
  destruct (ObjectId_isValid id) eqn:Hvalid; cbn [negb] in Hrun.
  2: { injection Hrun as <- <-. left. eauto. }
  destruct (negb (String.eqb requesterId id)
            && negb (bool_decide (requesterRole = RoleAdmin))) eqn:Hperm.
  { injection Hrun as <- <-. left. eauto. }
  unfold bind, findByIdAndDelete, ret, throw in Hrun.
  destruct (users w !! ObjectId_hex id) as [u|] eqn:Hl.
  - injection Hrun as <- <-. right. split; [done|]. split; [|eauto].
    apply andb_false_iff in Hperm as [Hp|Hp]; apply negb_false_iff in Hp.
    + left. by apply String.eqb_eq.
    + right. by apply bool_decide_eq_true in Hp.
  - injection Hrun as <- <-. left. split; [|eauto].
    rewrite delete_id by done. apply world_eta.
Qed.

(** After [deleteUser] has succeeded the account is gone and so are its
    sessions: no document has the id, [refresh] answers 401 to every
    cookie that names it, [authProtect] rejects every access token that
    names it, and every other document is as it was. The call succeeds
    only when the requester's id is the id given, letter for letter, or
    the requester has the admin role. *)
Theorem deleted_account_locked_out (id : string) (requesterId : ObjectId)
    (requesterRole : Role) (w w' : World) (r : UserView) :
  deleteUser id requesterId requesterRole w = (Ok r, w') →
  let deleted := ObjectId_hex id in
  (requesterId = id ∨ requesterRole = RoleAdmin)
  ∧ users w' !! deleted = None
  ∧ (∀ id', id' ≠ deleted → users w' !! id' = users w !! id')
  ∧ (∀ cookie now d,
     jwt_verify (default "" cookie) REFRESH_TOKEN_SECRET now = Some d →
     userId d = deleted →
     refresh cookie now w' =
       (Throw (ApiErr (mkApiError "Unauthorized" 401)), w'))
  ∧ (∀ req now header d,
     authHeader req = Some header →
     jwt_verify (nth 1 (split " " header) "") ACCESS_TOKEN_SECRET now = Some d →
     userId d = deleted →
     ∃ e, authProtect req now w' = (Throw (ApiErr e), w')).
Proof.
  intros Hrun deleted.
  apply deleteUser_cases in Hrun
    as [[_ [e [=]]] | (_ & Hperm & u & Hl & _ & ->)].
  fold deleted in Hl |- *.
  split; [done|]. split; [apply lookup_delete_eq|]. split.
  { intros id' Hne. cbn [users]. by rewrite lookup_delete_ne. }
  split.
  - intros cookie now d Hv Hid.
    destruct (truthy cookie) eqn:Ht; [|by apply refresh_absent].
    apply truthy_Some in Ht as (tok & -> & Hne). simpl in Hv.
    rewrite (refresh_decoded _ _ _ _ Hne Hv), Hid. cbn [users].
    by rewrite lookup_delete_eq.
  - intros req now header d Hh Hv Hid.
    destruct (authProtect_rejects_unless req now
      (mkWorld (delete deleted (users w)) (outbox w))) as (e & He & _);
      [|eauto].
    intros header' d' u' Hh' Hv' Hl'.
    assert (d' = d) as -> by congruence.
    rewrite Hid in Hl'. cbn [users] in Hl'.
    by rewrite lookup_delete_eq in Hl'.
Qed.

(** ** The routes of routes/userRoutes.ts *)

Lemma authProtect_Throw req now w err w0 :
  authProtect req now w = (Throw err, w0) →
  w0 = w ∧ ∃ e, err = ApiErr e.
Proof.
  intros Hrun. split.
  { pose proof (authProtect_world req now w) as Hw. by rewrite Hrun in Hw. }
  unfold authProtect in Hrun.
  destruct (authHeader req) as [header|]; [|injection Hrun as <- _; eauto].
  destruct (String.prefix "Bearer " header);
    [|injection Hrun as <- _; eauto].
  cbn [negb] in Hrun. unfold try_catch_throw in Hrun.
  destruct (authProtect_try _ _ _ _) as [[?|?] ?];
    [discriminate|injection Hrun as <- _; eauto].
Qed.

(** What runs behind [authProtect] runs for an active user that the token
    names, on a world that [authProtect] has not changed. *)
Lemma bind_authProtect {A} req now (k : AuthRequest → Svc A) w r w' :
  bind (authProtect req now) k w = (r, w') →
  (w' = w ∧ ∃ e, r = Throw (ApiErr e))
  ∨ ∃ header d u,
      authHeader req = Some header
      ∧ String.prefix "Bearer " header = true
      ∧ jwt_verify (nth 1 (split " " header) "") ACCESS_TOKEN_SECRET now
        = Some d
      ∧ users w !! userId d = Some u ∧ isActive u = true
      ∧ k (mkAuthRequest (hdr_authorization req) (hdr_Authorization req)
             (Some (userId d)) (Some (role u))) w = (r, w').
Proof.
  unfold bind. intros Hrun.
  destruct (authProtect req now w) as [[req'|err] w0] eqn:Hauth.
  - apply authProtect_Ok in Hauth
      as (-> & header & d & u & Hh & Hp & Hv & Hl & Hact & ->).
    right. exists header, d, u. by repeat split.
  - apply authProtect_Throw in Hauth as (-> & e & ->).
    injection Hrun as <- <-. left. eauto.
Qed.

(** [DELETE /users/:id] removes a document only on behalf of an active
    user that the bearer token names, whose id is [:id] letter for letter
    or who has the admin role; the document removed is the one that [:id]
    denotes, and in every other run the world is left as it was. *)
Theorem delete_id_authorized (req : AuthRequest) (params_id : option string)
    (now : Time) (w w' : World) (r : Result (Reply UserView)) :
  UserRoutes.delete_id req params_id now w = (r, w') →
  w' = w
  ∨ ∃ header d requester id target,
      authHeader req = Some header
      ∧ jwt_verify (nth 1 (split " " header) "") ACCESS_TOKEN_SECRET now
        = Some d
      ∧ users w !! userId d = Some requester ∧ isActive requester = true
      ∧ params_id = Some id
      ∧ (userId d = id ∨ role requester = RoleAdmin)
      ∧ users w !! ObjectId_hex id = Some target
      ∧ w' = mkWorld (delete (ObjectId_hex id) (users w)) (outbox w).
Proof.
  unfold UserRoutes.delete_id. intros Hrun.
  apply bind_authProtect in Hrun
    as [[-> _] | (header & d & requester & Hh & _ & Hv & Hl & Hact & Hrun)];
    [by left|].
  unfold UserController.deleteUser in Hrun. cbn [req_userId req_userRole] in Hrun.
  destruct (truthy params_id) eqn:Hid; cbn [negb] in Hrun;
    [|injection Hrun as _ <-; by left].
  apply truthy_Some in Hid as (id & -> & _).
  destruct (negb (truthy (Some (userId d)))); [injection Hrun as _ <-; by left|].
  unfold bind in Hrun.
  destruct (deleteUser _ _ _ w) as [res w0] eqn:Hdel.
  apply deleteUser_cases in Hdel
    as [[-> [e ->]] | (_ & Hperm & target & Htgt & -> & ->)].
  - injection Hrun as _ <-. by left.
  - injection Hrun as _ <-. right.
    exists header, d, requester, id, target. by repeat split.
Qed.

(** [PATCH /users/:id/admin] changes the collection only on behalf of an
    active user with the admin role that the bearer token names; what it
    changes is [role] and [isActive] of the document that [:id] denotes,
    as the body says, with a body that has no other key. *)
Theorem patch_id_admin_authorized (req : AuthRequest)
    (params_id : option string) (body : PartialUser) (now : Time)
    (w w' : World) (r : Result (Reply PublicUser)) :
  UserRoutes.patch_id_admin req params_id body now w = (r, w') →
  w' = w
  ∨ ∃ header d admin id target,
      authHeader req = Some header
      ∧ jwt_verify (nth 1 (split " " header) "") ACCESS_TOKEN_SECRET now
        = Some d
      ∧ users w !! userId d = Some admin
      ∧ isActive admin = true ∧ role admin = RoleAdmin
      ∧ params_id = Some id
      ∧ keys_not_allowed body = []
      ∧ users w !! ObjectId_hex id = Some target
      ∧ w' = mkWorld
               (<[ObjectId_hex id := apply_role_isActive body target]>
                  (users w))
               (outbox w).
Proof.
  unfold UserRoutes.patch_id_admin. intros Hrun.
  apply bind_authProtect in Hrun
    as [[-> _] | (header & d & admin & Hh & _ & Hv & Hl & Hact & Hrun)];
    [by left|].
  unfold bind at 1, restrictTo in Hrun. cbn [req_userRole] in Hrun.
  case_bool_decide as Hrole; cbn [negb] in Hrun;
    [|injection Hrun as _ <-; by left].
  apply list_elem_of_singleton in Hrole.
  unfold ret in Hrun.
  unfold UserController.adminUpdateUser in Hrun. cbn [req_userId] in Hrun.
  destruct (truthy params_id) eqn:Hid; cbn [negb orb] in Hrun;
    [|injection Hrun as _ <-; by left].
  apply truthy_Some in Hid as (id & -> & _).
  destruct (negb (truthy (Some (userId d)))); [injection Hrun as _ <-; by left|].
  unfold bind in Hrun.
  destruct (adminUpdateUser _ _ _ w) as [res w0] eqn:Hupd.
  apply adminUpdateUser_cases in Hupd
    as [[-> [e ->]] | (Hkeys & adm & tgt & _ & _ & _ & _ & Htgt & -> & ->)].
  - injection Hrun as _ <-. by left.
  - injection Hrun as _ <-. right.
    exists header, d, admin, id, tgt. by repeat split.
Qed.

Lemma validate_modified_Ok old new w r w0 :
  validate_modified old new w = (Ok r, w0) →
  username new = username old ∨ validate_username (username new) = [].
Proof.
  unfold validate_modified.
  destruct (String.eqb_spec (username new) (username old)); [by left|].
  destruct (validate_username (username new)); [by right|discriminate].
Qed.

Lemma updateProfile_cases id input salt w r w' :
  updateProfile id input salt w = (r, w') →
  (w' = w ∧ ∃ e, r = Throw e)
  ∨ ∃ u u', users w !! id = Some u
            ∧ same_but_username_password u u'
            ∧ (username u' = username u ∨ validate_username (username u') = [])
            ∧ r = Ok (id, u')
            ∧ w' = mkWorld (<[id := u']> (users w)) (outbox w).
Proof.
  intros Hrun.
  destruct (ObjectId_isValid id) eqn:Hvalid.
  2: { unfold updateProfile in Hrun. rewrite Hvalid in Hrun.
       injection Hrun as <- <-. left. eauto. }
  destruct (users w !! id) as [u|] eqn:Hl.
  2: { unfold updateProfile in Hrun. rewrite Hvalid in Hrun.
       cbn [negb] in Hrun. unfold bind, findById in Hrun.
       rewrite Hl in Hrun. injection Hrun as <- <-. left. eauto. }
  destruct (has_key (p_email input)) eqn:He.
  { rewrite (updateProfile_email _ _ _ _ _ Hvalid Hl He) in Hrun.
    injection Hrun as <- <-. left. eauto. }
  destruct (has_key (p_role input) || has_key (p_isActive input)) eqn:Hr.
  { rewrite (updateProfile_role _ _ _ _ _ Hvalid Hl He Hr) in Hrun.
    injection Hrun as <- <-. left. eauto. }
  rewrite (updateProfile_allowed _ _ _ _ _ Hvalid Hl He Hr) in Hrun.
  destruct (truthy (p_username input)).
  - destruct (first_match _ _); [injection Hrun as <- <-; left; eauto|].
    destruct (validate_modified _ _ w) as [[[]|e] w0] eqn:Hval;
      injection Hrun as <- <-; [|left; eauto].
    right. eexists u, _. split; [done|]. split; [|split; [|done]].
    + by destruct (truthy (p_password input)).
    + by apply validate_modified_Ok in Hval.
  - destruct (validate_modified _ _ w) as [[[]|e] w0] eqn:Hval;
      injection Hrun as <- <-; [|left; eauto].
    right. eexists u, _. split; [done|]. split; [|split; [|done]].
    + by destruct (truthy (p_password input)).
    + by apply validate_modified_Ok in Hval.
Qed.

(** [PATCH /users/me] can change one document only: the one of the active
    user that the bearer token names, whatever the body and whatever the
    validation middlewares let through; and there it changes [username]
    and [password] at most. In every other run the world is left as it
    was, and no mail is sent in any. *)
Theorem patch_me_self_only (validate : PartialUser → Result PartialUser)
    (req : AuthRequest) (body : PartialUser) (salt : string) (now : Time)
    (w w' : World) (r : Result (Reply (ObjectId * User))) :
  UserRoutes.patch_me validate req body salt now w = (r, w') →
  w' = w
  ∨ ∃ header d u u',
      authHeader req = Some header
      ∧ jwt_verify (nth 1 (split " " header) "") ACCESS_TOKEN_SECRET now
        = Some d
      ∧ users w !! userId d = Some u ∧ isActive u = true
      ∧ same_but_username_password u u'
      ∧ w' = mkWorld (<[userId d := u']> (users w)) (outbox w).
Proof.
  unfold UserRoutes.patch_me. intros Hrun.
  apply bind_authProtect in Hrun
    as [[-> _] | (header & d & u & Hh & _ & Hv & Hl & Hact & Hrun)];
    [by left|].
  destruct (validate body) as [body'|err]; [|injection Hrun as _ <-; by left].
  unfold UserController.updateProfile in Hrun. cbn [req_userId] in Hrun.
  destruct (truthy (Some (userId d))); cbn [negb] in Hrun;
    [|injection Hrun as _ <-; by left].
  unfold bind in Hrun. simpl default in Hrun.
  destruct (updateProfile _ _ _ w) as [res w0] eqn:Hupd.
  apply updateProfile_cases in Hupd
    as [[-> [e ->]] | (u0 & u' & Hl0 & Hsame & _ & -> & ->)].
  - injection Hrun as _ <-. by left.
  - injection Hrun as _ <-. right.
    assert (u0 = u) as -> by congruence.
    exists header, d, u, u'. by repeat (split; [done|]).
Qed.

Lemma getUserById_cases id requesterId requesterRole w r w' :
  getUserById id requesterId requesterRole w = (r, w') →
  w' = w
  ∧ ∀ v, r = Ok v →
      ObjectId_isValid id = true
      ∧ ∃ u, users w !! ObjectId_hex id = Some u
             ∧ (requesterRole = RoleAdmin ∨ requesterId = id)
             ∧ v = view (ObjectId_hex id) u.
Proof.
  unfold getUserById, cast_id. intros Hrun.
  destruct (ObjectId_isValid id); cbn [negb] in Hrun;
    [|injection Hrun as <- <-; by split].
  unfold bind, findById, ret, throw in Hrun.
  destruct (users w !! ObjectId_hex id) as [u|];
    [|injection Hrun as <- <-; by split].
  destruct (negb (bool_decide (requesterRole = RoleAdmin))
            && negb (String.eqb requesterId id)) eqn:Hperm;
    injection Hrun as <- <-; [by split|].
  split; [done|]. intros v [= <-]. split; [done|].
  exists u. repeat split.
  apply andb_false_iff in Hperm as [Hp|Hp]; apply negb_false_iff in Hp.
  - left. by apply bool_decide_eq_true in Hp.
  - right. by apply String.eqb_eq.
Qed.

(** [GET /users/:id] never changes the world, and it answers with a user's
    view (id, username, role, isActive) only to an active user that the
    bearer token names and whose id is [:id] letter for letter, or who has
    the admin role; the view is the one of the document that [:id]
    denotes. *)
Theorem get_id_read_only (req : AuthRequest) (params_id : option string)
    (now : Time) (w : World) :
  (UserRoutes.get_id req params_id now w).2 = w
  ∧ (∀ reply w',
     UserRoutes.get_id req params_id now w = (Ok reply, w') →
     ∃ header d requester id target,
       authHeader req = Some header
       ∧ jwt_verify (nth 1 (split " " header) "") ACCESS_TOKEN_SECRET now
         = Some d
       ∧ users w !! userId d = Some requester ∧ isActive requester = true
       ∧ params_id = Some id ∧ users w !! ObjectId_hex id = Some target
       ∧ (userId d = id ∨ role requester = RoleAdmin)
       ∧ rp_data reply = mkUserView (ObjectId_hex id) (username target)
                           (role target) (isActive target)).
Proof.
  assert (Hcases : ∀ r w',
    UserRoutes.get_id req params_id now w = (r, w') →
    w' = w ∧ ∀ reply, r = Ok reply →
      ∃ header d requester id target,
        authHeader req = Some header
        ∧ jwt_verify (nth 1 (split " " header) "") ACCESS_TOKEN_SECRET now
          = Some d
        ∧ users w !! userId d = Some requester ∧ isActive requester = true
        ∧ params_id = Some id ∧ users w !! ObjectId_hex id = Some target
        ∧ (userId d = id ∨ role requester = RoleAdmin)
        ∧ rp_data reply = mkUserView (ObjectId_hex id) (username target)
                            (role target) (isActive target)).
  { intros r w' Hrun. unfold UserRoutes.get_id in Hrun.
    apply bind_authProtect in Hrun
      as [[-> [e ->]] | (header & d & requester & Hh & _ & Hv & Hl & Hact & Hrun)];
      [by split|].
    unfold UserController.getUserById in Hrun.
    cbn [req_userId req_userRole] in Hrun.
    destruct (truthy params_id) eqn:Hid; cbn [negb] in Hrun;
      [|injection Hrun as <- <-; by split].
    apply truthy_Some in Hid as (id & -> & _).
    destruct (negb (truthy (Some (userId d))));
      [injection Hrun as <- <-; by split|].
    change (default "" (Some id)) with id in Hrun.
    unfold bind in Hrun.
    destruct (getUserById id (userId d) (role requester) w) as [res w0] eqn:Hget.
    apply getUserById_cases in Hget as [-> Hok].
    destruct res as [v|err]; injection Hrun as <- <-; [|by split].
    split; [done|]. intros reply [= <-].
    destruct (Hok v eq_refl) as (_ & target & Htgt & Hperm & ->).
    exists header, d, requester, id, target. repeat split; try done.
    destruct Hperm; [by right|by left]. }
  split.
  - destruct (UserRoutes.get_id req params_id now w) as [r w'] eqn:Hrun.
    by destruct (Hcases r w' eq_refl).
  - intros reply w' Hrun. destruct (Hcases _ _ Hrun) as [_ Hok]. by apply Hok.
Qed.

(** ** What a request leaves alone *)

Ltac svc_run :=
  repeat (progress (unfold bind, ret, throw, throw_lib, try_catch_throw,
    verify_or_throw, findById, findOne, save, cast_id, findByIdAndUpdate,
    findByIdAndDelete, sendVerificationEmail, sendPasswordResetEmail));
  repeat first
  [ progress cbn beta iota
  | progress cbn [snd users outbox negb]
  | match goal with
    | |- context [create ?k ?doc ?w0] =>
        let Hl := fresh "Hl" in
        destruct (create_cases k doc w0)
          as [(? & ->) | [-> | (Hl & _ & _ & ->)]]
    | |- context [validate_modified ?old ?new ?w0] =>
        destruct (validate_modified_cases old new w0) as [-> | (? & ->)]
    | |- context [first_match ?q (users ?w0)] =>
        is_var w0;
        let Hf := fresh "Hf" in
        destruct (first_match q (users w0)) as [[? ?]|] eqn:Hf;
        [apply first_match_Some in Hf as [Hf _]|]
    | |- context [@lookup _ _ (gmap _ _) _ ?k (users ?w0)] =>
        is_var w0;
        let Hl := fresh "Hl" in destruct (users w0 !! k) eqn:Hl
    | |- context [if ?b then _ else _] => destruct b
    end ].

Lemma serve_document r now w id u u' :
  users w !! id = Some u →
  users (serve r now w) !! id = Some u' →
  email u' = email u
  ∧ (isVerified u = true → isVerified u' = true)
  ∧ match r with
    | AdminUpdateUser _ _ _ => True
    | _ => role u' = role u ∧ isActive u' = isActive u
    end
  ∧ match r with
    | UpdateProfile _ _ _ => True
    | _ => username u' = username u
    end
  ∧ match r with
    | UpdateProfile _ _ _ | ResetPassword _ _ _ => True
    | _ => password u' = password u
    end
  ∧ match r with
    | Login _ _ | Logout _ => True
    | _ => refreshToken u' = refreshToken u
    end.
Proof.
  intros Hl. destruct r; cbn [serve].
  10: {
    destruct (adminUpdateUser targetUserId input adminId w) as [res w'] eqn:Hrun.
    apply adminUpdateUser_cases in Hrun
      as [[-> _] | (_ & adm & tgt & _ & _ & _ & _ & Htgt & _ & ->)];
      cbn [snd users]; intros Hl'; [by simplify_eq|].
    destruct (decide (ObjectId_hex targetUserId = id)) as [<-|?];
      [rewrite lookup_insert_eq in Hl' | rewrite lookup_insert_ne in Hl' by done];
      simplify_eq; [|done].
    unfold apply_role_isActive.
    by destruct (p_role input), (p_isActive input). }
  all: [> unfold register | unfold resendVerificationEmail | unfold verifyEmail
    | unfold login | unfold forgotPassword | unfold resetPassword
    | rewrite refresh_world | unfold logout | unfold updateProfile
    | unfold deleteUser];
    svc_run; intros Hl';
    repeat match goal with
    | H : <[?k := _]> _ !! ?j = Some _ |- _ =>
        destruct (decide (k = j)) as [->|?];
        [rewrite lookup_insert_eq in H | rewrite lookup_insert_ne in H by done]
    | H : delete ?k _ !! ?j = Some _ |- _ =>
        apply lookup_delete_Some in H as [_ H]
    end;
    simplify_eq; done.
Qed.

Lemma serve_same_ids r now w id :
  touches_sessions r = false →
  users (serve r now w) !! id = None ↔ users w !! id = None.
Proof.
  intros Hr. destruct r; try discriminate Hr; cbn [serve];
    [> unfold resendVerificationEmail | unfold verifyEmail
    | unfold forgotPassword | unfold resetPassword
    | rewrite refresh_world | unfold updateProfile];
    svc_run; try done;
    try match goal with
    | |- <[?k := _]> _ !! _ = None ↔ _ =>
        destruct (decide (k = id)) as [->|?];
        [rewrite lookup_insert_eq | rewrite lookup_insert_ne by done]
    end;
    split; intros; by simplify_eq.
Qed.

(** Every request keeps the email of every account, and keeps a verified
    account verified. The role and the active flag of an account are
    changed by an admin update only, its username by a profile update
    only, its password by a profile update or a password reset only, and
    its stored refresh token by a login or a logout only. *)
Theorem who_writes_what (r : Request) (now : Time) (w : World)
    (id : ObjectId) (u u' : User) :
  users w !! id = Some u →
  users (serve r now w) !! id = Some u' →
  email u' = email u
  ∧ (isVerified u = true → isVerified u' = true)
  ∧ match r with
    | AdminUpdateUser _ _ _ => True
    | _ => role u' = role u ∧ isActive u' = isActive u
    end
  ∧ match r with
    | UpdateProfile _ _ _ => True
    | _ => username u' = username u
    end
  ∧ match r with
    | UpdateProfile _ _ _ | ResetPassword _ _ _ => True
    | _ => password u' = password u
    end
  ∧ match r with
    | Login _ _ | Logout _ => True
    | _ => refreshToken u' = refreshToken u
    end.
Proof. apply serve_document. Qed.

(** Sessions survive everything but a login, a logout, an admin update and
    a deletion: after any other request on existing accounts (resending
    or using a verification token, asking for or using a reset token, a
    refresh, a profile update) [refresh] answers every cookie as it did
    before. *)
Theorem sessions_survive (r : Request) (now : Time) (w : World) :
  touches_sessions r = false →
  ∀ cookie now',
    (refresh cookie now' (serve r now w)).1 = (refresh cookie now' w).1.
Proof.
  intros Hr cookie now'. apply refresh_depends_on. intros id.
  destruct (users w !! id) as [u|] eqn:Hl.
  - destruct (users (serve r now w) !! id) as [u'|] eqn:Hl'.
    + destruct (serve_document r now w id u u' Hl Hl')
        as (_ & _ & Hpriv & _ & _ & Htok).
      destruct r; try discriminate Hr; destruct Hpriv as [_ Hact];
        cbn [fmap option_fmap option_map]; by rewrite Htok, Hact.
    + apply (serve_same_ids r now w id Hr) in Hl'. congruence.
  - apply (serve_same_ids r now w id Hr) in Hl. by rewrite Hl.
Qed.

(** ** An invariant of the collection: the bounds of the schema *)

Lemma lookup_insert_None_ne (m : gmap ObjectId User) k id v u :
  m !! k = Some v → m !! id = None → <[k := u]> m !! id = None.
Proof.
  intros Hk Hid. destruct (decide (k = id)) as [->|?]; [congruence|].
  by rewrite lookup_insert_ne.
Qed.

(** A document that a request adds to the collection is within the bounds
    of the schema. *)
Lemma serve_creates r now w id u' :
  users w !! id = None →
  users (serve r now w) !! id = Some u' →
  within_schema u'.
Proof.
  intros Hl.
  destruct (touches_sessions r) eqn:Hr.
  2: { intros Hl'. apply (serve_same_ids r now w id Hr) in Hl. congruence. }
  destruct r; try discriminate Hr; cbn [serve].
  - unfold register.
    destruct (_ || _); [unfold throw; cbn [snd]; congruence|].
    unfold bind at 1, findOne.
    destruct (first_match _ _); [unfold throw; cbn [snd]; congruence|].
    unfold bind at 1.
    match goal with |- context [create newId ?doc w] =>
      destruct (create_cases newId doc w)
        as [(errors & ->) | [-> | (_ & Hvn & Hve & ->)]]
    end; [cbn [snd]; congruence..|].
    unfold bind, sendVerificationEmail, ret. cbn [snd users].
    destruct (decide (newId = id)) as [->|?].
    + rewrite lookup_insert_eq. intros [= <-]. by split.
    + rewrite lookup_insert_ne by done. congruence.
  - unfold login. svc_run; intros Hl'; try congruence.
    by rewrite (lookup_insert_None_ne _ _ _ _ _ Hf Hl) in Hl'.
  - unfold logout. svc_run; intros Hl'; try congruence.
    by rewrite (lookup_insert_None_ne _ _ _ _ _ Hf Hl) in Hl'.
  - destruct (adminUpdateUser targetUserId input adminId w) as [res w'] eqn:Hrun.
    apply adminUpdateUser_cases in Hrun
      as [[-> _] | (_ & adm & tgt & _ & _ & _ & _ & Htgt & _ & ->)];
      cbn [snd users]; intros Hl'; [congruence|].
    by rewrite (lookup_insert_None_ne _ _ _ _ _ Htgt Hl) in Hl'.
  - destruct (deleteUser id0 requesterId requesterRole w) as [res w'] eqn:Hrun.
    apply deleteUser_cases in Hrun as [[-> _] | (_ & _ & u & _ & _ & ->)];
      cbn [snd users]; intros Hl'; [congruence|].
    apply lookup_delete_Some in Hl' as [_ Hl']. congruence.
Qed.

Lemma serve_within_schema r now w :
  (∀ id u, users w !! id = Some u → within_schema u) →
  ∀ id u, users (serve r now w) !! id = Some u → within_schema u.
Proof.
  intros Hinv id u' Hl'.
  destruct (users w !! id) as [u|] eqn:Hl; [|by eapply serve_creates].
  destruct (Hinv _ _ Hl) as [Hname Hmail].
  destruct (serve_document r now w id u u' Hl Hl') as (He & _ & _ & Hn & _).
  split; [|by rewrite He].
  destruct r; try (by rewrite Hn).
  cbn [serve] in Hl'.
  destruct (updateProfile id0 input salt w) as [res w'] eqn:Hrun.
  apply updateProfile_cases in Hrun
    as [[-> _] | (u0 & u1 & Hl0 & _ & Hvalid & _ & ->)]; cbn [snd users] in Hl'.
  { by simplify_eq. }
  destruct (decide (id0 = id)) as [->|?];
    [rewrite lookup_insert_eq in Hl' | rewrite lookup_insert_ne in Hl' by done];
    simplify_eq; [|done].
  by destruct Hvalid as [-> | ?].
Qed.

(** In every collection that the service reaches, each account has a
    username that is not empty and counts between 2 and 15 characters, and
    an email that is not empty: [User.create] validates what [register]
    stores, [save] validates the username that [updateProfile] changes,
    and nothing else writes the two fields. *)
Theorem reachable_within_schema (w : World) (id : ObjectId) (u : User) :
  reachable w →
  users w !! id = Some u →
  username u ≠ "" ∧ (2 ≤ js_length (username u) ≤ 15)%nat ∧ email u ≠ "".
Proof.
  intros Hreach Hl.
  assert (Hinv : within_schema u).
  { revert id u Hl. induction Hreach as [|w r now _ IH _].
    - intros id u Hl. cbn [users] in Hl. by rewrite lookup_empty in Hl.
    - by apply serve_within_schema. }
  destruct Hinv as [Hname Hmail].
  apply validate_username_nil in Hname as [? ?].
  by apply validate_email_nil in Hmail.
Qed.

End Coverage.

(** ** parseQuery *)

Section ParseQueryProperties.
Context {js_lib : JsString} {js : QueryHelper.JsRuntime}.
Import QueryHelper.

(** The page size that [parseQuery] hands on is capped: it is 10 when the
    query has no (or an empty) [limit], a number between 1 and 100 when
    [parseInt] reads a number from it (values below 1 become 1, values
    above 100 become 100), and [NaN] when [parseInt] reads none. *)
Theorem parseQuery_limit (query : Query) :
  (∀ n, limit (parseQuery query) = Some n → (1 ≤ n ≤ 100)%Z)
  ∧ (truthy (q_limit query) = false → limit (parseQuery query) = Some 10%Z)
  ∧ (∀ s, q_limit query = Some s → s ≠ "" →
     limit (parseQuery query) = (λ n, Z.min 100 (Z.max 1 n)) <$> parseInt s).
Proof.
  unfold parseQuery, Math_min, Math_max. cbn [limit]. split; [|split].
  - intros n. destruct (truthy (q_limit query)).
    + destruct (parseInt _) as [m|]; [|discriminate]. intros [= <-]. lia.
    + intros [= <-]. lia.
  - by intros ->.
  - intros s -> Hne. rewrite (truthy_of_Some _ Hne).
    change (default "" (Some s)) with s. by destruct (parseInt s).
Qed.

End ParseQueryProperties.

(** ** generateSku *)

Section SkuProperties.
Import Sku.

Lemma upper_char_alnum c : is_alnum c = true → sku_char (upper_char c).
Proof.
  destruct c as [[] [] [] [] [] [] [] []]; vm_compute; try done; discriminate.
Qed.

Lemma keep_chars p s : Forall (λ c, p c = true) (list_ascii_of_string (keep p s)).
Proof.
  induction s as [|c s IH]; simpl; [constructor|].
  destruct (p c) eqn:Hp; [|done]. simpl. by constructor.
Qed.

Lemma substring_chars (P : ascii → Prop) n m s :
  Forall P (list_ascii_of_string s) →
  Forall P (list_ascii_of_string (String.substring n m s)).
Proof.
  revert n m. induction s as [|c s IH]; intros n m Hall.
  - destruct n, m; constructor.
  - apply Forall_cons in Hall as [Hc Hall].
    destruct n as [|n]; [destruct m as [|m]|]; simpl; [constructor| |by apply IH].
    constructor; [done|by apply IH].
Qed.

Lemma substring_length n s :
  (String.length (String.substring 0 n s) ≤ n)%nat.
Proof.
  revert s. induction n as [|n IH]; intros [|c s]; simpl; try lia.
  specialize (IH s). lia.
Qed.

Lemma toUpperCase_length s : String.length (toUpperCase s) = String.length s.
Proof. induction s; simpl; congruence. Qed.

Lemma toUpperCase_chars s :
  Forall (λ c, is_alnum c = true) (list_ascii_of_string s) →
  Forall sku_char (list_ascii_of_string (toUpperCase s)).
Proof.
  induction s as [|c s IH]; simpl; intros Hall; [constructor|].
  apply Forall_cons in Hall as [Hc Hall].
  constructor; [by apply upper_char_alnum|by apply IH].
Qed.

Lemma toUpperCase_fixed s :
  Forall sku_char (list_ascii_of_string s) → toUpperCase s = s.
Proof.
  induction s as [|c s IH]; simpl; intros Hall; [done|].
  apply Forall_cons in Hall as [Hc Hall]. rewrite IH by done. f_equal.
  revert Hc. unfold sku_char.
  destruct c as [[] [] [] [] [] [] [] []]; vm_compute; try done; discriminate.
Qed.

Lemma keep_fixed p s :
  Forall (λ c, p c = true) (list_ascii_of_string s) → keep p s = s.
Proof.
  induction s as [|c s IH]; simpl; intros Hall; [done|].
  apply Forall_cons in Hall as [-> Hall]. by rewrite IH.
Qed.

Lemma substring_short n s :
  (String.length s ≤ n)%nat → String.substring 0 n s = s.
Proof.
  revert n. induction s as [|c s IH]; intros [|n] Hlen; simpl in *;
    try done; try lia.
  rewrite IH; [done|lia].
Qed.

Lemma clean_chars str : Forall sku_char (list_ascii_of_string (clean str)).
Proof.
  unfold clean. apply toUpperCase_chars, substring_chars, keep_chars.
Qed.

Lemma clean_length str : (String.length (clean str) ≤ 4)%nat.
Proof. unfold clean. rewrite toUpperCase_length. apply substring_length. Qed.

(** [clean] gives at most four characters, each an upper-case letter or a
    digit of ASCII, and changes nothing when applied again: what it gives
    is already clean. *)
Theorem clean_spec (str : string) :
  (String.length (clean str) ≤ 4)%nat
  ∧ Forall sku_char (list_ascii_of_string (clean str))
  ∧ clean (clean str) = clean str.
Proof.
  split; [apply clean_length|]. split; [apply clean_chars|].
  - pose proof (clean_chars str) as Hc.
    pose proof (clean_length str) as Hlen.
    unfold clean at 1. rewrite keep_fixed, substring_short, toUpperCase_fixed;
      try done.
    eapply Forall_impl; [exact Hc|]. intros c Hsku. unfold sku_char in Hsku.
    unfold is_alnum. apply orb_true_iff in Hsku as [->| ->];
      by rewrite ?orb_true_r.
Qed.

Lemma split_no_sep sep s :
  Forall (λ c, c ≠ sep) (list_ascii_of_string s) → split sep s = [s].
Proof.
  induction s as [|c s IH]; simpl; intros Hall; [done|].
  apply Forall_cons in Hall as [Hc Hall].
  destruct (Ascii.eqb_spec c sep); [done|]. by rewrite IH.
Qed.

Lemma split_app sep s1 s2 :
  Forall (λ c, c ≠ sep) (list_ascii_of_string s1) →
  split sep (s1 ++ String sep s2) = s1 :: split sep s2.
Proof.
  induction s1 as [|c s1 IH]; simpl; intros Hall.
  - by rewrite Ascii.eqb_refl.
  - apply Forall_cons in Hall as [Hc Hall].
    destruct (Ascii.eqb_spec c sep); [done|]. by rewrite IH.
Qed.

Lemma char_append c s : String c "" ++ s = String c s.
Proof. reflexivity. Qed.

Lemma length_append s1 s2 :
  String.length (s1 ++ s2) = (String.length s1 + String.length s2)%nat.
Proof. induction s1 as [|c s1 IH]; simpl; [done|by rewrite IH]. Qed.

Lemma toUpperCase_app s1 s2 :
  toUpperCase (s1 ++ s2) = toUpperCase s1 ++ toUpperCase s2.
Proof. induction s1 as [|c s1 IH]; simpl; [done|by rewrite IH]. Qed.

Lemma sku_char_not_dash s :
  Forall sku_char (list_ascii_of_string s) →
  Forall (λ c, c ≠ "-"%char) (list_ascii_of_string s).
Proof.
  intros Hall. eapply Forall_impl; [exact Hall|].
  intros c Hc ->. discriminate Hc.
Qed.

Lemma shortHash_chars b1 b2 b3 :
  Forall sku_char (list_ascii_of_string (shortHash b1 b2 b3))
  ∧ String.length (shortHash b1 b2 b3) = 6%nat.
Proof.
  assert (Hbyte : ∀ b : Byte.byte,
    sku_char (upper_char (hex_digit (Byte.to_N b / 16)))
    ∧ sku_char (upper_char (hex_digit (Byte.to_N b mod 16)))).
  { intros b. destruct b; vm_compute; done. }
  split; [|done].
  unfold shortHash. simpl.
  destruct (Hbyte b1), (Hbyte b2), (Hbyte b3).
  repeat constructor; done.
Qed.

(** A generated SKU is made of the three cleaned names and the six
    upper-case hexadecimal digits of the random bytes, joined by dashes,
    and splitting it at the dashes gives the four pieces back, whatever
    the category, the colour and the size are. It is at most 21
    characters long and already in upper case. *)
Theorem generateSku_split (category color size : string)
    (b1 b2 b3 : Byte.byte) :
  let sku := generateSku category color size b1 b2 b3 in
  split "-" sku =
    [clean category; clean color; clean size; shortHash b1 b2 b3]
  ∧ (String.length sku ≤ 21)%nat
  ∧ toUpperCase sku = sku.
Proof.
  cbn zeta. unfold generateSku.
  pose proof (clean_length category) as Hl1.
  pose proof (clean_length color) as Hl2.
  pose proof (clean_length size) as Hl3.
  pose proof (clean_chars category) as Hc1.
  pose proof (clean_chars color) as Hc2.
  pose proof (clean_chars size) as Hc3.
  destruct (shortHash_chars b1 b2 b3) as [Hc4 Hl4].
  rewrite !char_append.
  split; [|split].
  - rewrite !split_app by by apply sku_char_not_dash.
    by rewrite split_no_sep by by apply sku_char_not_dash.
  - rewrite !length_append. cbn [String.length].
    rewrite !length_append. cbn [String.length].
    rewrite !length_append. cbn [String.length]. lia.
  - rewrite toUpperCase_app. cbn [toUpperCase].
    rewrite toUpperCase_app. cbn [toUpperCase].
    rewrite toUpperCase_app. cbn [toUpperCase].
    rewrite !toUpperCase_fixed by done. reflexivity.
Qed.

End SkuProperties.

(** * The further properties on the concrete platform *)

Lemma register_rejects_witness :
  @register Demo.hashing Demo.strings Demo.clash_body "raw9" "s9" Demo.dave_id 100
    Demo.world =
    (Throw (ApiErr (mkApiError "User already exists" 409)), Demo.world).
Proof.
  apply (proj1 (proj2 (@register_rejects Demo.hashing Demo.strings
                         Demo.clash_body "raw9" "s9" Demo.dave_id 100
                         Demo.world)
                  " Alice@X.COM" "al" eq_refl eq_refl eq_refl)).
  exists Demo.alice_id, Demo.alice. split; [reflexivity|]. left. reflexivity.
Defined.

Lemma demo_world_users (P : ObjectId → User → Prop) :
  P Demo.alice_id Demo.alice → P Demo.bob_id Demo.bob →
  ∀ id u, users Demo.world !! id = Some u → P id u.
Proof.
  intros Ha Hb id u Hl. unfold Demo.world in Hl. cbn [users] in Hl.
  destruct (decide (id = Demo.alice_id)) as [->|];
    [rewrite lookup_insert_eq in Hl; by injection Hl as <-|].
  rewrite lookup_insert_ne in Hl by done.
  destruct (decide (id = Demo.bob_id)) as [->|];
    [rewrite lookup_insert_eq in Hl; by injection Hl as <-|].
  rewrite lookup_insert_ne in Hl by done. by rewrite lookup_empty in Hl.
Qed.

Lemma dave_is_new :
  (∀ id u, users Demo.world !! id = Some u →
     email u ≠ @cast_email Demo.strings "dave@x.com"
     ∧ username u ≠ @cast_username Demo.strings "dave")
  ∧ (∀ id u, users Demo.world !! id = Some u →
       emailVerificationToken u ≠ Some (@sha256 Demo.hashing "rawD")).
Proof.
  split; apply demo_world_users; try split; intros Heq; vm_compute in Heq;
    discriminate Heq.
Qed.

Lemma register_creates_witness :
  ∃ u', users (@register Demo.hashing Demo.strings Demo.dave_body "rawD" "s4" Demo.dave_id
                 100 Demo.world).2 !! Demo.dave_id = Some u'
        ∧ isVerified u' = false ∧ isActive u' = true ∧ role u' = RoleAdmin.
Proof.
  destruct (@register_creates Demo.hashing Demo.strings Demo.dave_body "rawD"
              "s4" Demo.dave_id 100 Demo.world "dave@x.com" "dave" "Pw4!dddd"
              eq_refl ltac:(discriminate) eq_refl ltac:(discriminate)
              eq_refl ltac:(discriminate) (proj1 dave_is_new)
              ltac:(vm_compute; discriminate) ltac:(vm_compute; discriminate)
              ltac:(vm_compute; lia) eq_refl)
    as (u' & w' & Hrun & Hl & _ & _ & Hver & Hact & Hrole & _).
  exists u'. rewrite Hrun. by repeat split.
Defined.

Lemma register_then_verifyEmail_witness :
  (@verifyEmail Demo.hashing "rawD" 86400099
     (@register Demo.hashing Demo.strings Demo.dave_body "rawD" "s4" Demo.dave_id 100
        Demo.world).2).1 = Ok "Email verified successfully"
  ∧ (@verifyEmail Demo.hashing "rawD" 86400100
       (@register Demo.hashing Demo.strings Demo.dave_body "rawD" "s4" Demo.dave_id 100
          Demo.world).2).1 =
      Throw (ApiErr (mkApiError "Invalid or expired token" 400)).
Proof.
  destruct (@register_then_verifyEmail Demo.hashing Demo.strings
              Demo.dave_body "rawD" "s4"
              Demo.dave_id 100 Demo.world "dave@x.com" "dave" "Pw4!dddd"
              eq_refl ltac:(discriminate) eq_refl ltac:(discriminate)
              eq_refl ltac:(discriminate) (proj1 dave_is_new)
              ltac:(vm_compute; discriminate) ltac:(vm_compute; discriminate)
              ltac:(vm_compute; lia) eq_refl (proj2 dave_is_new))
    as [Hin Hout].
  split.
  - destruct (Hin 86400099%Z ltac:(lia)) as (u'' & w'' & Hrun & _).
    by rewrite Hrun.
  - by rewrite (Hout 86400100%Z ltac:(lia)).
Defined.

(** Dave registers, verifies his address and logs in with it, written as
    he likes. *)
Lemma register_verify_login_witness :
  ∃ w3,
    @login Demo.jwt Demo.hashing Demo.strings "Dave@X.com" "Pw4!dddd" 3000
      (@verifyEmail Demo.hashing "rawD" 2000
         (@register Demo.hashing Demo.strings Demo.dave_caps "rawD" "s4"
            Demo.dave_id 100 Demo.world).2).2 =
      (Ok (mkLoginResult (mkSafeUser Demo.dave_id "dave" RoleAdmin)
             "acc.65a000000000000000000004#3000#903000"
             "ref.65a000000000000000000004#3000#86403000"), w3).
Proof.
  refine (proj2 (@register_verify_login Demo.jwt Demo.hashing Demo.strings
             Demo.dave_caps "rawD" "s4" Demo.dave_id 100 2000 3000 Demo.world
             "Dave@X.com" " dave " "Pw4!dddd"
             eq_refl ltac:(discriminate) eq_refl ltac:(discriminate)
             eq_refl ltac:(discriminate) _
             ltac:(vm_compute; discriminate) ltac:(vm_compute; discriminate)
             ltac:(vm_compute; lia) eq_refl (proj2 dave_is_new) _
             eq_refl ltac:(lia))).
  - apply demo_world_users; split; intros Heq; vm_compute in Heq;
      discriminate Heq.
  - apply demo_world_users; intros Heq; vm_compute in Heq; discriminate Heq.
Defined.

Lemma resend_replaces_token_witness :
  (@verifyEmail Demo.hashing "rawB" 2000
     (@resendVerificationEmail Demo.hashing Demo.strings "bob@x.com" "rawB2" 1000
        Demo.world).2).1 =
    Throw (ApiErr (mkApiError "Invalid or expired token" 400)).
Proof.
  assert (Hothers : ∀ id' v, id' ≠ Demo.bob_id →
            users Demo.world !! id' = Some v →
            emailVerificationToken v ≠ Some (@sha256 Demo.hashing "rawB")).
  { intros id' v Hne Hl. revert Hne.
    apply (demo_world_users
             (λ id u, id ≠ Demo.bob_id →
                emailVerificationToken u ≠ Some (@sha256 Demo.hashing "rawB")));
      [discriminate|done|done]. }
  assert (Hfresh : ∀ id' v, users Demo.world !! id' = Some v →
            emailVerificationToken v ≠ Some (@sha256 Demo.hashing "rawB2")).
  { apply demo_world_users; discriminate. }
  destruct (@resend_replaces_token Demo.hashing Demo.strings "bob@x.com"
              "rawB2" "rawB" 1000
              Demo.world Demo.bob_id Demo.bob eq_refl eq_refl eq_refl
              Hfresh Hothers)
    as (_ & Hold & _).
  by rewrite (Hold 2000%Z).
Defined.

Lemma forgot_then_reset_witness :
  (@resetPassword Demo.hashing "rawR" "New1!pwd" "s5" 3601000
     (@forgotPassword Demo.hashing Demo.strings "alice@x.com" "rawR" 1000 Demo.world).2).1 =
    Throw (ApiErr (mkApiError "Invalid or expired token" 400))
  ∧ ∃ w'', @resetPassword Demo.hashing "rawR" "New1!pwd" "s5" 3600999
             (@forgotPassword Demo.hashing Demo.strings "alice@x.com" "rawR" 1000
                Demo.world).2 = (Ok tt, w'').
Proof.
  assert (Hfresh : ∀ id' v, users Demo.world !! id' = Some v →
            passwordResetToken v ≠ Some (@sha256 Demo.hashing "rawR")).
  { apply demo_world_users; discriminate. }
  destruct (@forgot_then_reset Demo.hashing Demo.strings "alice@x.com" "rawR"
              "New1!pwd" "s5" 1000 Demo.world Demo.alice_id Demo.alice eq_refl Hfresh)
    as (_ & Hin & Hout).
  split.
  - by rewrite (Hout 3601000%Z ltac:(lia)).
  - destruct (Hin 3600999%Z ltac:(lia)) as (u'' & w'' & Hrun & _). eauto.
Defined.

Lemma login_then_refresh_witness :
  ∃ r w',
    @login Demo.jwt Demo.hashing Demo.strings "alice" "Pw1!aaaa" 5000 Demo.world = (Ok r, w')
    ∧ @refresh Demo.jwt (Some (refreshTkn r)) 6000 w' =
        (Ok (mkRefreshResult "acc.65a000000000000000000001#6000#906000"), w').
Proof.
  exact (@login_then_refresh Demo.jwt Demo.hashing Demo.strings "alice"
           "Pw1!aaaa" 5000 6000
           Demo.world Demo.alice_id Demo.alice
           (mkDecoded Demo.alice_id 5000 86405000)
           eq_refl eq_refl eq_refl eq_refl ltac:(discriminate) eq_refl eq_refl).
Defined.

Lemma disabled_account_locked_out_witness :
  @refresh Demo.jwt (Some Demo.alice_token) 2000 Demo.banned =
    (Throw (ApiErr (mkApiError "Unauthorized" 401)), Demo.banned).
Proof.
  destruct (@disabled_account_locked_out Demo.jwt Demo.hashing Demo.strings Demo.banned
              Demo.alice_id (set_isActive false Demo.alice) eq_refl eq_refl)
    as (_ & Hrefresh & _).
  exact (Hrefresh (Some Demo.alice_token) 2000%Z
           (mkDecoded Demo.alice_id 1000 86401000) eq_refl eq_refl).
Defined.

(** Bob the admin disables Alice's account, writing her id in capitals. *)
Lemma admin_ban_witness :
  ∃ u', users (@adminUpdateUser Demo.bson "65A000000000000000000001"
                 Demo.ban_body Demo.bob_id Demo.world).2 !! Demo.alice_id
        = Some u'
        ∧ isActive u' = false.
Proof.
  destruct (@adminUpdateUser Demo.bson "65A000000000000000000001"
              Demo.ban_body Demo.bob_id Demo.world)
    as [[r|e] w'] eqn:Hrun; [|vm_compute in Hrun; discriminate].
  destruct (@admin_ban Demo.jwt Demo.bson "65A000000000000000000001"
              Demo.bob_id Demo.ban_body Demo.world w' r Hrun eq_refl)
    as (_ & _ & Hu & _).
  exact Hu.
Defined.

Lemma deleted_account_locked_out_witness :
  users (@deleteUser Demo.bson Demo.alice_id Demo.alice_id RoleUser
           Demo.world).2 !! Demo.alice_id = None.
Proof.
  destruct (@deleteUser Demo.bson Demo.alice_id Demo.alice_id RoleUser
              Demo.world) as [[r|e] w'] eqn:Hrun;
    [|vm_compute in Hrun; discriminate].
  destruct (@deleted_account_locked_out Demo.jwt Demo.bson Demo.alice_id
              Demo.alice_id RoleUser Demo.world w' r Hrun) as (_ & Hgone & _).
  exact Hgone.
Defined.

(** Alice may not delete Bob: the world stays; Bob the admin may delete
    Alice. *)
Lemma delete_id_authorized_witness :
  (@UserRoutes.delete_id Demo.jwt Demo.bson Demo.alice_request
     (Some Demo.bob_id) 3000 Demo.world).2 = Demo.world
  ∧ users (@UserRoutes.delete_id Demo.jwt Demo.bson Demo.bob_request
             (Some Demo.alice_id) 3000 Demo.world).2 !! Demo.alice_id = None.
Proof.
  split.
  - destruct (@delete_id_authorized Demo.jwt Demo.bson Demo.alice_request
                (Some Demo.bob_id) 3000 Demo.world _ _
                (surjective_pairing _))
      as [Hsame | (header & d & requester & id & target & Hh & Hv & Hl & _
                   & Hid & Hperm & _)]; [exact Hsame|exfalso].
    injection Hh as <-. injection Hv as <-. injection Hl as <-.
    injection Hid as <-. by destruct Hperm.
  - destruct (@delete_id_authorized Demo.jwt Demo.bson Demo.bob_request
                (Some Demo.alice_id) 3000 Demo.world _ _
                (surjective_pairing _))
      as [Hsame | (header & d & requester & id & target & _ & _ & _ & _
                   & Hid & _ & _ & Hw')].
    + exfalso. apply (f_equal (λ w, users w !! Demo.alice_id)) in Hsame.
      vm_compute in Hsame. discriminate.
    + rewrite Hw'. injection Hid as <-. apply lookup_delete_eq.
Defined.

Lemma patch_id_admin_authorized_witness :
  (@UserRoutes.patch_id_admin Demo.jwt Demo.bson Demo.alice_request
     (Some Demo.bob_id)
     Demo.ban_body 3000 Demo.world).2 = Demo.world.
Proof.
  destruct (@patch_id_admin_authorized Demo.jwt Demo.bson Demo.alice_request
              (Some Demo.bob_id) Demo.ban_body 3000 Demo.world _ _
              (surjective_pairing _))
    as [Hsame | (header & d & admin & id & target & Hh & Hv & Hl & _ & Hrole
                 & _)]; [exact Hsame|exfalso].
  injection Hh as <-. injection Hv as <-. injection Hl as <-.
  discriminate Hrole.
Defined.

Lemma patch_me_self_only_witness :
  users (@UserRoutes.patch_me Demo.jwt Demo.hashing Demo.bson Demo.strings Ok
           Demo.alice_request
           (mkPartialUser (Some "alicia") None None None None None None None
              None None None) "s6" 3000 Demo.world).2 !! Demo.bob_id
  = Some Demo.bob.
Proof.
  destruct (@patch_me_self_only Demo.jwt Demo.hashing Demo.bson Demo.strings Ok
              Demo.alice_request
              (mkPartialUser (Some "alicia") None None None None None None
                 None None None None) "s6" 3000 Demo.world _ _
              (surjective_pairing _))
    as [-> | (header & d & u & u' & Hh & Hv & _ & _ & _ & ->)];
    [reflexivity|].
  injection Hh as <-. injection Hv as <-. reflexivity.
Defined.

Lemma get_id_read_only_witness :
  (@UserRoutes.get_id Demo.jwt Demo.bson Demo.alice_request (Some Demo.bob_id)
     3000 Demo.world).2 = Demo.world.
Proof.
  exact (proj1 (@get_id_read_only Demo.jwt Demo.bson Demo.alice_request
                  (Some Demo.bob_id) 3000 Demo.world)).
Defined.

(** Alice's document before and after her login at time 5000. *)
Lemma who_writes_what_witness :
  email Demo.alice_again = email Demo.alice
  ∧ role Demo.alice_again = role Demo.alice
  ∧ isActive Demo.alice_again = isActive Demo.alice
  ∧ username Demo.alice_again = username Demo.alice
  ∧ password Demo.alice_again = password Demo.alice.
Proof.
  destruct (@who_writes_what Demo.jwt Demo.hashing Demo.bson Demo.strings
              (Login "alice" "Pw1!aaaa") 5000 Demo.world Demo.alice_id
              Demo.alice Demo.alice_again eq_refl eq_refl)
    as (He & _ & [Hr Ha] & Hn & Hp & _).
  by repeat split.
Defined.

Lemma sessions_survive_witness :
  (@refresh Demo.jwt (Some Demo.alice_token) 5000
     (@serve Demo.jwt Demo.hashing Demo.bson Demo.strings
        (ResetPassword "resetB" "New1!pwd" "s7") 1000 Demo.world)).1 =
    (@refresh Demo.jwt (Some Demo.alice_token) 5000 Demo.world).1.
Proof.
  exact (@sessions_survive Demo.jwt Demo.hashing Demo.bson Demo.strings
           (ResetPassword "resetB" "New1!pwd" "s7") 1000 Demo.world eq_refl
           (Some Demo.alice_token) 5000%Z).
Defined.

Lemma reachable_within_schema_witness :
  username Demo.carol ≠ ""
  ∧ (2 ≤ @js_length Demo.strings (username Demo.carol) ≤ 15)%nat
  ∧ email Demo.carol ≠ "".
Proof.
  exact (@reachable_within_schema Demo.jwt Demo.hashing Demo.bson Demo.strings
           Demo.after_register Demo.carol_id Demo.carol
           reachable_after_register eq_refl).
Defined.

Lemma parseQuery_limit_witness :
  QueryHelper.limit
    (@QueryHelper.parseQuery Demo.strings Demo.js
       (QueryHelper.mkQuery None (Some "500") None None None)) = Some 100%Z.
Proof.
  exact (proj2 (proj2 (@parseQuery_limit Demo.strings Demo.js
                         (QueryHelper.mkQuery None (Some "500") None None None)))
           "500" eq_refl ltac:(discriminate)).
Defined.
